(** * Exhibition controller: a shallow embedding of [exhibition_controller.py]

    The controller is a Python class whose methods mutate [self] (the
    configuration dictionary, the prompt table, the list of spawned
    processes, the running flag) and the host (file system, standard input,
    random generator, wall clock).  Methods are embedded as computations in
    a state-and-exception monad over a [world] that holds both.  External
    programs (the point-cloud tool, the converters, the browser) and the
    host's read-only facts (operating system, environment variables, home
    and working directories, pathlib's parsing and printing of paths) are
    fields of a [platform] record.

    Console output ([print]) is not modelled.  Strings are sequences of
    8-bit characters; [str.strip] and [str.lower] are modelled on ASCII. *)

From Stdlib Require Import ZArith Ascii String.
From stdpp Require Import base option list gmap strings.

Set Warnings "-register-all".

Local Open Scope Z_scope.
Local Open Scope nat_scope.

(** ** Python strings *)

Module Str.

Definition isspace (c : ascii) : bool :=
  let n := nat_of_ascii c in
  ((9 <=? n) && (n <=? 13)) || ((28 <=? n) && (n <=? 32)).

Definition lower_char (c : ascii) : ascii :=
  let n := nat_of_ascii c in
  if (65 <=? n) && (n <=? 90) then ascii_of_nat (n + 32) else c.

Fixpoint lower (s : string) : string :=
  match s with
  | EmptyString => EmptyString
  | String c s' => String (lower_char c) (lower s')
  end.

Fixpoint lstrip (s : string) : string :=
  match s with
  | EmptyString => EmptyString
  | String c s' => if isspace c then lstrip s' else s
  end.

Fixpoint rstrip (s : string) : string :=
  match s with
  | EmptyString => EmptyString
  | String c s' =>
      match rstrip s' with
      | EmptyString => if isspace c then EmptyString else String c EmptyString
      | r => String c r
      end
  end.

(** [s.strip()] *)
Definition strip (s : string) : string := rstrip (lstrip s).

(** [s.startswith(p)] *)
Fixpoint startswith (s p : string) {struct p} : bool :=
  match p with
  | EmptyString => true
  | String a p' =>
      match s with
      | EmptyString => false
      | String b s' => if ascii_dec a b then startswith s' p' else false
      end
  end.

(** [s[n:]] *)
Fixpoint drop (n : nat) (s : string) : string :=
  match n, s with
  | O, _ => s
  | S n', String _ s' => drop n' s'
  | S _, EmptyString => EmptyString
  end.

(** [s.replace(old, new, 1)]: the leftmost occurrence of [old] is replaced;
    an empty [old] matches in front of the string. *)
Fixpoint replace_first (old new s : string) : string :=
  if startswith s old then new +:+ drop (String.length old) s
  else match s with
       | EmptyString => EmptyString
       | String c s' => String c (replace_first old new s')
       end.

(** [sub in s] *)
Fixpoint contains (s sub : string) : bool :=
  startswith s sub ||
  match s with
  | EmptyString => false
  | String _ s' => contains s' sub
  end.

(** [sep.join(l)] *)
Fixpoint join (sep : string) (l : list string) : string :=
  match l with
  | [] => EmptyString
  | [x] => x
  | x :: l' => x +:+ sep +:+ join sep l'
  end.

End Str.

(** ** JSON values and Python dictionaries

    [json.load] yields [None], booleans, numbers, strings, lists and
    dictionaries with string keys.  Numbers are modelled as integers.  A
    dictionary keeps its keys in insertion order. *)

Inductive json :=
| JNull
| JBool (b : bool)
| JNum (z : Z)
| JStr (s : string)
| JArr (l : list json)
| JObj (l : list (string * json)).

Definition dict := list (string * json).

(** Python truthiness, as tested by [not x] and [if x]. *)
Definition truthy (v : json) : bool :=
  match v with
  | JNull => false
  | JBool b => b
  | JNum z => negb (z =? 0)%Z
  | JStr s => negb (bool_decide (s = EmptyString))
  | JArr l => negb (bool_decide (length l = 0))
  | JObj l => negb (bool_decide (length l = 0))
  end.

(** [v == s] for a string literal [s] *)
Definition eq_str (v : json) (s : string) : bool :=
  match v with
  | JStr t => bool_decide (t = s)
  | _ => false
  end.

Module Dict.

Fixpoint lookup (k : string) (d : dict) : option json :=
  match d with
  | [] => None
  | (k', v) :: d' => if bool_decide (k' = k) then Some v else lookup k d'
  end.

(** [d.get(k)], which is [None] for a missing key *)
Definition get (k : string) (d : dict) : json := default JNull (lookup k d).

(** [d.get(k, dflt)] *)
Definition get_default (k : string) (dflt : json) (d : dict) : json :=
  default dflt (lookup k d).

(** [d[k] = v]: an existing key keeps its position, a new one goes last. *)
Fixpoint set (k : string) (v : json) (d : dict) : dict :=
  match d with
  | [] => [(k, v)]
  | (k', v') :: d' =>
      if bool_decide (k' = k) then (k, v) :: d' else (k', v') :: set k v d'
  end.

End Dict.

(** ** [json.dumps(v, indent=4)]

    The encoder of Python's [json] module with its defaults
    ([ensure_ascii=True], separators [","] and [": "]). *)

Module Json.

Definition nl : string := String "010"%char EmptyString.
Definition dq : string := String "034"%char EmptyString.
Definition backslash : string := String "092"%char EmptyString.

Definition hex_digit (n : nat) : ascii :=
  if n <? 10 then ascii_of_nat (48 + n) else ascii_of_nat (87 + n).

(** One character of a string literal: the quote and the backslash are
    escaped, the named control characters have their short escapes, and
    everything else outside [' '..'~'] is written as [\u00xx]. *)
Definition escape_char (c : ascii) : string :=
  let n := nat_of_ascii c in
  if n =? 34 then backslash +:+ dq
  else if n =? 92 then backslash +:+ backslash
  else if n =? 8 then backslash +:+ "b"
  else if n =? 12 then backslash +:+ "f"
  else if n =? 10 then backslash +:+ "n"
  else if n =? 13 then backslash +:+ "r"
  else if n =? 9 then backslash +:+ "t"
  else if (32 <=? n) && (n <=? 126) then String c EmptyString
  else backslash +:+ "u00" +:+
       String (hex_digit (n / 16)) (String (hex_digit (n mod 16)) EmptyString).

Fixpoint escape (s : string) : string :=
  match s with
  | EmptyString => EmptyString
  | String c s' => escape_char c +:+ escape s'
  end.

Definition encode_string (s : string) : string := dq +:+ escape s +:+ dq.

Fixpoint digits_of (fuel n : nat) (acc : string) : string :=
  match fuel with
  | O => acc
  | S fuel' =>
      let acc' := String (ascii_of_nat (48 + n mod 10)) acc in
      if n <? 10 then acc' else digits_of fuel' (n / 10) acc'
  end.

Definition encode_nat (n : nat) : string := digits_of (S n) n EmptyString.

Definition encode_int (z : Z) : string :=
  if (z <? 0)%Z then "-" +:+ encode_nat (Z.to_nat (- z)) else encode_nat (Z.to_nat z).

Fixpoint spaces (n : nat) : string :=
  match n with
  | O => EmptyString
  | S n' => String " "%char (spaces n')
  end.

(** Line break and indentation at nesting depth [level]. *)
Definition newline_indent (level : nat) : string := nl +:+ spaces (4 * level).

Fixpoint encode (level : nat) (v : json) : string :=
  match v with
  | JNull => "null"
  | JBool true => "true"
  | JBool false => "false"
  | JNum z => encode_int z
  | JStr s => encode_string s
  | JArr [] => "[]"
  | JArr (x :: l) =>
      "[" +:+ newline_indent (S level) +:+ encode (S level) x +:+
      (fix items (l : list json) : string :=
         match l with
         | [] => EmptyString
         | y :: l' => "," +:+ newline_indent (S level) +:+ encode (S level) y +:+ items l'
         end) l +:+
      newline_indent level +:+ "]"
  | JObj [] => "{}"
  | JObj ((k, x) :: l) =>
      "{" +:+ newline_indent (S level) +:+ encode_string k +:+ ": " +:+ encode (S level) x +:+
      (fix members (l : list (string * json)) : string :=
         match l with
         | [] => EmptyString
         | (k', y) :: l' =>
             "," +:+ newline_indent (S level) +:+ encode_string k' +:+ ": " +:+
             encode (S level) y +:+ members l'
         end) l +:+
      newline_indent level +:+ "}"
  end.

Definition dumps (v : json) : string := encode 0 v.

(** *** Decoding

    A decoder for JSON texts (RFC 8259) whose numbers are integers and
    whose strings hold characters below 256.  [fuel] bounds the nesting
    depth and the number of elements of an array or object. *)













End Json.

(** ** Paths and the file system

    A path is the tuple of its components, as [pathlib] keeps it in
    [Path.parts]; the empty tuple is the current directory.  The file
    system maps the paths that exist to what is there. *)

Inductive node :=
| File (content : string)
| Dir.

Module Path.

(** [p / name] for a name of one component (every name the controller
    joins is a literal or a [temp_<timestamp>] file name). *)
Definition joinpath (p : list string) (name : string) : list string :=
  p ++ [name].

(** [p.name] *)
Definition name (p : list string) : string := List.last p EmptyString.

(** Index of the last ['.'] of a string, [None] when there is none. *)
Fixpoint rfind_dot (s : string) : option nat :=
  match s with
  | EmptyString => None
  | String c s' =>
      match rfind_dot s' with
      | Some i => Some (S i)
      | None => if ascii_dec c "."%char then Some 0 else None
      end
  end.

Fixpoint take (n : nat) (s : string) : string :=
  match n, s with
  | S n', String c s' => String c (take n' s')
  | _, _ => EmptyString
  end.

(** The stem of a file name: the name without [PurePath.suffix], which is
    the part from the last dot on when that dot is neither the first nor
    the last character. *)
Definition stem (nm : string) : string :=
  match rfind_dot nm with
  | Some i =>
      if (0 <? i) && (i <? String.length nm - 1) then take i nm else nm
  | None => nm
  end.

(** [p.with_suffix(suffix)]: [ValueError] on a path with an empty name. *)
Definition with_suffix (p : list string) (suffix : string) : option (list string) :=
  match name p with
  | EmptyString => None
  | nm => Some (removelast p ++ [stem nm +:+ suffix])
  end.

End Path.

Infix "//" := Path.joinpath (at level 40, left associativity).

Section FileSystem.

Context (fs : gmap (list string) node).

(** [p.exists()] *)
Definition exists_ (p : list string) : bool :=
  match p with
  | [] => true
  | _ => match fs !! p with Some _ => true | None => false end
  end.

(** [p.is_dir()] *)
Definition is_dir (p : list string) : bool :=
  match p with
  | [] => true
  | _ => match fs !! p with Some Dir => true | _ => false end
  end.

(** The entries directly inside directory [d]. *)
Definition is_child (d p : list string) : bool :=
  bool_decide (removelast p = d ∧ p ≠ []).

Definition iterdir (d : list string) : list (list string) :=
  filter (λ p, is_child d p = true) (fst <$> map_to_list fs).

(** [d.glob(prefix + "*")]: the entries of [d] whose name starts with
    [prefix], files and directories alike.  The host lists them in an order
    of its own; the model lists them in the order of the map. *)
Definition glob_prefix (d : list string) (prefix : string) : list (list string) :=
  filter (λ p, Str.startswith (Path.name p) prefix = true) (iterdir d).

(** [d.rglob(nm)]: every entry called [nm] at any depth below [d]. *)
Definition rglob (d : list string) (nm : string) : list (list string) :=
  filter (λ p, bool_decide (d `prefix_of` removelast p ∧ p ≠ [] ∧ Path.name p = nm))
         (fst <$> map_to_list fs).

End FileSystem.

(** ** Exceptions and results *)

Inductive exn :=
| KeyError (key : string)
| TypeError
| ValueError
| IndexError
| EOFError
| FileNotFoundError
| FileExistsError
| IsADirectoryError
| NotADirectoryError
| SameFileError
| TimeoutExpired
| OSError.

Inductive result (A : Type) :=
| Ok (a : A)
| Raise (e : exn).

Arguments Ok {A} a.
Arguments Raise {A} e.

(** ** File operations *)

Module FS.

(** [open(p, 'w')] followed by [f.write(text)] *)
Definition write_text (p : list string) (text : string)
    (fs : gmap (list string) node) : result (gmap (list string) node) :=
  match p with
  | [] => Raise IsADirectoryError
  | _ =>
      match fs !! p with
      | Some Dir => Raise IsADirectoryError
      | _ =>
          if is_dir fs (removelast p) then Ok (<[p := File text]> fs)
          else if exists_ fs (removelast p) then Raise NotADirectoryError
          else Raise FileNotFoundError
      end
  end.

(** [p.unlink()] *)
Definition unlink (p : list string)
    (fs : gmap (list string) node) : result (gmap (list string) node) :=
  match fs !! p with
  | Some (File _) => Ok (delete p fs)
  | Some Dir => Raise IsADirectoryError
  | None => Raise FileNotFoundError
  end.

(** [shutil.copy2(src, dst)]: into [dst] when it is a directory, over
    [dst] otherwise.  File metadata is not modelled. *)
Definition copy2 (src dst : list string)
    (fs : gmap (list string) node) : result (gmap (list string) node) :=
  let dst := if is_dir fs dst then Path.joinpath dst (Path.name src) else dst in
  match fs !! src with
  | Some (File text) =>
      if bool_decide (src = dst) then Raise SameFileError
      else write_text dst text fs
  | Some Dir => Raise IsADirectoryError
  | None => Raise FileNotFoundError
  end.

(** [p.mkdir(parents=True, exist_ok=True)], walking down from the first
    component: missing directories are created, a regular file in the way
    is an error. *)
Fixpoint mkdirs (base rest : list string)
    (fs : gmap (list string) node) : result (gmap (list string) node) :=
  match rest with
  | [] => Ok fs
  | c :: rest' =>
      let p := base ++ [c] in
      match fs !! p with
      | Some Dir => mkdirs p rest' fs
      | Some (File _) =>
          Raise (match rest' with [] => FileExistsError | _ => NotADirectoryError end)
      | None => mkdirs p rest' (<[p := Dir]> fs)
      end
  end.

Definition mkdir_parents (p : list string)
    (fs : gmap (list string) node) : result (gmap (list string) node) :=
  mkdirs [] p fs.

End FS.

(** ** Wall clock *)

Record datetime := {
  year : nat; month : nat; day : nat;
  hour : nat; minute : nat; second : nat; microsecond : nat
}.

Module Datetime.

Definition digit (n : nat) : ascii := ascii_of_nat (48 + n mod 10).

Fixpoint pad (width n : nat) : string :=
  match width with
  | O => EmptyString
  | S w => pad w (n / 10) +:+ String (digit n) EmptyString
  end.

(** [dt.strftime("%Y%m%d_%H%M%S")] *)
Definition strftime_compact (dt : datetime) : string :=
  pad 4 (year dt) +:+ pad 2 (month dt) +:+ pad 2 (day dt) +:+ "_" +:+
  pad 2 (hour dt) +:+ pad 2 (minute dt) +:+ pad 2 (second dt).

(** [dt.isoformat()]: the fraction is left out when it is zero. *)
Definition isoformat (dt : datetime) : string :=
  pad 4 (year dt) +:+ "-" +:+ pad 2 (month dt) +:+ "-" +:+ pad 2 (day dt) +:+ "T" +:+
  pad 2 (hour dt) +:+ ":" +:+ pad 2 (minute dt) +:+ ":" +:+ pad 2 (second dt) +:+
  match microsecond dt with
  | O => EmptyString
  | us => "." +:+ pad 6 us
  end.

End Datetime.

(** ** Processes *)

(** What [subprocess.run] returns. *)
Record completed := {
  returncode : Z;
  stdout : string;
  stderr : string
}.

(** How the streamed point-cloud process ends: [Popen] itself fails,
    reading its output or waiting for it fails, or it exits. *)
Inductive stream_end :=
| SpawnFailed (e : exn)
| StreamFailed (e : exn)
| Exited (code : Z).

(** A [Popen] handle kept in [self.processes].  The three flags say how the
    operating system answers: [terminate] raises, the process ignores the
    termination request (so that [wait(timeout=5)] times out), [kill]
    raises. *)
Record process := {
  pid : nat;
  alive : bool;
  terminate_raises : bool;
  ignores_terminate : bool;
  kill_raises : bool
}.

(** What iterating a [csv.reader] yields: a row, or an exception (a
    decoding error, a [csv.Error]) that ends the iteration. *)
Inductive csv_event :=
| Row (cells : list string)
| Fault.

(** ** The host *)

Record platform := {
  (** [platform.system()] *)
  system : string;
  (** [sys.executable] *)
  sys_executable : string;
  (** [os.environ.get] *)
  environ : string → option string;
  (** [Path.home()] and [Path.cwd()] *)
  home : list string;
  cwd : list string;
  (** [Path(s)] and [str(p)] in the host's path flavour *)
  path_of : string → list string;
  path_str : list string → string;
  (** whether a first component is a root or a drive *)
  is_anchor : string → bool;
  (** the n-th number the random generator draws *)
  entropy : nat → nat;
  (** the n-th reading of the wall clock *)
  wall_clock : nat → datetime;
  (** [subprocess.run(cmd, shell=True, capture_output=True, text=True, cwd=cwd)] *)
  shell : string → option json → gmap (list string) node →
          result completed * gmap (list string) node;
  (** [subprocess.Popen(cmd, shell=True, cwd=cwd, env=env, ...)] with its
      output read to the end and [wait()]; [env] differs from
      [os.environ] in ["PATH"] only, which is the third argument *)
  popen_stream : string → json → string → gmap (list string) node →
          stream_end * gmap (list string) node;
  (** [subprocess.run(argv)] of a program that leaves the files alone *)
  run_argv : list string → result completed;
  (** [json.load] of the file called [name]: the document, or the error
      of [open] or of the parser *)
  json_load : string → gmap (list string) node → result json;
  (** [open(name, newline='', encoding='utf-8')] and [csv.reader] over it:
      [None] when the file cannot be opened, else what the reader yields *)
  csv_reader : string → gmap (list string) node → option (list csv_event)
}.

Inductive hook :=
| AtExit
| OnSignal (signum : string).

Record prompt_table := {
  Descriptions : list string;
  Materials : list string;
  Objects : list string
}.

(** ** The world: the controller object and the mutable host state *)

Record world := {
  (** fields of [self] *)
  config : dict;
  prompts : prompt_table;
  processes : list process;
  running : bool;
  (** the host *)
  fs : gmap (list string) node;
  stdin : list string;
  draws : nat;
  ticks : nat;
  hooks : list hook;
  (** the files the controller has opened for writing, oldest first *)
  writes : list (list string)
}.

Definition M (A : Type) : Type := world → result A * world.

Definition ret {A} (a : A) : M A := λ w, (Ok a, w).
Definition raise {A} (e : exn) : M A := λ w, (Raise e, w).

Definition bind {A B} (m : M A) (k : A → M B) : M B :=
  λ w, match m w with
       | (Ok a, w') => k a w'
       | (Raise e, w') => (Raise e, w')
       end.

(** [try: m except: h] with a bare [except] *)
Definition try_except {A} (m : M A) (h : M A) : M A :=
  λ w, match m w with
       | (Ok a, w') => (Ok a, w')
       | (Raise _, w') => h w'
       end.

Definition lift {A} (r : result A) : M A := λ w, (r, w).

Notation "'do' x <- m ; k" := (bind m (λ x, k))
  (at level 10, x name, m at level 100, k at level 200).
Notation "m ;; k" := (bind m (λ _, k))
  (at level 100, k at level 200, right associativity).

Definition get_world : M world := λ w, (Ok w, w).
Definition get_fs : M (gmap (list string) node) := λ w, (Ok (fs w), w).
Definition put_world (w : world) : M unit := λ _, (Ok tt, w).

Definition set_config (f : dict → dict) : M unit :=
  λ w, (Ok tt, {| config := f (config w); prompts := prompts w;
                  processes := processes w; running := running w;
                  fs := fs w; stdin := stdin w; draws := draws w;
                  ticks := ticks w; hooks := hooks w;
                  writes := writes w |}).

Definition set_prompts (t : prompt_table) : M unit :=
  λ w, (Ok tt, {| config := config w; prompts := t;
                  processes := processes w; running := running w;
                  fs := fs w; stdin := stdin w; draws := draws w;
                  ticks := ticks w; hooks := hooks w;
                  writes := writes w |}).

Definition set_processes (ps : list process) : M unit :=
  λ w, (Ok tt, {| config := config w; prompts := prompts w;
                  processes := ps; running := running w;
                  fs := fs w; stdin := stdin w; draws := draws w;
                  ticks := ticks w; hooks := hooks w;
                  writes := writes w |}).

Definition set_running (b : bool) : M unit :=
  λ w, (Ok tt, {| config := config w; prompts := prompts w;
                  processes := processes w; running := b;
                  fs := fs w; stdin := stdin w; draws := draws w;
                  ticks := ticks w; hooks := hooks w;
                  writes := writes w |}).

Definition set_fs (f : gmap (list string) node) : M unit :=
  λ w, (Ok tt, {| config := config w; prompts := prompts w;
                  processes := processes w; running := running w;
                  fs := f; stdin := stdin w; draws := draws w;
                  ticks := ticks w; hooks := hooks w;
                  writes := writes w |}).

Definition set_stdin (l : list string) : M unit :=
  λ w, (Ok tt, {| config := config w; prompts := prompts w;
                  processes := processes w; running := running w;
                  fs := fs w; stdin := l; draws := draws w;
                  ticks := ticks w; hooks := hooks w;
                  writes := writes w |}).

Definition set_draws (n : nat) : M unit :=
  λ w, (Ok tt, {| config := config w; prompts := prompts w;
                  processes := processes w; running := running w;
                  fs := fs w; stdin := stdin w; draws := n;
                  ticks := ticks w; hooks := hooks w;
                  writes := writes w |}).

Definition set_ticks (n : nat) : M unit :=
  λ w, (Ok tt, {| config := config w; prompts := prompts w;
                  processes := processes w; running := running w;
                  fs := fs w; stdin := stdin w; draws := draws w;
                  ticks := n; hooks := hooks w;
                  writes := writes w |}).

Definition add_hook (h : hook) : M unit :=
  λ w, (Ok tt, {| config := config w; prompts := prompts w;
                  processes := processes w; running := running w;
                  fs := fs w; stdin := stdin w; draws := draws w;
                  ticks := ticks w; hooks := hooks w ++ [h];
                  writes := writes w |}).

(** A file operation applied to the world's file system. *)
Definition fs_op (op : gmap (list string) node → result (gmap (list string) node)) : M unit :=
  λ w, match op (fs w) with
       | Ok f => set_fs f w
       | Raise e => (Raise e, w)
       end.

Definition log_write (p : list string) : M unit :=
  λ w, (Ok tt, {| config := config w; prompts := prompts w;
                  processes := processes w; running := running w;
                  fs := fs w; stdin := stdin w; draws := draws w;
                  ticks := ticks w; hooks := hooks w;
                  writes := writes w ++ [p] |}).

(** [with open(p, 'w') as f: f.write(text)] *)
Definition write_file (p : list string) (text : string) : M unit :=
  fs_op (FS.write_text p text) ;; log_write p.

(** [self.config[k]] *)
Definition config_item (k : string) : M json :=
  λ w, match Dict.lookup k (config w) with
       | Some v => (Ok v, w)
       | None => (Raise (KeyError k), w)
       end.

(** [self.config.get(k)] *)
Definition config_get (k : string) : M json :=
  λ w, (Ok (Dict.get k (config w)), w).

(** ** The controller *)

Section Controller.

Context (H : platform).

(** [datetime.now()] *)
Definition datetime_now : M datetime :=
  do w <- get_world;
  set_ticks (S (ticks w)) ;;
  ret (wall_clock H (ticks w)).

(** [random.choice(seq)]: [IndexError] on an empty sequence. *)
Definition random_choice (seq : list string) : M string :=
  match seq with
  | [] => raise IndexError
  | x :: _ =>
      do w <- get_world;
      set_draws (S (draws w)) ;;
      ret (nth (entropy H (draws w) mod length seq) seq x)
  end.

(** [input(...)]: [EOFError] when standard input is exhausted. *)
Definition input : M string :=
  do w <- get_world;
  match stdin w with
  | [] => raise EOFError
  | line :: rest => set_stdin rest ;; ret line
  end.

(** *** [load_prompts] *)

Definition is_none {A} (o : option A) : bool :=
  match o with None => true | Some _ => false end.

(** The loop over [enumerate(headers)]. *)
Fixpoint scan_headers (i : nat) (headers : list string)
    (idx : option nat * option nat * option nat)
    : option nat * option nat * option nat :=
  match headers with
  | [] => idx
  | h :: rest =>
      let h_clean := Str.lower (Str.strip h) in
      let '(desc_idx, mat_idx, obj_idx) := idx in
      scan_headers (S i) rest
        (if Str.startswith h_clean "description" && is_none desc_idx
         then (Some i, mat_idx, obj_idx)
         else if Str.startswith h_clean "material" && is_none mat_idx
         then (desc_idx, Some i, obj_idx)
         else if Str.startswith h_clean "object" && is_none obj_idx
         then (desc_idx, mat_idx, Some i)
         else idx)
  end.

Definition nonempty (s : string) : bool :=
  match s with EmptyString => false | _ => true end.

(** The loop over the rows; a fault of the reader leaves it through the
    enclosing [except], keeping what was appended so far. *)
Fixpoint read_rows (desc_idx mat_idx obj_idx : nat) (events : list csv_event)
    (t : prompt_table) : prompt_table :=
  match events with
  | [] => t
  | Fault :: _ => t
  | Row row :: rest =>
      read_rows desc_idx mat_idx obj_idx rest
        (if Nat.max desc_idx (Nat.max mat_idx obj_idx) <? length row then
           let desc := Str.strip (nth desc_idx row EmptyString) in
           let mat := Str.strip (nth mat_idx row EmptyString) in
           let obj := Str.strip (nth obj_idx row EmptyString) in
           if nonempty desc && nonempty mat && nonempty obj then
             {| Descriptions := Descriptions t ++ [desc];
                Materials := Materials t ++ [mat];
                Objects := Objects t ++ [obj] |}
           else t
         else t)
  end.

Definition no_prompts : prompt_table :=
  {| Descriptions := []; Materials := []; Objects := [] |}.

(** The table [load_prompts] leaves in [self.prompts], from what opening
    and reading the file gives. *)
Definition load_table (src : option (list csv_event)) : prompt_table :=
  match src with
  | None => no_prompts
  | Some [] => no_prompts
  | Some (Fault :: _) => no_prompts
  | Some (Row headers :: rows) =>
      match headers with
      | [] => no_prompts
      | _ =>
          match scan_headers 0 headers (None, None, None) with
          | (Some desc_idx, Some mat_idx, Some obj_idx) =>
              read_rows desc_idx mat_idx obj_idx rows no_prompts
          | _ => no_prompts
          end
      end
  end.

Definition load_prompts (prompts_path : string) : M unit :=
  do w <- get_world;
  set_prompts (load_table (csv_reader H prompts_path (fs w))).

(** *** [generate_random_prompt] *)

Definition nonempty_list {A} (l : list A) : bool :=
  match l with [] => false | _ => true end.

Definition generate_random_prompt : M string :=
  do w <- get_world;
  let t := prompts w in
  if negb (nonempty_list (Descriptions t) && nonempty_list (Materials t)
           && nonempty_list (Objects t))
  then ret "default object"
  else
    do description <- random_choice (Descriptions t);
    do material <- random_choice (Materials t);
    do object_type <- random_choice (Objects t);
    ret (Str.strip (description +:+ " " +:+ material +:+ " " +:+ object_type)).

(** *** Paths of the host *)

(** [Path(v)]: [TypeError] unless [v] is a string. *)
Definition Path_ (v : json) : M (list string) :=
  match v with
  | JStr s => ret (path_of H s)
  | _ => raise TypeError
  end.

(** [p.parent]: a root is its own parent. *)
Definition parent (p : list string) : list string :=
  match p with
  | [a] => if is_anchor H a then [a] else []
  | _ => removelast p
  end.

(** *** Searching for the tools *)

Definition find_pointe_directory : M (option (list string)) :=
  do w <- get_world;
  let possible_locations :=
    [ cwd H; parent (cwd H);
      home H // "Desktop"; home H // "Documents"; home H // "Downloads";
      home H // "point-e-finetuning"; home H // "point-e" ] in
  ret (head
    (concat
      (map (λ location,
         if exists_ (fs w) location then
           map parent
             (filter (λ item, is_dir (fs w) item
                              && exists_ (fs w) (parent item // "config") = true)
                     (rglob (fs w) location "finetune"))
         else [])
       possible_locations))).

Definition find_viewer_directory : M (option (list string)) :=
  do w <- get_world;
  let possible_locations :=
    [ cwd H // "local3dviewer"; parent (cwd H) // "local3dviewer";
      home H // "Desktop" // "local3dviewer";
      home H // "Documents" // "local3dviewer" ] in
  ret (head
    (filter (λ location, exists_ (fs w) location
                         && exists_ (fs w) (location // "models") = true)
            possible_locations)).

Definition env_truthy (name : string) : bool :=
  match environ H name with
  | Some EmptyString | None => false
  | Some _ => true
  end.

(** The loop over the conda directories: [iterdir] of something that is
    not a directory raises. *)
Fixpoint search_conda (conda_paths : list (list string))
    (f : gmap (list string) node) : result (option (list string)) :=
  match conda_paths with
  | [] => Ok None
  | conda_dir :: rest =>
      if exists_ f conda_dir then
        if is_dir f conda_dir then
          match filter (λ env, is_dir f env
                        && Str.contains (Str.lower (Path.name env)) "point" = true)
                       (iterdir f conda_dir) with
          | env :: _ => Ok (Some env)
          | [] => search_conda rest f
          end
        else Raise NotADirectoryError
      else search_conda rest f
  end.

Definition find_python_env : M (option (list string)) :=
  if env_truthy "CONDA_DEFAULT_ENV" && env_truthy "CONDA_PREFIX" then
    ret (Some (path_of H (default EmptyString (environ H "CONDA_PREFIX"))))
  else if env_truthy "VIRTUAL_ENV" then
    ret (Some (path_of H (default EmptyString (environ H "VIRTUAL_ENV"))))
  else
    let conda_paths :=
      if bool_decide (system H = "Windows") then
        [ home H // "miniconda3" // "envs"; home H // "anaconda3" // "envs";
          path_of H "C:\ProgramData\miniconda3\envs";
          path_of H "C:\ProgramData\anaconda3\envs" ]
      else
        [ home H // "miniconda3" // "envs"; home H // "anaconda3" // "envs";
          path_of H "/opt/conda/envs"; path_of H "/usr/local/conda/envs" ] in
    do w <- get_world;
    do found <- lift (search_conda conda_paths (fs w));
    match found with
    | Some env => ret (Some env)
    | None =>
        do pointe_dir <- config_get "pointe_dir";
        if truthy pointe_dir then
          do pointe_path <- Path_ pointe_dir;
          if exists_ (fs w) (pointe_path // "venv") then ret (Some (pointe_path // "venv"))
          else if exists_ (fs w) (pointe_path // "env") then ret (Some (pointe_path // "env"))
          else ret None
        else ret None
    end.

Definition detect_env_type (env_path : list string) : M string :=
  do w <- get_world;
  if exists_ (fs w) (env_path // "conda-meta") then ret "conda"
  else if exists_ (fs w) (env_path // "pyvenv.cfg") then ret "venv"
  else ret "unknown".

Definition request_path (key : string) : M unit :=
  do line <- input;
  set_config (Dict.set key (JStr (Str.strip line))).

(** *** [save_config], [auto_detect_paths], [setup_directories] *)

Definition detected_config_file : string := "exhibition_config_detected.json".

Definition save_config : M unit :=
  do w <- get_world;
  write_file (path_of H detected_config_file) (Json.dumps (JObj (config w))).

(** [not self.config.get(k) or self.config[k] == "auto"] *)
Definition unset_or_auto (k : string) : M bool :=
  do v <- config_get k;
  if negb (truthy v) then ret true
  else
    do v' <- config_item k;
    ret (eq_str v' "auto").

(** The four blocks of [auto_detect_paths], in the order of the source. *)

(** "Auto-detect Point-E directory if not specified" *)
Definition detect_pointe_dir : M unit :=
  do auto <- unset_or_auto "pointe_dir";
  if auto then
    do pointe_dir <- find_pointe_directory;
    match pointe_dir with
    | Some d => set_config (Dict.set "pointe_dir" (JStr (path_str H d)))
    | None => request_path "pointe_dir"
    end
  else ret tt.

(** "Auto-detect viewer directory" *)
Definition detect_viewer_dir : M unit :=
  do auto <- unset_or_auto "viewer_dir";
  if auto then
    do viewer_dir <- find_viewer_directory;
    match viewer_dir with
    | Some d =>
        set_config (Dict.set "viewer_dir" (JStr (path_str H d))) ;;
        set_config (Dict.set "viewer_models_dir" (JStr (path_str H (d // "models"))))
    | None => request_path "viewer_dir"
    end
  else ret tt.

(** "Auto-detect conda/venv environment" *)
Definition detect_python_env : M unit :=
  do auto <- unset_or_auto "pointe_env";
  if auto then
    do env_path <- find_python_env;
    match env_path with
    | Some e =>
        set_config (Dict.set "pointe_env" (JStr (path_str H e))) ;;
        do kind <- detect_env_type e;
        set_config (Dict.set "env_type" (JStr kind))
    | None =>
        set_config (Dict.set "pointe_env" JNull) ;;
        set_config (Dict.set "env_type" (JStr "system"))
    end
  else ret tt.

(** "Set temp directory based on OS" *)
Definition detect_temp_dir : M unit :=
  do auto <- unset_or_auto "temp_dir";
  if auto then
    if bool_decide (system H = "Windows") then
      set_config (Dict.set "temp_dir"
        (JStr (path_str H (home H // "AppData" // "Local" // "Temp" // "exhibition"))))
    else
      set_config (Dict.set "temp_dir" (JStr "/tmp/exhibition"))
  else ret tt.

Definition auto_detect_paths : M unit :=
  detect_pointe_dir ;;
  detect_viewer_dir ;;
  detect_python_env ;;
  detect_temp_dir ;;
  save_config.

Definition setup_directories : M unit :=
  (do temp_dir <- config_item "temp_dir";
   do p <- Path_ temp_dir;
   fs_op (FS.mkdir_parents p)) ;;
  (do viewer_models_dir <- config_item "viewer_models_dir";
   do p <- Path_ viewer_models_dir;
   fs_op (FS.mkdir_parents p)).

Definition setup_cleanup : M unit :=
  add_hook AtExit ;;
  add_hook (OnSignal "SIGINT") ;;
  add_hook (OnSignal "SIGTERM").

Definition load_config (config_path : string) : M unit :=
  do w <- get_world;
  do doc <- lift (json_load H config_path (fs w));
  match doc with
  | JObj d => set_config (λ _, d)
  | _ =>
      (* a document that is not an object has no [get]: the first use of
         [self.config] fails *)
      raise TypeError
  end.

(** *** [get_python_cmd] and [run_command] *)

(** [self.config.get('pointe_env') and self.config['env_type'] != 'system'] *)
Definition env_configured : M bool :=
  do pointe_env <- config_get "pointe_env";
  if truthy pointe_env then
    do env_type <- config_item "env_type";
    ret (negb (eq_str env_type "system"))
  else ret false.

Definition get_python_cmd : M string :=
  do configured <- env_configured;
  if configured then
    do pointe_env <- config_item "pointe_env";
    do env_path <- Path_ pointe_env;
    if bool_decide (system H = "Windows") then
      do env_type <- config_item "env_type";
      if eq_str env_type "conda" then ret (path_str H (env_path // "python.exe"))
      else ret (path_str H (env_path // "Scripts" // "python.exe"))
    else ret (path_str H (env_path // "bin" // "python"))
  else ret (sys_executable H).

(** [subprocess.run(cmd, shell=True, capture_output=True, text=True, cwd=cwd)] *)
Definition subprocess_run (cmd : string) (cwd : option json) : M completed :=
  λ w, let '(r, f) := shell H cmd cwd (fs w) in
       match set_fs f w with
       | (_, w') => (r, w')
       end.

Definition run_command (cmd : string) (cwd : option json) : M completed :=
  do configured <- env_configured;
  if configured then
    do pointe_env <- config_item "pointe_env";
    do env_path <- Path_ pointe_env;
    do env_type <- config_item "env_type";
    if eq_str env_type "conda" then
      if bool_decide (system H = "Windows") then
        do disk <- get_fs;
        let conda_base := parent (parent env_path) in
        let conda_exe := conda_base // "Scripts" // "conda.exe" in
        let conda_exe :=
          if negb (exists_ disk conda_exe) then conda_base // "condabin" // "conda.bat"
          else conda_exe in
        subprocess_run (path_str H conda_exe +:+ " run -n " +:+ Path.name env_path
                        +:+ " " +:+ cmd) cwd
      else
        subprocess_run ("conda run -n " +:+ Path.name env_path +:+ " " +:+ cmd) cwd
    else
      do python_cmd <- get_python_cmd;
      let cmd := if Str.startswith cmd "python"
                 then Str.replace_first "python" python_cmd cmd else cmd in
      subprocess_run cmd cwd
  else
    subprocess_run cmd cwd.

(** *** The generation pipeline *)

Definition mtl_content : string :=
  "# Default material" +:+ Json.nl +:+
  "newmtl default" +:+ Json.nl +:+
  "Ka 0.2 0.2 0.2" +:+ Json.nl +:+
  "Kd 0.8 0.8 0.8" +:+ Json.nl +:+
  "Ks 0.0 0.0 0.0" +:+ Json.nl +:+
  "Ns 10.0" +:+ Json.nl +:+
  "d 1.0" +:+ Json.nl +:+
  "illum 1" +:+ Json.nl.

Definition create_mtl (mtl_path : list string) : M unit :=
  write_file mtl_path mtl_content.

(** The loop of [cleanup_temp]: errors of [unlink] are dropped. *)
Definition unlink_quietly (f : gmap (list string) node) (file : list string)
    : gmap (list string) node :=
  match FS.unlink file f with
  | Ok f' => f'
  | Raise _ => f
  end.

(** The disk after the body of [cleanup_temp]. *)
Definition sweep (f : gmap (list string) node) (temp_dir : list string)
    : gmap (list string) node :=
  if exists_ f temp_dir then
    foldl unlink_quietly f (glob_prefix f temp_dir "temp_")
  else f.

Definition cleanup_temp : M unit :=
  do v <- config_item "temp_dir";
  do temp_dir <- Path_ v;
  do w <- get_world;
  set_fs (sweep (fs w) temp_dir).

(** [p.with_suffix(s)] *)
Definition with_suffix (p : list string) (suffix : string) : M (list string) :=
  match Path.with_suffix p suffix with
  | Some q => ret q
  | None => raise ValueError
  end.

Definition convert_script_content (ply_path obj_path : list string) : string :=
  Json.nl +:+
  "import sys" +:+ Json.nl +:+
  "try:" +:+ Json.nl +:+
  "    import trimesh" +:+ Json.nl +:+
  "    mesh = trimesh.load(r" +:+ Json.dq +:+ path_str H ply_path +:+ Json.dq +:+ ")" +:+ Json.nl +:+
  "    mesh.export(r" +:+ Json.dq +:+ path_str H obj_path +:+ Json.dq +:+ ")" +:+ Json.nl +:+
  "    print(" +:+ Json.dq +:+ "Conversion successful" +:+ Json.dq +:+ ")" +:+ Json.nl +:+
  "except Exception as e:" +:+ Json.nl +:+
  "    print(f" +:+ Json.dq +:+ "Conversion failed: {e}" +:+ Json.dq +:+ ")" +:+ Json.nl +:+
  "    sys.exit(1)" +:+ Json.nl.

Definition convert_ply_to_obj (ply_path : list string) : M (option (list string)) :=
  do obj_path <- with_suffix ply_path ".obj";
  do v <- config_item "temp_dir";
  do temp_dir <- Path_ v;
  let convert_script := temp_dir // "convert.py" in
  write_file convert_script (convert_script_content ply_path obj_path) ;;
  do python_cmd <- get_python_cmd;
  do cwd <- config_item "temp_dir";
  do result <- run_command (python_cmd +:+ " " +:+ path_str H convert_script) (Some cwd);
  if (returncode result =? 0)%Z then ret (Some obj_path) else ret None.

(** The command lines of the first two steps. *)
Definition inference_cmd (python_cmd prompt : string) (temp_pc : list string) : string :=
  python_cmd +:+ " -m finetune.inference --config config/config.yaml --prompt "
  +:+ Json.dq +:+ prompt +:+ Json.dq +:+ " --out " +:+ path_str H temp_pc.

Definition mesh_cmd (temp_pc : list string) : string :=
  "python scripts/pointclouds_to_mesh.py --input " +:+ path_str H temp_pc.

(** "Set up environment to ensure Point-E subprocess can find python":
    the ["PATH"] of the environment handed to the generation tool. *)
Definition subprocess_path : M string :=
  let PATH := default EmptyString (environ H "PATH") in
  do pointe_env <- config_get "pointe_env";
  if truthy pointe_env then
    do env_type <- config_item "env_type";
    if eq_str env_type "venv" then
      do pointe_env <- config_item "pointe_env";
      do env_path <- Path_ pointe_env;
      ret (path_str H (env_path // "bin") +:+ ":" +:+ PATH)
    else ret PATH
  else ret PATH.

Definition generate_object : M bool :=
  do prompt <- generate_random_prompt;
  do now <- datetime_now;
  let timestamp := Datetime.strftime_compact now in
  do v <- config_item "temp_dir";
  do temp_dir <- Path_ v;
  let temp_pc := temp_dir // ("temp_" +:+ timestamp +:+ ".npz") in
  do python_cmd <- get_python_cmd;
  let cmd := inference_cmd python_cmd prompt temp_pc in
  do PATH <- subprocess_path;
  do cwd <- config_item "pointe_dir";
  do w <- get_world;
  let '(ended, f) := popen_stream H cmd cwd PATH (fs w) in
  set_fs f ;;
  match ended with
  | SpawnFailed e => raise e
  | StreamFailed _ => ret false
  | Exited code =>
      if negb (code =? 0)%Z then ret false
      else
        do cwd <- config_item "pointe_dir";
        do result <- run_command (mesh_cmd temp_pc) (Some cwd);
        if negb (returncode result =? 0)%Z then ret false
        else
          do mesh_ply <- with_suffix temp_pc ".ply";
          do obj_path <- convert_ply_to_obj mesh_ply;
          match obj_path with
          | None => ret false
          | Some obj_path =>
              do v <- config_item "viewer_models_dir";
              do models <- Path_ v;
              let target_path := models // "model1.obj" in
              fs_op (FS.copy2 obj_path target_path) ;;
              do mtl_path <- with_suffix target_path ".mtl";
              create_mtl mtl_path ;;
              do v <- config_item "viewer_models_dir";
              do models <- Path_ v;
              let prompt_file := models // "last_prompt.txt" in
              do now <- datetime_now;
              write_file prompt_file (Datetime.isoformat now +:+ Json.nl +:+ prompt) ;;
              cleanup_temp ;;
              ret true
          end
  end.

(** *** Shutdown *)

Definition set_alive (p : process) (b : bool) : process :=
  {| pid := pid p; alive := b; terminate_raises := terminate_raises p;
     ignores_terminate := ignores_terminate p; kill_raises := kill_raises p |}.

(** [process.terminate()]: nothing happens to a process that has ended. *)
Definition terminate (p : process) : result process :=
  if negb (alive p) then Ok p
  else if terminate_raises p then Raise OSError
  else if ignores_terminate p then Ok p
  else Ok (set_alive p false).

(** [process.wait(timeout=5)] *)
Definition wait (p : process) : result process :=
  if alive p then Raise TimeoutExpired else Ok p.

(** [process.kill()] *)
Definition kill (p : process) : result process :=
  if negb (alive p) then Ok p
  else if kill_raises p then Raise OSError
  else Ok (set_alive p false).

(** The body of the loop over [self.processes], with its two nested
    [try]s. *)
Definition stop_process (p : process) : process :=
  let attempt :=
    match terminate p with
    | Ok p1 => match wait p1 with Ok p2 => Ok p2 | Raise e => Raise e end
    | Raise e => Raise e
    end in
  match attempt with
  | Ok p' => p'
  | Raise _ =>
      match kill p with
      | Ok p' => p'
      | Raise _ => p
      end
  end.

Definition close_chrome_script : string :=
  "tell application " +:+ Json.dq +:+ "Google Chrome" +:+ Json.dq +:+ " to close windows".

(** "Terminate all subprocess" *)
Definition stop_processes : M unit :=
  do w <- get_world;
  set_processes (map stop_process (processes w)).

(** "Kill browser if needed" *)
Definition close_browser : M unit :=
  do w <- get_world;
  let close := Dict.get_default "close_browser_on_exit" (JBool false) (config w) in
  if truthy close then
    if bool_decide (system H = "Darwin") then
      do _r <- lift (run_argv H ["osascript"; "-e"; close_chrome_script]); ret tt
    else if bool_decide (system H = "Windows") then
      do _r <- lift (run_argv H ["taskkill"; "/F"; "/IM"; "chrome.exe"]); ret tt
    else ret tt
  else ret tt.

Definition cleanup : M unit :=
  set_running false ;;
  stop_processes ;;
  cleanup_temp ;;
  close_browser.

(** *** [__init__] *)

Definition init (config_path prompts_path : string) : M unit :=
  set_processes [] ;;
  set_running true ;;
  load_config config_path ;;
  load_prompts prompts_path ;;
  auto_detect_paths ;;
  setup_directories ;;
  setup_cleanup.

End Controller.

(** ** The viewer server *)

Section Viewer.

Context (H : platform).

(** [subprocess.Popen(argv, cwd=cwd)]: the handle of the process started,
    or the error of starting it. *)
Context (popen : list string → json → result process).

(** On Windows the call also passes a [startupinfo] that hides the
    console window; program, arguments and directory are the same. *)
Definition start_viewer_server : M process :=
  do viewer_dir <- config_item "viewer_dir";
  do process <- lift (popen [sys_executable H; "-m"; "http.server"; "8000"] viewer_dir);
  do w <- get_world;
  set_processes (processes w ++ [process]) ;;
  ret process.

End Viewer.

(** * Vocabulary of the properties *)

(** A string is clean when stripping leaves it alone and it is not empty. *)
Definition clean (s : string) : Prop := Str.strip s = s ∧ s ≠ EmptyString.

Definition clean_table (t : prompt_table) : Prop :=
  Forall clean (Descriptions t) ∧ Forall clean (Materials t) ∧ Forall clean (Objects t).




(** The interpreter of the environment directory [env] on this host, for
    an environment that is not a conda one. *)
Definition venv_python (H : platform) (env : string) : string :=
  if bool_decide (system H = "Windows")
  then path_str H (Path.joinpath (Path.joinpath (path_of H env) "Scripts") "python.exe")
  else path_str H (Path.joinpath (Path.joinpath (path_of H env) "bin") "python").

(** The command with its leading [python] replaced by the interpreter of
    [env]; a command that does not start with [python] is left alone. *)
Definition substituted (H : platform) (env cmd : string) : string :=
  if Str.startswith cmd "python"
  then Str.replace_first "python" (venv_python H env) cmd
  else cmd.

(** A configuration value counts as specified when it is truthy and not
    the ["auto"] sentinel: the test that guards every block of
    [auto_detect_paths], negated. *)
Definition specified (v : json) : bool := truthy v && negb (eq_str v "auto").

(** The key whose value decides whether [auto_detect_paths] may write
    [k]: each of the four searched keys decides for itself,
    ["viewer_models_dir"] follows ["viewer_dir"], ["env_type"] follows
    ["pointe_env"].  Other keys are never written. *)
Definition deciding_key (k : string) : option string :=
  if bool_decide (k = "pointe_dir") then Some "pointe_dir"
  else if bool_decide (k = "viewer_dir") then Some "viewer_dir"
  else if bool_decide (k = "viewer_models_dir") then Some "viewer_dir"
  else if bool_decide (k = "pointe_env") then Some "pointe_env"
  else if bool_decide (k = "env_type") then Some "pointe_env"
  else if bool_decide (k = "temp_dir") then Some "temp_dir"
  else None.

(** [auto_detect_paths] has no reason to write [k] in configuration [c]. *)
Definition kept (k : string) (c : dict) : Prop :=
  match deciding_key k with
  | Some m => specified (Dict.get m c) = true
  | None => True
  end.

(** What a block of [auto_detect_paths] may do: it leaves the files and
    the write log alone, changes nothing when its key [m] is specified,
    and writes no key outside [K]. *)
Definition frame (K : list string) (m : string) (w w' : world) : Prop :=
  fs w' = fs w ∧ writes w' = writes w ∧
  (specified (Dict.get m (config w)) = true → config w' = config w) ∧
  (∀ k, k ∉ K → Dict.lookup k (config w') = Dict.lookup k (config w)).

(** Every entry of the configuration of [w] that [auto_detect_paths] has
    no reason to write is the same in [w']: not changed, not removed, not
    added. *)
Definition preserves (w w' : world) : Prop :=
  ∀ k, kept k (config w) → Dict.lookup k (config w') = Dict.lookup k (config w).

(** From [w] to [w'] the configuration and the write log are the same
    and nothing on the disk was removed or changed. *)
Definition settled (w w' : world) : Prop :=
  config w' = config w ∧ writes w' = writes w ∧
  ∀ q n, fs w !! q = Some n → fs w' !! q = Some n.

(** The disk is well formed: whatever is on it lies in something that is
    on it. *)
Definition well_formed (f : gmap (list string) node) : Prop :=
  ∀ p n, f !! p = Some n → exists_ f (removelast p) = true.

(** The world [w] with [f] as its disk. *)
Definition on_disk (f : gmap (list string) node) (w : world) : world :=
  (set_fs f w).2.

(** A computation that reads the configuration and nothing else, and
    changes nothing. *)
Definition config_only {A} (m : M A) : Prop :=
  ∀ wa wb, config wa = config wb → m wb = ((m wa).1, wb).

(** A computation that reads the configuration and the disk and changes
    the disk at most. *)
Definition disk_only {A} (m : M A) : Prop :=
  ∀ wa wb, config wa = config wb → fs wa = fs wb →
           m wb = ((m wa).1, on_disk (fs (m wa).2) wb).




(** The world with [self.config[k]] set to [v]. *)
Definition with_config_item (k : string) (v : json) (w : world) : world :=
  (set_config (Dict.set k v) w).2.

(** [p] is a regular file of directory [d] whose name starts with [prefix]. *)
Definition temp_file (f : gmap (list string) node) (d : list string)
    (prefix : string) (p : list string) : Prop :=
  removelast p = d ∧ p ≠ [] ∧
  Str.startswith (Path.name p) prefix = true ∧
  ∃ text, f !! p = Some (File text).


(** The header [h], stripped and in lower case, starts with [kind]: the
    test [load_prompts] applies to each header. *)
Definition header_is (kind h : string) : bool :=
  Str.startswith (Str.lower (Str.strip h)) kind.

(** The index, counted from [i], of the first element that satisfies [P]. *)
Fixpoint first_index (P : string → bool) (i : nat) (l : list string) : option nat :=
  match l with
  | [] => None
  | h :: rest => if P h then Some i else first_index P (S i) rest
  end.

(** An index already found, or else the first one from [i] on. *)
Definition or_first (found : option nat) (P : string → bool) (i : nat)
    (l : list string) : option nat :=
  match found with Some _ => found | None => first_index P i l end.

(** The cell of column [i], stripped. *)
Definition cell (i : nat) (row : list string) : string :=
  Str.strip (nth i row EmptyString).

(** A row that has all three columns, none of them blank. *)
Definition usable_row (di mi oi : nat) (row : list string) : Prop :=
  Nat.max di (Nat.max mi oi) < length row ∧
  cell di row ≠ EmptyString ∧ cell mi row ≠ EmptyString ∧ cell oi row ≠ EmptyString.

#[global] Instance usable_row_dec di mi oi row : Decision (usable_row di mi oi row).
Proof. unfold usable_row. apply _. Defined.

(** The places where [find_pointe_directory] looks, in its order. *)
Definition pointe_locations (H : platform) : list (list string) :=
  [ cwd H; parent H (cwd H);
    Path.joinpath (home H) "Desktop"; Path.joinpath (home H) "Documents";
    Path.joinpath (home H) "Downloads";
    Path.joinpath (home H) "point-e-finetuning"; Path.joinpath (home H) "point-e" ].

(** [item] is an entry called [finetune] somewhere below [location]. *)
Definition finetune_below (f : gmap (list string) node)
    (location item : list string) : Prop :=
  is_Some (f !! item) ∧ location `prefix_of` removelast item ∧ item ≠ [] ∧
  Path.name item = "finetune".

(** The kinds of environment [detect_env_type] tells apart, and the one
    that stands for no environment. *)
Definition env_kinds : list string := ["conda"; "venv"; "unknown"; "system"].

(** The entry of key [k] is the same in the configurations of [w] and
    [w']. *)
Definition same_entry (k : string) (w w' : world) : Prop :=
  Dict.lookup k (config w') = Dict.lookup k (config w).

(** The fields of the controller other than its configuration are the
    same in [w] and [w']. *)
Definition same_controller (w w' : world) : Prop :=
  prompts w' = prompts w ∧ processes w' = processes w ∧
  running w' = running w ∧ hooks w' = hooks w.

(** The directories in which [find_python_env] looks for conda
    environments, in its order. *)
Definition conda_locations (H : platform) : list (list string) :=
  if bool_decide (system H = "Windows") then
    [ Path.joinpath (Path.joinpath (home H) "miniconda3") "envs";
      Path.joinpath (Path.joinpath (home H) "anaconda3") "envs";
      path_of H "C:\ProgramData\miniconda3\envs";
      path_of H "C:\ProgramData\anaconda3\envs" ]
  else
    [ Path.joinpath (Path.joinpath (home H) "miniconda3") "envs";
      Path.joinpath (Path.joinpath (home H) "anaconda3") "envs";
      path_of H "/opt/conda/envs"; path_of H "/usr/local/conda/envs" ].

(** * A sample host

    A POSIX machine on which the three external tools are stand-ins: the
    generation tool writes an empty point-cloud file, the mesh converter
    copies it to a [.ply] file, the format converter copies that to the
    [.obj] file its script names.  [mesh_code] is the exit code of the
    mesh converter; with [converts := false] the format converter exits
    zero without writing anything. *)

Module Demo.

Fixpoint split_slash (s : string) : list string :=
  match s with
  | EmptyString => [EmptyString]
  | String c s' =>
      if ascii_dec c "/"%char then EmptyString :: split_slash s'
      else match split_slash s' with
           | x :: r => String c x :: r
           | [] => [String c EmptyString]
           end
  end.

Definition proper_part (c : string) : bool :=
  negb (bool_decide (c = EmptyString)) && negb (bool_decide (c = ".")).

Definition posix_path (s : string) : list string :=
  (if Str.startswith s "/" then ["/"] else []) ++
  filter (λ c, proper_part c = true) (split_slash s).

Definition posix_str (p : list string) : string :=
  match p with
  | [] => "."
  | a :: r => if bool_decide (a = "/") then "/" +:+ Str.join "/" r else Str.join "/" p
  end.

(** The text after the first occurrence of [marker]. *)
Fixpoint after (marker s : string) : option string :=
  if Str.startswith s marker then Some (Str.drop (String.length marker) s)
  else match s with
       | EmptyString => None
       | String _ s' => after marker s'
       end.

(** The text in front of the first [c]. *)
Fixpoint upto (c : ascii) (s : string) : string :=
  match s with
  | EmptyString => EmptyString
  | String a s' => if ascii_dec a c then EmptyString else String a (upto c s')
  end.

Definition done_with (code : Z) : completed :=
  {| returncode := code; stdout := EmptyString; stderr := EmptyString |}.

Definition copy_file (src dst : list string) (f : gmap (list string) node)
    : gmap (list string) node :=
  match f !! src with
  | Some (File text) => <[dst := File text]> f
  | _ => f
  end.

Definition generation_tool (cmd : string) (cwd : json) (PATH : string)
    (f : gmap (list string) node) : stream_end * gmap (list string) node :=
  match after "--out " cmd with
  | Some out => (Exited 0, <[posix_path out := File EmptyString]> f)
  | None => (Exited 2, f)
  end.

Definition mesh_converter (mesh_code : Z) (cmd : string)
    (f : gmap (list string) node) : result completed * gmap (list string) node :=
  match after "--input " cmd with
  | Some input =>
      if (mesh_code =? 0)%Z then
        match Path.with_suffix (posix_path input) ".ply" with
        | Some ply => (Ok (done_with 0), copy_file (posix_path input) ply f)
        | None => (Ok (done_with 2), f)
        end
      else (Ok (done_with mesh_code), f)
  | None => (Ok (done_with 2), f)
  end.

Definition quoted_after (marker text : string) : option string :=
  match after (marker +:+ Json.dq) text with
  | Some rest => Some (upto "034"%char rest)
  | None => None
  end.

Definition format_converter (converts : bool) (cmd : string)
    (f : gmap (list string) node) : result completed * gmap (list string) node :=
  match after " " cmd with
  | Some script =>
      match f !! posix_path script with
      | Some (File text) =>
          match quoted_after "trimesh.load(r" text, quoted_after "mesh.export(r" text with
          | Some ply, Some obj =>
              (Ok (done_with 0),
               if converts then copy_file (posix_path ply) (posix_path obj) f else f)
          | _, _ => (Ok (done_with 1), f)
          end
      | _ => (Ok (done_with 2), f)
      end
  | None => (Ok (done_with 2), f)
  end.

Definition tools (mesh_code : Z) (converts : bool) (cmd : string) (cwd : option json)
    (f : gmap (list string) node) : result completed * gmap (list string) node :=
  if Str.contains cmd "pointclouds_to_mesh.py" then mesh_converter mesh_code cmd f
  else format_converter converts cmd f.

Definition prompt_rows : list csv_event :=
  [ Row ["Description"; "Material"; "Object"];
    Row ["a swirling"; "ceramic"; "vase"] ].

Definition host (conf : dict) (mesh_code : Z) (converts : bool) : platform :=
  {| system := "Linux";
     sys_executable := "/usr/bin/python3";
     environ := λ _, None;
     home := ["/"; "home"; "curator"];
     cwd := ["/"; "srv"; "exhibit"];
     path_of := posix_path;
     path_str := posix_str;
     is_anchor := λ c, bool_decide (c = "/");
     entropy := λ n, n;
     wall_clock := λ n, {| year := 2024; month := 5; day := 17;
                           hour := 9; minute := 30; second := n; microsecond := 0 |};
     shell := tools mesh_code converts;
     popen_stream := generation_tool;
     run_argv := λ _, Ok (done_with 0);
     json_load := λ _ _, Ok (JObj conf);
     csv_reader := λ _ _, Some prompt_rows |}.

(** The host [H] with another prompt file and another standard library
    reader for it. *)
Definition with_prompt_file (src : option (list csv_event)) (H : platform) : platform :=
  {| system := system H; sys_executable := sys_executable H; environ := environ H;
     home := home H; cwd := cwd H; path_of := path_of H;
     path_str := path_str H; is_anchor := is_anchor H;
     entropy := entropy H; wall_clock := wall_clock H; shell := shell H;
     popen_stream := popen_stream H; run_argv := run_argv H;
     json_load := json_load H; csv_reader := λ _ _, src |}.

Definition dirs (l : list (list string)) (f : gmap (list string) node)
    : gmap (list string) node :=
  foldr (λ d f, <[d := Dir]> f) f l.

(** The disk before the first generation: the directories, and a model
    left by an earlier run. *)
Definition disk : gmap (list string) node :=
  dirs [ ["/"]; ["/"; "tmp"]; ["/"; "tmp"; "exhibition"];
         ["/"; "srv"]; ["/"; "srv"; "exhibit"]; ["/"; "srv"; "point-e"];
         ["/"; "srv"; "exhibit"; "local3dviewer"];
         ["/"; "srv"; "exhibit"; "local3dviewer"; "models"] ]
       {[ ["/"; "srv"; "exhibit"; "local3dviewer"; "models"; "model1.obj"]
            := File "# earlier model" ]}.

Definition settings : dict :=
  [ ("pointe_dir", JStr "/srv/point-e");
    ("viewer_dir", JStr "/srv/exhibit/local3dviewer");
    ("viewer_models_dir", JStr "/srv/exhibit/local3dviewer/models");
    ("pointe_env", JNull);
    ("env_type", JStr "system");
    ("temp_dir", JStr "/tmp/exhibition");
    ("generation_interval", JNum 600) ].

Definition controller (conf : dict) (f : gmap (list string) node) : world :=
  {| config := conf;
     prompts := {| Descriptions := ["a swirling"]; Materials := ["ceramic"];
                   Objects := ["vase"] |};
     processes := []; running := true;
     fs := f; stdin := []; draws := 0; ticks := 0; hooks := []; writes := [] |}.

(** The host [H] with another generation tool. *)
Definition with_generation_tool
    (tool : string → json → string → gmap (list string) node →
            stream_end * gmap (list string) node)
    (H : platform) : platform :=
  {| system := system H; sys_executable := sys_executable H; environ := environ H;
     home := home H; cwd := cwd H; path_of := path_of H;
     path_str := path_str H; is_anchor := is_anchor H;
     entropy := entropy H; wall_clock := wall_clock H; shell := shell H;
     popen_stream := tool; run_argv := run_argv H;
     json_load := json_load H; csv_reader := csv_reader H |}.

(** A generation tool that gives up with exit code [code] after it has
    started to write its output file. *)
Definition failing_tool (code : Z) (cmd : string) (cwd : json) (PATH : string)
    (f : gmap (list string) node) : stream_end * gmap (list string) node :=
  match after "--out " cmd with
  | Some out => (Exited code, <[posix_path out := File "partial"]> f)
  | None => (Exited code, f)
  end.

End Demo.

(** * Properties *)

(** ** Strings *)

Section StringFacts.

Import Str.

Lemma append_cons c (s t : string) : String c s +:+ t = String c (s +:+ t).
Proof. reflexivity. Qed.

Lemma append_nil_l (s : string) : EmptyString +:+ s = s.
Proof. reflexivity. Qed.

Lemma append_assoc (s t u : string) : (s +:+ t) +:+ u = s +:+ t +:+ u.
Proof. induction s as [|c s IH]; [done|]. by rewrite !append_cons, IH. Qed.


Lemma append_empty (s t : string) : s +:+ t = EmptyString → s = EmptyString ∧ t = EmptyString.
Proof. destruct s; [done|]. by rewrite append_cons. Qed.

Lemma rstrip_cons_nonspace c s :
  isspace c = false → rstrip (String c s) = String c (rstrip s).
Proof. intros Hc. simpl. destruct (rstrip s); by rewrite ?Hc. Qed.

Lemma lstrip_cases s :
  lstrip s = EmptyString ∨ ∃ c s', lstrip s = String c s' ∧ isspace c = false.
Proof.
  induction s as [|c s IH]; [by left|].
  simpl. destruct (isspace c) eqn:Hc; [done|]. right. by exists c, s.
Qed.

Lemma rstrip_idem s : rstrip (rstrip s) = rstrip s.
Proof.
  induction s as [|c s IH]; [done|].
  simpl. destruct (rstrip s) as [|a r] eqn:Hr.
  - destruct (isspace c) eqn:Hc; [done|]. simpl. by rewrite Hc.
  - change (rstrip (String c (String a r)))
      with (match rstrip (String a r) with
            | EmptyString => if isspace c then EmptyString else String c EmptyString
            | r' => String c r'
            end).
    by rewrite IH.
Qed.

Lemma strip_idem s : strip (strip s) = strip s.
Proof.
  unfold strip. destruct (lstrip_cases s) as [->|(c & s' & -> & Hc)]; [done|].
  rewrite (rstrip_cons_nonspace _ _ Hc). simpl lstrip. rewrite Hc.
  by rewrite (rstrip_cons_nonspace _ _ Hc), rstrip_idem.
Qed.

Lemma clean_strip s : nonempty (strip s) = true → clean (strip s).
Proof. intros Hs. split; [apply strip_idem|]. by destruct (strip s). Qed.

Lemma clean_inv s :
  clean s → ∃ c s', s = String c s' ∧ isspace c = false ∧ rstrip s = s.
Proof.
  intros [Hs Hne]. unfold strip in Hs.
  destruct (lstrip_cases s) as [Hl|(c & s' & Hl & Hc)].
  - rewrite Hl in Hs. by subst s.
  - rewrite Hl, (rstrip_cons_nonspace _ _ Hc) in Hs.
    exists c, (rstrip s'). split; [done|]. split; [done|].
    rewrite <- Hs at 1. rewrite (rstrip_cons_nonspace _ _ Hc).
    by rewrite rstrip_idem.
Qed.

Lemma rstrip_append x b :
  rstrip b = b → b ≠ EmptyString → rstrip (x +:+ b) = x +:+ b.
Proof.
  intros Hb Hne. induction x as [|c x IH]; [done|].
  rewrite append_cons. simpl. rewrite IH.
  destruct (x +:+ b) eqn:Hxb; [|done].
  by apply append_empty in Hxb as [_ ?].
Qed.

Lemma strip_between a m b :
  clean a → clean b →
  strip (a +:+ " " +:+ m +:+ " " +:+ b) = a +:+ " " +:+ m +:+ " " +:+ b.
Proof.
  intros Ha Hb.
  destruct (clean_inv _ Ha) as (c & a' & -> & Hc & _).
  destruct (clean_inv _ Hb) as (_ & _ & _ & _ & Hr).
  unfold strip. rewrite append_cons. simpl lstrip. rewrite Hc.
  rewrite <- append_cons.
  rewrite <- (append_assoc m " " b), <- (append_assoc " " _ b),
          <- (append_assoc (String c a') _ b).
  apply rstrip_append; [done|]. by destruct Hb.
Qed.

End StringFacts.

(** ** The prompt table *)

Section PromptFacts.

Context (H : platform).

Lemma read_rows_clean di mi oi events t :
  clean_table t → clean_table (read_rows di mi oi events t).
Proof.
  revert t. induction events as [|[row|] events IH]; intros t Ht; simpl; [done| |done].
  apply IH. destruct (_ <? _); [|done].
  destruct (nonempty (Str.strip (nth di row EmptyString))) eqn:Hd; [|done].
  destruct (nonempty (Str.strip (nth mi row EmptyString))) eqn:Hm; [|done].
  destruct (nonempty (Str.strip (nth oi row EmptyString))) eqn:Ho; [|done].
  destruct Ht as (Hds & Hms & Hos). simpl.
  repeat split; simpl; apply Forall_app; split; try done;
    apply Forall_singleton; by apply clean_strip.
Qed.

Lemma no_prompts_clean : clean_table no_prompts.
Proof. repeat split; apply Forall_nil_2. Qed.

Lemma load_table_clean src : clean_table (load_table src).
Proof.
  destruct src as [[|[headers|] rows]|]; simpl; try apply no_prompts_clean.
  destruct headers as [|h hs]; [apply no_prompts_clean|].
  destruct (scan_headers _ _ _) as [[[d|] [m|]] [o|]]; try apply no_prompts_clean.
  apply read_rows_clean, no_prompts_clean.
Qed.

(** The three sequences are filled together. *)
Lemma read_rows_parallel di mi oi events t :
  length (Descriptions t) = length (Materials t) →
  length (Materials t) = length (Objects t) →
  let t' := read_rows di mi oi events t in
  length (Descriptions t') = length (Materials t') ∧
  length (Materials t') = length (Objects t').
Proof.
  revert t. induction events as [|[row|] events IH]; intros t H1 H2; simpl; [done| |done].
  apply IH; destruct (_ <? _); try done;
    destruct (_ && _); try done; simpl; rewrite !length_app; simpl; lia.
Qed.

Lemma random_choice_spec (seq : list string) (w : world) :
  seq ≠ [] →
  ∃ x w', random_choice H seq w = (Ok x, w') ∧ x ∈ seq ∧
          prompts w' = prompts w ∧ config w' = config w ∧ fs w' = fs w ∧
          processes w' = processes w ∧ ticks w' = ticks w.
Proof.
  intros Hne. destruct seq as [|x seq]; [done|].
  eexists _, _. split; [reflexivity|]. split; [|done].
  apply list_elem_of_In, nth_In, Nat.mod_upper_bound. simpl. lia.
Qed.


Lemma generate_random_prompt_draws (w : world) :
  Descriptions (prompts w) ≠ [] → Materials (prompts w) ≠ [] →
  Objects (prompts w) ≠ [] →
  ∃ d m o w',
    generate_random_prompt H w
      = (Ok (Str.strip (d +:+ " " +:+ m +:+ " " +:+ o)), w') ∧
    d ∈ Descriptions (prompts w) ∧ m ∈ Materials (prompts w) ∧
    o ∈ Objects (prompts w) ∧
    prompts w' = prompts w ∧ config w' = config w ∧ fs w' = fs w ∧
    processes w' = processes w ∧ ticks w' = ticks w.
Proof.
  intros Hd Hm Ho.
  destruct (random_choice_spec _ w Hd) as (d & w1 & E1 & Hd' & P1 & C1 & F1 & R1 & T1).
  destruct (random_choice_spec _ w1 Hm) as (m & w2 & E2 & Hm' & P2 & C2 & F2 & R2 & T2).
  destruct (random_choice_spec _ w2 Ho) as (o & w3 & E3 & Ho' & P3 & C3 & F3 & R3 & T3).
  exists d, m, o, w3.
  split.
  - unfold generate_random_prompt, bind at 1, get_world.
    destruct (Descriptions (prompts w)) eqn:Ed; [done|].
    destruct (Materials (prompts w)) eqn:Em; [done|].
    destruct (Objects (prompts w)) eqn:Eo; [done|].
    cbn [nonempty_list andb negb].
    unfold bind. rewrite E1, E2, E3. reflexivity.
  - repeat split; try congruence.
Qed.

End PromptFacts.

(** ** Prompt generation (C3, C7) *)

(** C3.  For every prompt table that [load_prompts] has loaded and whose
    three sequences are all non-empty, [generate_random_prompt] returns a
    non-empty string made of exactly three tokens joined by single spaces:
    an element of the description sequence, an element of the material
    sequence and an element of the object sequence, each non-empty. *)
Theorem generate_random_prompt_three_tokens
    (H : platform) (src : option (list csv_event)) (w : world) :
  prompts w = load_table src →
  Descriptions (prompts w) ≠ [] →
  Materials (prompts w) ≠ [] →
  Objects (prompts w) ≠ [] →
  ∃ d m o w',
    generate_random_prompt H w = (Ok (d +:+ " " +:+ m +:+ " " +:+ o), w') ∧
    d ∈ Descriptions (prompts w) ∧ m ∈ Materials (prompts w) ∧
    o ∈ Objects (prompts w) ∧
    d ≠ EmptyString ∧ m ≠ EmptyString ∧ o ≠ EmptyString ∧
    d +:+ " " +:+ m +:+ " " +:+ o ≠ EmptyString.
Proof.
  intros Hsrc Hd Hm Ho.
  destruct (generate_random_prompt_draws H w Hd Hm Ho)
    as (d & m & o & w' & E & Hd' & Hm' & Ho' & _).
  pose proof (load_table_clean src) as (Cd & Cm & Co). rewrite <- Hsrc in Cd, Cm, Co.
  rewrite Forall_forall in Cd, Cm, Co.
  pose proof (Cd _ Hd') as Kd. pose proof (Cm _ Hm') as Km. pose proof (Co _ Ho') as Ko.
  exists d, m, o, w'. rewrite strip_between in E by done.
  repeat split; try done; try apply Kd; try apply Km; try apply Ko.
  intros Hnil. apply append_empty in Hnil as [Hnil _]. by apply Kd.
Qed.

Lemma generate_random_prompt_three_tokens_witness :
  let H := Demo.host Demo.settings 0 true in
  let w := Demo.controller Demo.settings Demo.disk in
  prompts w = load_table (Some Demo.prompt_rows) ∧
  Descriptions (prompts w) ≠ [] ∧ Materials (prompts w) ≠ [] ∧
  Objects (prompts w) ≠ [] ∧
  ∃ d m o w',
    generate_random_prompt H w = (Ok (d +:+ " " +:+ m +:+ " " +:+ o), w') ∧
    d ∈ Descriptions (prompts w) ∧ m ∈ Materials (prompts w) ∧
    o ∈ Objects (prompts w) ∧
    d ≠ EmptyString ∧ m ≠ EmptyString ∧ o ≠ EmptyString ∧
    d +:+ " " +:+ m +:+ " " +:+ o ≠ EmptyString.
Proof.
  intros H w.
  assert (H1 : prompts w = load_table (Some Demo.prompt_rows)) by reflexivity.
  assert (H2 : Descriptions (prompts w) ≠ []) by (simpl; discriminate).
  assert (H3 : Materials (prompts w) ≠ []) by (simpl; discriminate).
  assert (H4 : Objects (prompts w) ≠ []) by (simpl; discriminate).
  exact (conj H1 (conj H2 (conj H3 (conj H4
    (generate_random_prompt_three_tokens H (Some Demo.prompt_rows) w H1 H2 H3 H4))))).
Defined.







(** ** Dictionaries *)

Lemma lookup_set_eq k v d : Dict.lookup k (Dict.set k v d) = Some v.
Proof.
  induction d as [|[k' v'] d IH]; simpl.
  - by rewrite bool_decide_eq_true_2.
  - destruct (bool_decide (k' = k)) eqn:E; simpl.
    + by rewrite bool_decide_eq_true_2.
    + by rewrite E.
Qed.

Lemma lookup_set_ne k k' v d :
  k ≠ k' → Dict.lookup k' (Dict.set k v d) = Dict.lookup k' d.
Proof.
  intros Hne. induction d as [|[k0 v0] d IH]; simpl.
  - by rewrite bool_decide_eq_false_2.
  - destruct (decide (k0 = k)) as [->|Hk0].
    + rewrite bool_decide_eq_true_2 by done. simpl.
      by rewrite !bool_decide_eq_false_2.
    + rewrite (bool_decide_eq_false_2 (k0 = k)) by done. simpl.
      by rewrite IH.
Qed.

Lemma get_set_eq k v d : Dict.get k (Dict.set k v d) = v.
Proof. unfold Dict.get. by rewrite lookup_set_eq. Qed.

Lemma get_set_ne k k' v d : k ≠ k' → Dict.get k' (Dict.set k v d) = Dict.get k' d.
Proof. intros. unfold Dict.get. by rewrite lookup_set_ne. Qed.

Lemma get_lookup k v d : Dict.lookup k d = Some v → Dict.get k d = v.
Proof. intros E. unfold Dict.get. by rewrite E. Qed.

(** ** Running a computation step by step *)

Lemma bind_ok {A B} (m : M A) (k : A → M B) (w w' : world) (a : A) :
  m w = (Ok a, w') → bind m k w = k a w'.
Proof. intros E. unfold bind. by rewrite E. Qed.

Lemma bind_raise {A B} (m : M A) (k : A → M B) (w w' : world) (e : exn) :
  m w = (Raise e, w') → bind m k w = (Raise e, w').
Proof. intros E. unfold bind. by rewrite E. Qed.

(** A reflexive and transitive relation between the world before and the
    world after that holds of every step holds of the sequence, however it
    ends. *)
Lemma seq_closed {A B} (R : world → world → Prop) (m : M A) (k : A → M B) :
  (∀ w1 w2 w3, R w1 w2 → R w2 w3 → R w1 w3) →
  (∀ w, R w (m w).2) → (∀ a w, R w (k a w).2) →
  ∀ w, R w (bind m k w).2.
Proof.
  intros Htrans Hm Hk w. unfold bind. specialize (Hm w).
  destruct (m w) as [[a|e] w1]; simpl in *; [|done].
  eapply Htrans; [exact Hm|apply Hk].
Qed.

Lemma config_item_ok (k : string) (v : json) (w : world) :
  Dict.lookup k (config w) = Some v → config_item k w = (Ok v, w).
Proof. intros E. unfold config_item. by rewrite E. Qed.

Lemma config_item_missing (k : string) (w : world) :
  Dict.lookup k (config w) = None → config_item k w = (Raise (KeyError k), w).
Proof. intros E. unfold config_item. by rewrite E. Qed.

Lemma config_get_ok (k : string) (w : world) :
  config_get k w = (Ok (Dict.get k (config w)), w).
Proof. reflexivity. Qed.

Lemma set_config_ok (f : dict → dict) (w : world) :
  set_config f w = (Ok tt, (set_config f w).2).
Proof. reflexivity. Qed.

(** [by_step E] runs the first computation of a sequence, whose outcome
    [E] states. *)
Ltac by_step E :=
  first [ rewrite (bind_ok _ _ _ _ _ E) | rewrite (bind_raise _ _ _ _ _ E) ];
  cbn beta iota.

(** ** The command runner (C6, C10) *)

Section RunCommand.

Context (H : platform).

Lemma startswith_append (p rest : string) : Str.startswith (p +:+ rest) p = true.
Proof.
  induction p as [|c p IH]; [done|].
  rewrite append_cons. simpl. by destruct (ascii_dec c c).
Qed.

Lemma drop_append (p rest : string) : Str.drop (String.length p) (p +:+ rest) = rest.
Proof. induction p as [|c p IH]; [done|]. by rewrite append_cons. Qed.

Lemma replace_first_prefix (old new rest : string) :
  Str.replace_first old new (old +:+ rest) = new +:+ rest.
Proof.
  destruct (old +:+ rest) eqn:E; simpl; rewrite <- E;
    by rewrite startswith_append, drop_append.
Qed.

Lemma nonempty_truthy (s : string) : s ≠ EmptyString → truthy (JStr s) = true.
Proof. intros Hs. simpl. by rewrite bool_decide_eq_false_2. Qed.

Lemma env_configured_yes (w : world) (t : json) :
  truthy (Dict.get "pointe_env" (config w)) = true →
  Dict.lookup "env_type" (config w) = Some t →
  env_configured w = (Ok (negb (eq_str t "system")), w).
Proof.
  intros Hv Ht. unfold env_configured.
  by_step (config_get_ok "pointe_env" w). rewrite Hv.
  by_step (config_item_ok _ _ _ Ht). done.
Qed.

Lemma env_configured_no (w : world) :
  truthy (Dict.get "pointe_env" (config w)) = false →
  env_configured w = (Ok false, w).
Proof.
  intros Hv. unfold env_configured.
  by_step (config_get_ok "pointe_env" w). by rewrite Hv.
Qed.

(** With an environment directory configured and a kind that is neither
    ["system"] nor ["conda"], the interpreter is the one inside the
    directory. *)
Lemma get_python_cmd_substitution (w : world) (env : string) (t : json) :
  Dict.lookup "pointe_env" (config w) = Some (JStr env) →
  env ≠ EmptyString →
  Dict.lookup "env_type" (config w) = Some t →
  eq_str t "conda" = false →
  eq_str t "system" = false →
  get_python_cmd H w = (Ok (venv_python H env), w).
Proof.
  intros He Hne Ht Hc Hs.
  assert (Hv : truthy (Dict.get "pointe_env" (config w)) = true)
    by (rewrite (get_lookup _ _ _ He); by apply nonempty_truthy).
  unfold get_python_cmd.
  by_step (env_configured_yes w t Hv Ht). rewrite Hs. cbn [negb].
  by_step (config_item_ok _ _ _ He).
  unfold Path_ at 1, ret at 1. unfold bind at 1. cbn beta iota.
  unfold venv_python. destruct (bool_decide (system H = "Windows")); [|done].
  by_step (config_item_ok _ _ _ Ht). by rewrite Hc.
Qed.

Lemma run_command_substitution (w : world) (env : string) (t : json)
    (cmd : string) (cwd : option json) :
  Dict.lookup "pointe_env" (config w) = Some (JStr env) →
  env ≠ EmptyString →
  Dict.lookup "env_type" (config w) = Some t →
  eq_str t "conda" = false →
  eq_str t "system" = false →
  run_command H cmd cwd w = subprocess_run H (substituted H env cmd) cwd w.
Proof.
  intros He Hne Ht Hc Hs.
  assert (Hv : truthy (Dict.get "pointe_env" (config w)) = true)
    by (rewrite (get_lookup _ _ _ He); by apply nonempty_truthy).
  unfold run_command.
  by_step (env_configured_yes w t Hv Ht). rewrite Hs. cbn [negb].
  by_step (config_item_ok _ _ _ He).
  unfold Path_ at 1, ret at 1. unfold bind at 1. cbn beta iota.
  by_step (config_item_ok _ _ _ Ht). rewrite Hc.
  by_step (get_python_cmd_substitution w env t He Hne Ht Hc Hs).
  reflexivity.
Qed.

(** A configured environment that is not a string stops the runner at
    [Path(...)], whatever the kind. *)
Lemma run_command_not_a_path (w : world) (v t : json)
    (cmd : string) (cwd : option json) :
  Dict.lookup "pointe_env" (config w) = Some v →
  truthy v = true →
  (∀ s, v ≠ JStr s) →
  Dict.lookup "env_type" (config w) = Some t →
  eq_str t "system" = false →
  run_command H cmd cwd w = (Raise TypeError, w).
Proof.
  intros He Hv Hns Ht Hs.
  assert (Hv' : truthy (Dict.get "pointe_env" (config w)) = true)
    by (by rewrite (get_lookup _ _ _ He)).
  unfold run_command.
  by_step (env_configured_yes w t Hv' Ht). rewrite Hs. cbn [negb].
  by_step (config_item_ok _ _ _ He).
  destruct v; try done. by destruct (Hns s).
Qed.

Lemma subprocess_run_result (cmd : string) (cwd : option json) (w : world) :
  subprocess_run H cmd cwd w
  = ((shell H cmd cwd (fs w)).1, (set_fs (shell H cmd cwd (fs w)).2 w).2).
Proof. unfold subprocess_run. by destruct (shell H cmd cwd (fs w)). Qed.

End RunCommand.


(** C10.  With an environment configured (the guard
    [self.config.get('pointe_env')] holds) and any [env_type] other than
    ['conda'] and ['system'], ['unknown'] included, [run_command] behaves
    exactly as it does for the ['venv'] kind: same result, same effect on
    the files.  When the environment is a directory name, this is the
    path-substitution branch: the command, with a leading [python]
    replaced by the environment's interpreter, goes to the shell; it is
    neither an error nor the command as given to the system default. *)
Theorem run_command_other_kinds_as_venv
    (H : platform) (w : world) (t : json) (cmd : string) (cwd : option json) :
  truthy (Dict.get "pointe_env" (config w)) = true →
  Dict.lookup "env_type" (config w) = Some t →
  eq_str t "conda" = false →
  eq_str t "system" = false →
  let w_venv := with_config_item "env_type" (JStr "venv") w in
  (run_command H cmd cwd w).1 = (run_command H cmd cwd w_venv).1 ∧
  fs (run_command H cmd cwd w).2 = fs (run_command H cmd cwd w_venv).2 ∧
  ∀ env, Dict.get "pointe_env" (config w) = JStr env →
         run_command H cmd cwd w = subprocess_run H (substituted H env cmd) cwd w.
Proof.
  intros Hv Ht Hc Hs w_venv.
  assert (Hcfg : config w_venv = Dict.set "env_type" (JStr "venv") (config w)) by done.
  assert (Hfs : fs w_venv = fs w) by done.
  destruct (Dict.lookup "pointe_env" (config w)) as [v|] eqn:He;
    [|by unfold Dict.get in Hv; rewrite He in Hv].
  rewrite (get_lookup _ _ _ He) in *.
  assert (He' : Dict.lookup "pointe_env" (config w_venv) = Some v)
    by (rewrite Hcfg, lookup_set_ne; done).
  assert (Ht' : Dict.lookup "env_type" (config w_venv) = Some (JStr "venv"))
    by (rewrite Hcfg; apply lookup_set_eq).
  destruct v as [| | |env| |];
    try (rewrite !(run_command_not_a_path H _ _ _ cmd cwd He Hv) by done;
         rewrite !(run_command_not_a_path H _ _ _ cmd cwd He' Hv) by done;
         done).
  assert (Hne : env ≠ EmptyString) by (intros ->; done).
  rewrite (run_command_substitution H w env t) by done.
  rewrite (run_command_substitution H w_venv env (JStr "venv")) by done.
  rewrite !subprocess_run_result, Hfs. repeat split; try done.
  intros ? [= <-]. by rewrite subprocess_run_result.
Qed.

(** ** Auto-detection (C4, C8, C9) *)

Section AutoDetect.

Context (H : platform).

Lemma unset_or_auto_ok (k : string) (w : world) :
  unset_or_auto k w = (Ok (negb (specified (Dict.get k (config w)))), w).
Proof.
  unfold unset_or_auto, specified.
  by_step (config_get_ok k w).
  destruct (truthy (Dict.get k (config w))) eqn:Hv; [|done]. cbn [negb andb].
  unfold Dict.get in *. destruct (Dict.lookup k (config w)) as [v|] eqn:E; [|done].
  by_step (config_item_ok _ _ _ E). simpl. by rewrite negb_involutive.
Qed.

Lemma find_pointe_directory_pure (w : world) :
  ∃ r, find_pointe_directory H w = (Ok r, w).
Proof. eexists. reflexivity. Qed.

Lemma find_viewer_directory_pure (w : world) :
  ∃ r, find_viewer_directory H w = (Ok r, w).
Proof. eexists. reflexivity. Qed.

Lemma detect_env_type_pure (e : list string) (w : world) :
  ∃ kind, detect_env_type e w = (Ok kind, w).
Proof.
  unfold detect_env_type, bind, get_world, ret.
  repeat case_match; eexists; reflexivity.
Qed.

Lemma find_python_env_pure (w : world) :
  ∃ r, find_python_env H w = (r, w).
Proof.
  unfold find_python_env.
  destruct (_ && _); [eexists; reflexivity|].
  destruct (env_truthy H "VIRTUAL_ENV"); [eexists; reflexivity|].
  unfold bind, get_world, lift, config_get, Path_, ret, raise.
  destruct (search_conda _ _) as [[e|]|e]; try (eexists; reflexivity).
  destruct (truthy _); [|eexists; reflexivity].
  destruct (Dict.get "pointe_dir" (config w)); try (eexists; reflexivity).
  repeat case_match; eexists; reflexivity.
Qed.

Lemma request_path_effect (key : string) (w : world) :
  let w' := (request_path key w).2 in
  fs w' = fs w ∧ writes w' = writes w ∧
  ∀ k, k ≠ key → Dict.lookup k (config w') = Dict.lookup k (config w).
Proof.
  unfold request_path, input, bind, get_world, raise, ret, set_stdin, set_config.
  destruct (stdin w) as [|line rest]; simpl; [done|].
  repeat split. intros k Hk. by apply lookup_set_ne.
Qed.

Ltac frame_start lemma :=
  unfold frame; by_step lemma;
  destruct (specified _) eqn:Hs; cbn [negb]; [by repeat split|].

Ltac frame_set :=
  split_and!; [done|done|by intros|];
  intros k Hk; simpl; rewrite !lookup_set_ne by set_solver; done.

Ltac frame_request key w :=
  destruct (request_path_effect key w) as (? & ? & Hcfg);
  split_and!; [done|done|by intros|];
  intros k Hk; apply Hcfg; set_solver.

Lemma detect_pointe_dir_frame (w : world) :
  frame ["pointe_dir"] "pointe_dir" w (detect_pointe_dir H w).2.
Proof.
  unfold detect_pointe_dir. frame_start (unset_or_auto_ok "pointe_dir" w).
  destruct (find_pointe_directory_pure w) as [r E]. by_step E.
  destruct r as [d|]; [frame_set|frame_request "pointe_dir" w].
Qed.

Lemma detect_viewer_dir_frame (w : world) :
  frame ["viewer_dir"; "viewer_models_dir"] "viewer_dir" w (detect_viewer_dir H w).2.
Proof.
  unfold detect_viewer_dir. frame_start (unset_or_auto_ok "viewer_dir" w).
  destruct (find_viewer_directory_pure w) as [r E]. by_step E.
  destruct r as [d|]; [frame_set|frame_request "viewer_dir" w].
Qed.

Lemma detect_python_env_frame (w : world) :
  frame ["pointe_env"; "env_type"] "pointe_env" w (detect_python_env H w).2.
Proof.
  unfold detect_python_env. frame_start (unset_or_auto_ok "pointe_env" w).
  destruct (find_python_env_pure w) as [r E].
  destruct r as [[e|]|e]; by_step E.
  - by_step (set_config_ok (Dict.set "pointe_env" (JStr (path_str H e))) w).
    destruct (detect_env_type_pure e
      (set_config (Dict.set "pointe_env" (JStr (path_str H e))) w).2) as [kind Ek].
    by_step Ek. frame_set.
  - frame_set.
  - split_and!; done.
Qed.

Lemma detect_temp_dir_frame (w : world) :
  frame ["temp_dir"] "temp_dir" w (detect_temp_dir H w).2.
Proof.
  unfold detect_temp_dir. frame_start (unset_or_auto_ok "temp_dir" w).
  destruct (bool_decide _); frame_set.
Qed.

Lemma deciding_key_idem (k m : string) :
  deciding_key k = Some m → deciding_key m = Some m.
Proof.
  unfold deciding_key. repeat case_bool_decide; intros [= <-]; done.
Qed.

Lemma preserves_refl (w : world) : preserves w w.
Proof. by intros k _. Qed.

Lemma preserves_trans (w1 w2 w3 : world) :
  preserves w1 w2 → preserves w2 w3 → preserves w1 w3.
Proof.
  intros H12 H23 k Hk. rewrite <- (H12 k Hk). apply H23.
  unfold kept in *. destruct (deciding_key k) as [m|] eqn:Em; [|done].
  assert (Hm : kept m (config w1))
    by (unfold kept; by rewrite (deciding_key_idem _ _ Em)).
  unfold Dict.get. by rewrite (H12 m Hm).
Qed.

Lemma frame_preserves (K : list string) (m : string) (w w' : world) :
  Forall (λ k, deciding_key k = Some m) K → frame K m w w' → preserves w w'.
Proof.
  intros HK (_ & _ & Hsame & Hother) k Hk.
  destruct (decide (k ∈ K)) as [Hin|Hout]; [|by apply Hother].
  rewrite Forall_forall in HK. unfold kept in Hk. rewrite (HK k Hin) in Hk.
  by rewrite Hsame.
Qed.

Lemma seq_preserves {A B} (m : M A) (k : A → M B) :
  (∀ w, preserves w (m w).2) → (∀ a w, preserves w (k a w).2) →
  ∀ w, preserves w (bind m k w).2.
Proof. apply seq_closed, preserves_trans. Qed.

Lemma write_file_effect (p : list string) (text : string) (w : world) :
  match FS.write_text p text (fs w) with
  | Ok f =>
      ∃ w', write_file p text w = (Ok tt, w') ∧ fs w' = f ∧
            writes w' = writes w ++ [p] ∧ config w' = config w
  | Raise e => write_file p text w = (Raise e, w)
  end.
Proof.
  unfold write_file, bind, fs_op.
  destruct (FS.write_text p text (fs w)) as [f|e]; [|done].
  eexists. simpl. done.
Qed.

Lemma write_text_lookup (p : list string) (text : string)
    (f f' : gmap (list string) node) :
  FS.write_text p text f = Ok f' → f' = <[p := File text]> f.
Proof.
  unfold FS.write_text. destruct p; [done|].
  repeat case_match; congruence.
Qed.

Lemma save_config_config (w : world) : config (save_config H w).2 = config w.
Proof.
  unfold save_config. by_step (eq_refl : get_world w = (Ok w, w)).
  pose proof (write_file_effect (path_of H detected_config_file)
                (Json.dumps (JObj (config w))) w) as Hw.
  destruct (FS.write_text _ _ _); [|by rewrite Hw].
  destruct Hw as (w' & -> & _ & _ & Hc). done.
Qed.

Lemma auto_detect_paths_preserves (w : world) :
  preserves w (auto_detect_paths H w).2.
Proof.
  revert w. unfold auto_detect_paths.
  apply seq_preserves.
  { intros w. eapply frame_preserves; [|apply detect_pointe_dir_frame].
    by repeat constructor. }
  intros _. apply seq_preserves.
  { intros w. eapply frame_preserves; [|apply detect_viewer_dir_frame].
    by repeat constructor. }
  intros _. apply seq_preserves.
  { intros w. eapply frame_preserves; [|apply detect_python_env_frame].
    by repeat constructor. }
  intros _. apply seq_preserves.
  { intros w. eapply frame_preserves; [|apply detect_temp_dir_frame].
    by repeat constructor. }
  intros _ w k _. by rewrite save_config_config.
Qed.








End AutoDetect.

(** C4, as amended.  [auto_detect_paths] leaves every configuration entry
    alone that it has no reason to write: [pointe_dir], [viewer_dir],
    [pointe_env] and [temp_dir] when already set to a truthy value other
    than ["auto"]; [viewer_models_dir] when [viewer_dir] is so set;
    [env_type] when [pointe_env] is so set; every other key always.  Such
    an entry is the same before and after, also when auto-detection ends
    in an exception. *)
Theorem auto_detect_paths_keeps_specified
    (H : platform) (w : world) (k : string) :
  kept k (config w) →
  Dict.lookup k (config (auto_detect_paths H w).2) = Dict.lookup k (config w).
Proof. intros Hk. by apply auto_detect_paths_preserves. Qed.

Lemma auto_detect_paths_keeps_specified_witness :
  let H := Demo.host Demo.settings 0 true in
  let w := Demo.controller Demo.settings Demo.disk in
  kept "temp_dir" (config w) ∧
  Dict.lookup "temp_dir" (config (auto_detect_paths H w).2)
    = Dict.lookup "temp_dir" (config w).
Proof.
  intros H w.
  assert (Hk : kept "temp_dir" (config w)) by reflexivity.
  exact (conj Hk (auto_detect_paths_keeps_specified H w "temp_dir" Hk)).
Defined.

(** C4 as stated fails: with [pointe_env] left to auto-detection, an
    [env_type] that the configuration file sets to ["venv"] is replaced by
    ["system"] when no environment is found. *)
Lemma auto_detect_paths_overwrites_env_type :
  ∃ (H : platform) (w : world) (k : string) (v : json),
    Dict.lookup k (config w) = Some v ∧ v ≠ JStr "auto" ∧
    Dict.lookup k (config (auto_detect_paths H w).2) ≠ Some v.
Proof.
  exists (Demo.host Demo.settings 0 true),
         (Demo.controller
            (Dict.set "env_type" (JStr "venv")
               (Dict.set "pointe_env" (JStr "auto") Demo.settings))
            Demo.disk),
         "env_type", (JStr "venv").
  split; [reflexivity|]. split; [discriminate|].
  vm_compute. discriminate.
Qed.

(** ** Startup: [setup_directories] and [__init__] *)

Section Startup.

Context (H : platform).

Lemma mkdirs_keeps (rest base : list string) (f f' : gmap (list string) node)
    (q : list string) (n : node) :
  FS.mkdirs base rest f = Ok f' → f !! q = Some n → f' !! q = Some n.
Proof.
  revert base f. induction rest as [|c rest IH]; intros base f Hm Hq; simpl in Hm.
  - by simplify_eq.
  - destruct (f !! (base ++ [c])) as [[text|]|] eqn:E; [done|by eapply IH|].
    eapply IH; [exact Hm|].
    rewrite lookup_insert_ne; [done|]. intros Heq. subst q. congruence.
Qed.


Lemma make_directory_settled (k : string) (w : world) :
  settled w ((do v <- config_item k; do p <- Path_ H v;
              fs_op (FS.mkdir_parents p)) w).2.
Proof.
  unfold bind, config_item, Path_, ret, raise.
  destruct (Dict.lookup k (config w)) as [v|]; [|done].
  destruct v; try done. simpl. unfold fs_op.
  destruct (FS.mkdir_parents (path_of H s) (fs w)) as [f|e] eqn:E; simpl; [|done].
  split_and!; try done. intros q n. by apply (mkdirs_keeps (path_of H s) []).
Qed.


(** Without a [viewer_models_dir] entry, [setup_directories] cannot
    complete; once the temp directory is there, what stops it is the
    lookup of that entry. *)
Lemma setup_directories_needs_models_dir (w : world) :
  Dict.lookup "viewer_models_dir" (config w) = None →
  (setup_directories H w).1 ≠ Ok tt ∧
  ∀ td f, Dict.lookup "temp_dir" (config w) = Some (JStr td) →
          FS.mkdir_parents (path_of H td) (fs w) = Ok f →
          (setup_directories H w).1 = Raise (KeyError "viewer_models_dir").
Proof.
  intros Hnone.
  assert (Hsecond : ∀ w0, config w0 = config w →
    ((do v <- config_item "viewer_models_dir"; do p <- Path_ H v;
      fs_op (FS.mkdir_parents p)) w0).1 = Raise (KeyError "viewer_models_dir")).
  { intros w0 Hc. unfold bind, config_item. by rewrite Hc, Hnone. }
  split.
  - unfold setup_directories, bind at 1.
    destruct ((do v <- config_item "temp_dir"; do p <- Path_ H v;
               fs_op (FS.mkdir_parents p)) w) as [[[]|e] w1] eqn:E1; [|done].
    rewrite Hsecond; [done|].
    pose proof (make_directory_settled "temp_dir" w) as (Hc & _).
    by rewrite E1 in Hc.
  - intros td f Htd Hmk. unfold setup_directories, bind at 1.
    unfold bind at 1. rewrite (config_item_ok _ _ _ Htd).
    unfold Path_, ret, bind at 1. unfold fs_op at 1. rewrite Hmk. simpl.
    by apply Hsecond.
Qed.

End Startup.

Section StartupWrites.

Context (H : platform).


Lemma setup_cleanup_effect (w : world) :
  ∃ w', setup_cleanup w = (Ok tt, w') ∧ config w' = config w ∧
        writes w' = writes w ∧ fs w' = fs w.
Proof. eexists. split; [reflexivity|done]. Qed.

Lemma load_config_effect (config_path : string) (w : world) :
  (∃ d, load_config H config_path w = (Ok tt, (set_config (λ _, d) w).2)) ∨
  (∃ e, load_config H config_path w = (Raise e, w)).
Proof.
  unfold load_config, bind, get_world, lift, raise.
  destruct (json_load H config_path (fs w)) as [doc|e]; [|right; by exists e].
  destruct doc; try (right; by exists TypeError). left. by eexists.
Qed.

Lemma load_prompts_effect (prompts_path : string) (w : world) :
  load_prompts H prompts_path w
  = (Ok tt, (set_prompts (load_table (csv_reader H prompts_path (fs w))) w).2).
Proof. reflexivity. Qed.



End StartupWrites.



(** C9, as amended.  If the configuration sets [viewer_dir] to a truthy
    value other than ["auto"] and has no [viewer_models_dir] entry, then
    after [auto_detect_paths] there is still no such entry, reading
    [config['viewer_models_dir']] raises [KeyError], and
    [setup_directories] cannot complete: once the temp directory has been
    created, it raises that [KeyError]. *)
Theorem setup_directories_without_models_dir (H : platform) (w : world) :
  specified (Dict.get "viewer_dir" (config w)) = true →
  Dict.lookup "viewer_models_dir" (config w) = None →
  let w1 := (auto_detect_paths H w).2 in
  Dict.lookup "viewer_models_dir" (config w1) = None ∧
  config_item "viewer_models_dir" w1 = (Raise (KeyError "viewer_models_dir"), w1) ∧
  (setup_directories H w1).1 ≠ Ok tt ∧
  ∀ td f, Dict.lookup "temp_dir" (config w1) = Some (JStr td) →
          FS.mkdir_parents (path_of H td) (fs w1) = Ok f →
          (setup_directories H w1).1 = Raise (KeyError "viewer_models_dir").
Proof.
  intros Hs Hnone w1.
  assert (Hnone1 : Dict.lookup "viewer_models_dir" (config w1) = None).
  { unfold w1. rewrite auto_detect_paths_preserves; [done|]. exact Hs. }
  split; [done|]. split; [by apply config_item_missing|].
  by apply setup_directories_needs_models_dir.
Qed.

Lemma setup_directories_without_models_dir_witness :
  let H := Demo.host Demo.settings 0 true in
  let w := Demo.controller
             [ ("pointe_dir", JStr "/srv/point-e");
               ("viewer_dir", JStr "/srv/exhibit/local3dviewer");
               ("pointe_env", JStr "auto") ] Demo.disk in
  specified (Dict.get "viewer_dir" (config w)) = true ∧
  Dict.lookup "viewer_models_dir" (config w) = None ∧
  let w1 := (auto_detect_paths H w).2 in
  Dict.lookup "viewer_models_dir" (config w1) = None ∧
  config_item "viewer_models_dir" w1 = (Raise (KeyError "viewer_models_dir"), w1) ∧
  (setup_directories H w1).1 ≠ Ok tt ∧
  ∀ td f, Dict.lookup "temp_dir" (config w1) = Some (JStr td) →
          FS.mkdir_parents (path_of H td) (fs w1) = Ok f →
          (setup_directories H w1).1 = Raise (KeyError "viewer_models_dir").
Proof.
  intros H w.
  assert (H1 : specified (Dict.get "viewer_dir" (config w)) = true) by reflexivity.
  assert (H2 : Dict.lookup "viewer_models_dir" (config w) = None) by reflexivity.
  exact (conj H1 (conj H2 (setup_directories_without_models_dir H w H1 H2))).
Defined.

(** C9 as stated fails: an empty string is a value other than ["auto"],
    yet the viewer directory is searched for, and once it is found
    [viewer_models_dir] is set and [setup_directories] completes. *)
Lemma empty_viewer_dir_is_detected :
  ∃ (H : platform) (w : world) (v : json),
    Dict.lookup "viewer_dir" (config w) = Some v ∧ v ≠ JStr "auto" ∧
    Dict.lookup "viewer_models_dir" (config w) = None ∧
    let w1 := (auto_detect_paths H w).2 in
    Dict.lookup "viewer_models_dir" (config w1)
      = Some (JStr "/srv/exhibit/local3dviewer/models") ∧
    (setup_directories H w1).1 = Ok tt.
Proof.
  exists (Demo.host Demo.settings 0 true),
         (Demo.controller
            [ ("pointe_dir", JStr "/srv/point-e");
              ("viewer_dir", JStr EmptyString);
              ("pointe_env", JStr "auto") ] Demo.disk),
         (JStr EmptyString).
  split; [reflexivity|]. split; [discriminate|]. split; [reflexivity|].
  split; vm_compute; reflexivity.
Qed.


Lemma run_command_other_kinds_as_venv_witness :
  let H := Demo.host Demo.settings 0 true in
  let w := Demo.controller
             (Dict.set "env_type" (JStr "unknown")
                (Dict.set "pointe_env" (JStr "/srv/point-e/env") Demo.settings))
             Demo.disk in
  let t := JStr "unknown" in
  let cmd := "python scripts/pointclouds_to_mesh.py --input cloud.npz" in
  let cwd := Some (JStr "/srv/point-e") in
  truthy (Dict.get "pointe_env" (config w)) = true ∧
  Dict.lookup "env_type" (config w) = Some t ∧
  eq_str t "conda" = false ∧
  eq_str t "system" = false ∧
  let w_venv := with_config_item "env_type" (JStr "venv") w in
  (run_command H cmd cwd w).1 = (run_command H cmd cwd w_venv).1 ∧
  fs (run_command H cmd cwd w).2 = fs (run_command H cmd cwd w_venv).2 ∧
  ∀ env, Dict.get "pointe_env" (config w) = JStr env →
         run_command H cmd cwd w = subprocess_run H (substituted H env cmd) cwd w.
Proof.
  intros H w t cmd cwd.
  assert (H1 : truthy (Dict.get "pointe_env" (config w)) = true) by reflexivity.
  assert (H2 : Dict.lookup "env_type" (config w) = Some t) by reflexivity.
  assert (H3 : eq_str t "conda" = false) by reflexivity.
  assert (H4 : eq_str t "system" = false) by reflexivity.
  exact (conj H1 (conj H2 (conj H3 (conj H4
    (run_command_other_kinds_as_venv H w t cmd cwd H1 H2 H3 H4))))).
Defined.

(** ** Cleanup (C5) *)

Section Cleanup.

Context (H : platform).

Lemma unlink_quietly_lookup (f : gmap (list string) node) (x p : list string) :
  unlink_quietly f x !! p
  = match f !! x with
    | Some (File _) => if decide (x = p) then None else f !! p
    | _ => f !! p
    end.
Proof.
  unfold unlink_quietly, FS.unlink.
  destruct (f !! x) as [[text|]|] eqn:E; try done.
  destruct (decide (x = p)) as [->|Hne].
  - apply lookup_delete_eq.
  - by apply lookup_delete_ne.
Qed.

(** The loop only removes. *)
Lemma sweep_loop_subset (l : list (list string)) (f : gmap (list string) node)
    (p : list string) (n : node) :
  foldl unlink_quietly f l !! p = Some n → f !! p = Some n.
Proof.
  revert f. induction l as [|x l IH]; intros f; simpl; [done|].
  intros Hp. apply IH in Hp. rewrite unlink_quietly_lookup in Hp.
  destruct (f !! x) as [[text|]|]; try done. by destruct (decide (x = p)).
Qed.

(** A regular file that the loop visits is gone afterwards. *)
Lemma sweep_loop_removes (l : list (list string)) (f : gmap (list string) node)
    (p : list string) (text : string) :
  p ∈ l → f !! p = Some (File text) → foldl unlink_quietly f l !! p = None.
Proof.
  revert f. induction l as [|x l IH]; intros f Hin Hp; [by apply elem_of_nil in Hin|].
  simpl. destruct (decide (x = p)) as [->|Hne].
  - destruct (foldl unlink_quietly (unlink_quietly f p) l !! p) as [n|] eqn:E; [|done].
    apply sweep_loop_subset in E. rewrite unlink_quietly_lookup, Hp in E.
    by destruct (decide (p = p)).
  - apply elem_of_cons in Hin as [->|Hin]; [done|].
    apply IH; [done|]. rewrite unlink_quietly_lookup.
    destruct (f !! x) as [[t|]|]; try done. by destruct (decide (x = p)).
Qed.

(** A loop that meets no regular file changes nothing. *)
Lemma sweep_loop_fixed (l : list (list string)) (f : gmap (list string) node) :
  (∀ x text, x ∈ l → f !! x ≠ Some (File text)) → foldl unlink_quietly f l = f.
Proof.
  induction l as [|x l IH]; intros Hl; [done|]. simpl.
  assert (Hx : unlink_quietly f x = f).
  { unfold unlink_quietly, FS.unlink.
    destruct (f !! x) as [[text|]|] eqn:E; try done.
    destruct (Hl x text); [left|done]. }
  rewrite Hx. apply IH. intros y text Hy. apply Hl. by right.
Qed.

Lemma elem_of_glob_prefix (f : gmap (list string) node) (d : list string)
    (prefix : string) (p : list string) :
  p ∈ glob_prefix f d prefix ↔
  is_Some (f !! p) ∧ removelast p = d ∧ p ≠ [] ∧
  Str.startswith (Path.name p) prefix = true.
Proof.
  unfold glob_prefix, iterdir, is_child.
  rewrite !list_elem_of_filter, list_elem_of_fmap, bool_decide_eq_true.
  split.
  - intros (Hpre & [Hd Hne] & [[q n] [-> Hq]]).
    apply elem_of_map_to_list in Hq. simpl in *. by split_and!; [exists n|..].
  - intros ([n Hn] & Hd & Hne & Hpre). split_and!; try done.
    exists (p, n). split; [done|]. by apply elem_of_map_to_list.
Qed.

Lemma sweep_no_temp_file (f : gmap (list string) node) (td p : list string) :
  well_formed f → ¬ temp_file (sweep f td) td "temp_" p.
Proof.
  intros Hwf (Hd & Hne & Hpre & text & Hp). unfold sweep in Hp.
  destruct (exists_ f td) eqn:Hex.
  - pose proof (sweep_loop_subset _ _ _ _ Hp) as Hp0.
    assert (Hin : p ∈ glob_prefix f td "temp_").
    { apply elem_of_glob_prefix. by split_and!; [exists (File text)|..]. }
    rewrite (sweep_loop_removes _ f p text Hin Hp0) in Hp. done.
  - apply Hwf in Hp. rewrite Hd in Hp. congruence.
Qed.

Lemma sweep_fixed (f : gmap (list string) node) (td : list string) :
  (∀ p, ¬ temp_file f td "temp_" p) → sweep f td = f.
Proof.
  intros Hno. unfold sweep. destruct (exists_ f td); [|done].
  apply sweep_loop_fixed. intros x text Hx Hf.
  apply elem_of_glob_prefix in Hx as (_ & Hd & Hne & Hpre).
  apply (Hno x). by split_and!; [..|exists text].
Qed.

Lemma sweep_idem (f : gmap (list string) node) (td : list string) :
  well_formed f → sweep (sweep f td) td = sweep f td.
Proof. intros Hwf. apply sweep_fixed. intros p. by apply sweep_no_temp_file. Qed.

Lemma stop_process_idem (p : process) : stop_process (stop_process p) = stop_process p.
Proof. destruct p as [n [] [] [] []]; reflexivity. Qed.

Lemma cleanup_temp_effect (w : world) (tds : string) :
  Dict.lookup "temp_dir" (config w) = Some (JStr tds) →
  cleanup_temp H w = (Ok tt, (set_fs (sweep (fs w) (path_of H tds)) w).2).
Proof.
  intros Htd. unfold cleanup_temp.
  by_step (config_item_ok _ _ _ Htd).
  by_step (eq_refl : Path_ H (JStr tds) w = (Ok (path_of H tds), w)).
  by_step (eq_refl : get_world w = (Ok w, w)). reflexivity.
Qed.

(** Closing the browser changes nothing in the world; its outcome depends
    on the configuration only. *)
Lemma close_browser_outcome (w : world) :
  ∃ r, (∀ w', config w' = config w → close_browser H w' = (r, w')) ∧
       (∀ e, r = Raise e → ∃ argv, run_argv H argv = Raise e).
Proof.
  set (close := truthy (Dict.get_default "close_browser_on_exit" (JBool false) (config w))).
  set (launch := λ argv, match run_argv H argv with
                         | Ok _ => Ok tt
                         | Raise e => Raise e
                         end).
  exists (if close then
            if bool_decide (system H = "Darwin")
            then launch ["osascript"; "-e"; close_chrome_script]
            else if bool_decide (system H = "Windows")
            then launch ["taskkill"; "/F"; "/IM"; "chrome.exe"]
            else Ok tt
          else Ok tt).
  split.
  - intros w' Hc. unfold close_browser, bind, get_world, lift, ret, launch.
    rewrite Hc. fold close. repeat case_match; done.
  - intros e. unfold launch. repeat case_match; intros; simplify_eq; eauto.
Qed.

(** The world that [cleanup] leaves, when the temp directory is [td]. *)
Lemma cleanup_outcome (w : world) (tds : string) :
  Dict.lookup "temp_dir" (config w) = Some (JStr tds) →
  ∃ r, cleanup H w =
       (r, {| config := config w; prompts := prompts w;
              processes := map stop_process (processes w); running := false;
              fs := sweep (fs w) (path_of H tds); stdin := stdin w;
              draws := draws w; ticks := ticks w; hooks := hooks w;
              writes := writes w |}) ∧
       (∀ w', config w' = config w → close_browser H w' = (r, w')) ∧
       (∀ e, r = Raise e → ∃ argv, run_argv H argv = Raise e).
Proof.
  intros Htd. destruct (close_browser_outcome w) as (r & Hr & He).
  exists r. split; [|done]. unfold cleanup.
  by_step (eq_refl : set_running false w = (Ok tt, (set_running false w).2)).
  set (wa := (set_running false w).2).
  by_step (eq_refl : stop_processes wa
                     = (Ok tt, (set_processes (map stop_process (processes wa)) wa).2)).
  set (wb := (set_processes (map stop_process (processes wa)) wa).2).
  by_step (cleanup_temp_effect wb tds Htd).
  by apply Hr.
Qed.

End Cleanup.

(** C5.  [cleanup] is idempotent.  For a controller whose temp directory
    is configured (as it is after startup) on a well-formed disk: after
    [cleanup] the temp directory holds no regular file whose name starts
    with [temp_]; a second [cleanup] right after the first ends exactly as
    the first did and leaves the world as the first left it, so that it
    adds no error and the temp directory is still free of such files; and
    the only error [cleanup] can end with is that of starting the program
    that closes the browser, errors of stopping processes and of deleting
    files being swallowed. *)
Theorem cleanup_idempotent (H : platform) (w : world) (tds : string) :
  Dict.lookup "temp_dir" (config w) = Some (JStr tds) →
  well_formed (fs w) →
  let td := path_of H tds in
  let r1 := (cleanup H w).1 in
  let w1 := (cleanup H w).2 in
  (∀ p, ¬ temp_file (fs w1) td "temp_" p) ∧
  cleanup H w1 = (r1, w1) ∧
  (∀ p, ¬ temp_file (fs (cleanup H w1).2) td "temp_" p) ∧
  (∀ e, r1 = Raise e → ∃ argv, run_argv H argv = Raise e).
Proof.
  intros Htd Hwf td r1 w1.
  destruct (cleanup_outcome H w tds Htd) as (r & E & Hr & He).
  subst r1 w1. rewrite E. cbn [fst snd].
  set (w1 := {| config := config w; prompts := prompts w;
                processes := map stop_process (processes w); running := false;
                fs := sweep (fs w) (path_of H tds); stdin := stdin w;
                draws := draws w; ticks := ticks w; hooks := hooks w;
                writes := writes w |}).
  assert (Hclean : ∀ p, ¬ temp_file (fs w1) td "temp_" p)
    by (intros p; by apply sweep_no_temp_file).
  assert (Hagain : cleanup H w1 = (r, w1)).
  { destruct (cleanup_outcome H w1 tds Htd) as (r' & E' & Hr' & _).
    rewrite E'. f_equal.
    - pose proof (Hr w1 eq_refl) as E1. pose proof (Hr' w1 eq_refl) as E2. congruence.
    - unfold w1. cbn [config prompts processes fs stdin draws ticks hooks writes].
      f_equal.
      + rewrite map_map. apply map_ext. intros p. apply stop_process_idem.
      + by apply sweep_idem. }
  split_and!; try done. by rewrite Hagain.
Qed.

(** ** The generation pipeline (C1, C2) *)

Section Pipeline.

Context (H : platform).

Lemma on_disk_same (w : world) : on_disk (fs w) w = w.
Proof. by destruct w. Qed.

Lemma config_only_ret {A} (a : A) : config_only (ret a).
Proof. by intros wa wb _. Qed.

Lemma config_only_raise {A} (e : exn) : config_only (@raise A e).
Proof. by intros wa wb _. Qed.

Lemma config_only_get (k : string) : config_only (config_get k).
Proof. intros wa wb Hc. unfold config_get. by rewrite Hc. Qed.

Lemma config_only_item (k : string) : config_only (config_item k).
Proof. intros wa wb Hc. unfold config_item. rewrite Hc. by case_match. Qed.

Lemma config_only_Path (v : json) : config_only (Path_ H v).
Proof. intros wa wb _. by destruct v. Qed.

Lemma config_only_bind {A B} (m : M A) (k : A → M B) :
  config_only m → (∀ a, config_only (k a)) → config_only (bind m k).
Proof.
  intros Hm Hk wa wb Hc. unfold bind.
  rewrite (Hm wa wb Hc), (Hm wa wa eq_refl).
  destruct (m wa).1 as [a|e]; [|done]. by apply Hk.
Qed.

Ltac config_only :=
  repeat first
    [ apply config_only_ret | apply config_only_raise | apply config_only_get
    | apply config_only_item | apply config_only_Path
    | apply config_only_bind; [|intros ?]
    | case_match ].

Lemma config_only_env_configured : config_only env_configured.
Proof. unfold env_configured. config_only. Qed.

Lemma config_only_get_python_cmd : config_only (get_python_cmd H).
Proof.
  unfold get_python_cmd. apply config_only_bind; [apply config_only_env_configured|].
  intros ?. config_only.
Qed.

Lemma config_only_subprocess_path : config_only (subprocess_path H).
Proof. unfold subprocess_path. config_only. Qed.

Lemma disk_only_of_config_only {A} (m : M A) : config_only m → disk_only m.
Proof.
  intros Hm wa wb Hc Hf. rewrite (Hm wa wb Hc), (Hm wa wa eq_refl). simpl.
  by rewrite Hf, on_disk_same.
Qed.

Lemma disk_only_get_fs : disk_only get_fs.
Proof. intros wa wb _ Hf. unfold get_fs. simpl. by rewrite Hf, on_disk_same. Qed.

Lemma disk_only_subprocess_run (cmd : string) (cwd : option json) :
  disk_only (subprocess_run H cmd cwd).
Proof. intros wa wb _ Hf. rewrite !subprocess_run_result, Hf. reflexivity. Qed.

Lemma disk_only_bind {A B} (m : M A) (k : A → M B) :
  disk_only m → (∀ a, disk_only (k a)) → disk_only (bind m k).
Proof.
  intros Hm Hk wa wb Hc Hf. unfold bind.
  rewrite (Hm wa wb Hc Hf). pose proof (Hm wa wa eq_refl eq_refl) as Ea.
  destruct (m wa) as [[a|e] wa']; simpl in *; [|done].
  assert (Hc' : config wa' = config (on_disk (fs wa') wb)).
  { injection Ea as Ea. rewrite Ea. simpl. exact Hc. }
  exact (Hk a wa' (on_disk (fs wa') wb) Hc' eq_refl).
Qed.

Ltac disk_only :=
  repeat first
    [ apply disk_only_get_fs | apply disk_only_subprocess_run
    | apply disk_only_of_config_only;
        first [ apply config_only_env_configured | apply config_only_get_python_cmd
              | apply config_only_item | apply config_only_get | apply config_only_Path
              | apply config_only_ret | apply config_only_raise ]
    | apply disk_only_bind; [|intros ?]
    | case_match ].

Lemma disk_only_run_command (cmd : string) (cwd : option json) :
  disk_only (run_command H cmd cwd).
Proof. unfold run_command. disk_only. Qed.

(** *** File names *)

Lemma length_append (a b : string) :
  String.length (a +:+ b) = String.length a + String.length b.
Proof. induction a as [|c a IH]; [done|]. rewrite append_cons. simpl. by rewrite IH. Qed.

Lemma rfind_dot_extension (a e : string) :
  Path.rfind_dot e = None →
  Path.rfind_dot (a +:+ "." +:+ e) = Some (String.length a).
Proof.
  intros He. induction a as [|c a IH].
  - rewrite append_nil_l. change ("." +:+ e) with (String "."%char e). simpl.
    rewrite He. by destruct (ascii_dec "." ".").
  - rewrite append_cons. simpl. by rewrite IH.
Qed.

Lemma take_append (a b : string) : Path.take (String.length a) (a +:+ b) = a.
Proof. induction a as [|c a IH]; [by destruct b|]. rewrite append_cons. simpl. by rewrite IH. Qed.

Lemma stem_extension (a e : string) :
  a ≠ EmptyString → e ≠ EmptyString → Path.rfind_dot e = None →
  Path.stem (a +:+ "." +:+ e) = a.
Proof.
  intros Ha He Hdot. unfold Path.stem. rewrite (rfind_dot_extension a e Hdot).
  rewrite !length_append.
  assert (0 < String.length a) by (destruct a; [done|simpl; lia]).
  assert (0 < String.length e) by (destruct e; [done|simpl; lia]).
  replace (0 <? String.length a) with true by (symmetry; apply Nat.ltb_lt; lia).
  replace (String.length a <? _) with true
    by (symmetry; apply Nat.ltb_lt; simpl; lia).
  apply take_append.
Qed.

Lemma name_joinpath (d : list string) (nm : string) : Path.name (d // nm) = nm.
Proof. apply last_last. Qed.

Lemma removelast_joinpath (d : list string) (nm : string) : removelast (d // nm) = d.
Proof. apply removelast_last. Qed.

Lemma joinpath_nonempty (d : list string) (nm : string) : d // nm ≠ [].
Proof. unfold Path.joinpath. by destruct d. Qed.

Lemma joinpath_ne_dir (d : list string) (nm : string) : d // nm ≠ d.
Proof.
  unfold Path.joinpath. intros E. apply (f_equal length) in E.
  rewrite length_app in E. simpl in E. lia.
Qed.

Lemma joinpath_inj (d d' : list string) (a b : string) : d // a = d' // b → a = b.
Proof. intros E. by apply app_inj_tail in E as [_ ?]. Qed.

Lemma with_suffix_extension (d : list string) (a e suffix : string) :
  a ≠ EmptyString → e ≠ EmptyString → Path.rfind_dot e = None →
  Path.with_suffix (d // (a +:+ "." +:+ e)) suffix = Some (d // (a +:+ suffix)).
Proof.
  intros Ha He Hdot. unfold Path.with_suffix.
  rewrite name_joinpath, removelast_joinpath.
  pose proof (stem_extension a e Ha He Hdot) as Hstem.
  destruct a as [|c a]; [done|]. rewrite append_cons in *. by rewrite Hstem.
Qed.

(** *** File operations that succeed *)

Lemma is_dir_false (f : gmap (list string) node) (p : list string) :
  is_dir f p = false → f !! p ≠ Some Dir.
Proof. unfold is_dir. destruct p; [done|]. intros E1 E2. by rewrite E2 in E1. Qed.

Lemma write_text_ok (p : list string) (text : string) (f : gmap (list string) node) :
  is_dir f p = false → is_dir f (removelast p) = true →
  FS.write_text p text f = Ok (<[p := File text]> f).
Proof.
  intros Hp Hd. unfold FS.write_text. destruct p as [|c p]; [done|].
  pose proof (is_dir_false _ _ Hp) as Hp'.
  destruct (f !! (c :: p)) as [[t|]|]; try done; by rewrite Hd.
Qed.

Lemma copy2_ok (src dst : list string) (text : string) (f : gmap (list string) node) :
  f !! src = Some (File text) → src ≠ dst →
  is_dir f dst = false → is_dir f (removelast dst) = true →
  FS.copy2 src dst f = Ok (<[dst := File text]> f).
Proof.
  intros Hs Hne Hp Hd. unfold FS.copy2. rewrite Hp, Hs.
  rewrite bool_decide_eq_false_2 by done. by apply write_text_ok.
Qed.

Lemma is_dir_insert_file (f : gmap (list string) node) (p d : list string) (text : string) :
  p ≠ d → is_dir (<[p := File text]> f) d = is_dir f d.
Proof. intros Hne. unfold is_dir. destruct d; [done|]. by rewrite lookup_insert_ne. Qed.

Lemma exists_insert (f : gmap (list string) node) (p d : list string) (n : node) :
  exists_ f d = true → exists_ (<[p := n]> f) d = true.
Proof.
  unfold exists_. destruct d as [|c d]; [done|].
  destruct (decide (p = c :: d)) as [->|Hne].
  - by rewrite lookup_insert_eq.
  - by rewrite lookup_insert_ne.
Qed.

Lemma sweep_no_temp_file_in (f : gmap (list string) node) (td p : list string) :
  exists_ f td = true → ¬ temp_file (sweep f td) td "temp_" p.
Proof.
  intros Hex (Hd & Hne & Hpre & text & Hp). unfold sweep in Hp. rewrite Hex in Hp.
  pose proof (sweep_loop_subset _ _ _ _ Hp) as Hp0.
  assert (Hin : p ∈ glob_prefix f td "temp_").
  { apply elem_of_glob_prefix. by split_and!; [exists (File text)|..]. }
  rewrite (sweep_loop_removes _ f p text Hin Hp0) in Hp. done.
Qed.

(** The sweep leaves alone what is not a temp file of the directory. *)
Lemma sweep_keeps (f : gmap (list string) node) (td p : list string) (n : node) :
  f !! p = Some n →
  (removelast p = td → Str.startswith (Path.name p) "temp_" = false) →
  sweep f td !! p = Some n.
Proof.
  intros Hp Hout. unfold sweep. destruct (exists_ f td); [|done].
  assert (Hnotin : p ∉ glob_prefix f td "temp_").
  { intros Hin. apply elem_of_glob_prefix in Hin as (_ & Hd & _ & Hpre).
    rewrite (Hout Hd) in Hpre. done. }
  remember (glob_prefix f td "temp_") as l eqn:El. clear El Hout.
  revert f Hp Hnotin. induction l as [|x l IH]; intros f Hp Hnotin; [done|].
  simpl. apply IH; [|set_solver].
  rewrite unlink_quietly_lookup.
  destruct (f !! x) as [[t|]|]; try done.
  destruct (decide (x = p)) as [->|]; [set_solver|done].
Qed.

End Pipeline.

Section Publishing.

Context (H : platform) (w : world).
Context (tds vds : string) (pd : json) (python_cmd PATH prompt : string) (w0 : world).

Let td := path_of H tds.
Let vd := path_of H vds.
Let timestamp := Datetime.strftime_compact (wall_clock H (ticks w)).
Let temp_pc := td // ("temp_" +:+ timestamp +:+ ".npz").
Let mesh_ply := td // ("temp_" +:+ timestamp +:+ ".ply").
Let obj_path := td // ("temp_" +:+ timestamp +:+ ".obj").
Let convert_script := td // "convert.py".

Hypothesis Htd : Dict.lookup "temp_dir" (config w) = Some (JStr tds).
Hypothesis Hpd : Dict.lookup "pointe_dir" (config w) = Some pd.
Hypothesis Hpy : get_python_cmd H w = (Ok python_cmd, w).
Hypothesis Hpath : subprocess_path H w = (Ok PATH, w).
Hypothesis Hprompt : generate_random_prompt H w = (Ok prompt, w0).

Lemma generate_random_prompt_world :
  ∃ n, w0 = (set_draws n w).2.
Proof.
  revert Hprompt. unfold generate_random_prompt.
  by_step (eq_refl : get_world w = (Ok w, w)).
  destruct (negb _).
  - intros [= _ <-]. exists (draws w). by destruct w.
  - unfold random_choice, bind, get_world, set_draws, ret, raise.
    repeat case_match; intros; simplify_eq; by eexists.
Qed.

Lemma at_config_only {A} (m : M A) (a : A) (w' : world) :
  config_only m → m w = (Ok a, w) → config w' = config w → m w' = (Ok a, w').
Proof. intros Hm E Hc. rewrite (Hm w w' (eq_sym Hc)), E. done. Qed.

Lemma at_disk_only {A} (m : M A) (r : result A) (f g : gmap (list string) node)
    (w' : world) :
  disk_only m → m (on_disk f w) = (r, on_disk g w) →
  config w' = config w → fs w' = f → m w' = (r, on_disk g w').
Proof.
  intros Hm E Hc Hf. rewrite (Hm (on_disk f w) w'); [|by rewrite Hc|by rewrite Hf].
  by rewrite E.
Qed.

(** Stepping through a computation at whatever world it has reached. *)
Ltac tidy :=
  cbn [fst snd set_draws set_ticks set_fs set_config log_write on_disk
       config prompts processes running fs stdin draws ticks hooks writes].

Ltac same_config :=
  tidy; first [ reflexivity | assumption
              | match goal with Hc : config _ = config _ |- _ => rewrite Hc end;
                first [ reflexivity | assumption ] ].

Ltac step_item Hk :=
  match goal with
  | |- context [bind (config_item ?k) ?c ?w'] =>
      let E := fresh "E" in
      assert (E : config_item k w' = (Ok _, w'))
        by (apply config_item_ok; tidy;
            first [ exact Hk
                  | match goal with
                    | Hc : config _ = config _ |- _ => rewrite Hc; exact Hk
                    end ]);
      rewrite (bind_ok (config_item k) c w' w' _ E); clear E; cbn beta iota
  end.

Ltac step_config_only Hm Hpure :=
  match goal with
  | |- context [bind ?m ?c ?w'] =>
      let E := fresh "E" in
      assert (E : m w' = (Ok _, w'))
        by (apply (at_config_only m _ w' Hpure Hm); same_config);
      rewrite (bind_ok m c w' w' _ E); clear E; cbn beta iota
  end.

Ltac step_refl :=
  match goal with
  | |- context [bind ?m ?c ?w'] =>
      rewrite (bind_ok m c w' _ _ eq_refl); cbn beta iota
  end.

Ltac step_disk_only Hm Hpure :=
  match goal with
  | |- context [bind ?m ?c ?w'] =>
      let E := fresh "E" in
      assert (E : m w' = (Ok _, on_disk _ w'))
        by (apply (at_disk_only m _ _ _ w' Hpure Hm); [same_config|same_config]);
      rewrite (bind_ok m c w' _ _ E); clear E; cbn beta iota
  end.

Lemma temp_name_with_suffix (d : list string) (ts e suffix : string) :
  e ≠ EmptyString → Path.rfind_dot e = None →
  Path.with_suffix (d // ("temp_" +:+ ts +:+ "." +:+ e)) suffix
  = Some (d // ("temp_" +:+ ts +:+ suffix)).
Proof.
  intros He Hdot.
  rewrite <- (append_assoc "temp_" ts ("." +:+ e)), <- (append_assoc "temp_" ts suffix).
  by apply with_suffix_extension.
Qed.

Lemma with_suffix_ok (p q : list string) (suffix : string) (w' : world) :
  Path.with_suffix p suffix = Some q → with_suffix p suffix w' = (Ok q, w').
Proof. intros E. unfold with_suffix. by rewrite E. Qed.

Context (f1 f2 f2' f3 : gmap (list string) node) (r2 r3 : completed) (mesh : string).

Hypothesis Hgen :
  popen_stream H (inference_cmd H python_cmd prompt temp_pc) pd PATH (fs w)
  = (Exited 0, f1).
Hypothesis Hmesh :
  run_command H (mesh_cmd H temp_pc) (Some pd) (on_disk f1 w) = (Ok r2, on_disk f2 w).

(** The call ends at the mesh conversion when that exits non-zero: the
    controller writes nothing and removes nothing after it. *)
Lemma generate_object_mesh_failure :
  returncode r2 ≠ 0%Z →
  ∃ w', generate_object H w = (Ok false, w') ∧ fs w' = f2 ∧ writes w' = writes w.
Proof.
  intros Hr2. destruct generate_random_prompt_world as [n E0].
  unfold generate_object.
  by_step Hprompt. subst w0.
  step_refl. step_item Htd. step_refl.
  step_config_only Hpy (config_only_get_python_cmd H).
  step_config_only Hpath (config_only_subprocess_path H).
  step_item Hpd. step_refl. tidy.
  change (path_of H tds // ("temp_" +:+ Datetime.strftime_compact (wall_clock H (ticks w))
                            +:+ ".npz")) with temp_pc.
  rewrite Hgen. step_refl. cbn [Z.eqb negb].
  step_item Hpd.
  step_disk_only Hmesh (disk_only_run_command H (mesh_cmd H temp_pc) (Some pd)).
  apply Z.eqb_neq in Hr2. rewrite Hr2. cbn [negb].
  eexists. split; [reflexivity|]. done.
Qed.

Hypothesis Hvd : Dict.lookup "viewer_models_dir" (config w) = Some (JStr vds).
Hypothesis Hr2 : returncode r2 = 0%Z.
Hypothesis Hscript :
  FS.write_text convert_script (convert_script_content H mesh_ply obj_path) f2 = Ok f2'.
Hypothesis Hconv :
  run_command H (python_cmd +:+ " " +:+ path_str H convert_script) (Some (JStr tds))
    (on_disk f2' w)
  = (Ok r3, on_disk f3 w).
Hypothesis Hr3 : returncode r3 = 0%Z.
Hypothesis Hobj : f3 !! obj_path = Some (File mesh).
Hypothesis Hwf : well_formed f3.
Hypothesis Hmodels : is_dir f3 vd = true.
Hypothesis Hfree_obj : is_dir f3 (vd // "model1.obj") = false.
Hypothesis Hfree_mtl : is_dir f3 (vd // "model1.mtl") = false.
Hypothesis Hfree_prompt : is_dir f3 (vd // "last_prompt.txt") = false.

Lemma convert_ply_to_obj_ok (w' : world) :
  config w' = config w → fs w' = f2 →
  convert_ply_to_obj H mesh_ply w'
  = (Ok (Some obj_path), on_disk f3 (log_write convert_script w').2).
Proof.
  intros Hc Hf. unfold convert_ply_to_obj.
  rewrite (bind_ok _ _ w' w' obj_path)
    by (apply with_suffix_ok; by apply (temp_name_with_suffix td timestamp "ply")).
  cbn beta iota.
  step_item Htd. step_refl.
  fold td convert_script.
  assert (Ewrite : write_file convert_script
                     (convert_script_content H mesh_ply obj_path) w'
                   = (Ok tt, (log_write convert_script (on_disk f2' w')).2)).
  { unfold write_file, bind, fs_op. by rewrite Hf, Hscript. }
  by_step Ewrite.
  step_config_only Hpy (config_only_get_python_cmd H).
  step_item Htd.
  step_disk_only Hconv (disk_only_run_command H
    (python_cmd +:+ " " +:+ path_str H convert_script) (Some (JStr tds))).
  rewrite Hr3. reflexivity.
Qed.

(** C2, as amended.  For every configuration in which the point-cloud,
    mesh-conversion and format-conversion subprocesses all exit zero and,
    besides, the conversion script could be written, the converted [.obj]
    file is in the temp directory of a well-formed disk once the format
    converter has exited, and the viewer's models directory is a
    directory holding no directory called [model1.obj], [model1.mtl] or
    [last_prompt.txt]: one call to [generate_object] returns [True] and
    leaves [model1.obj] with the content of the converted file,
    [model1.mtl] with the fixed default material, [last_prompt.txt] with
    a timestamp line followed by the exact prompt, and no regular file
    whose name starts with [temp_] in the temp directory. *)
Theorem generate_object_publishes :
  ∃ w', generate_object H w = (Ok true, w') ∧
        fs w' !! (vd // "model1.obj") = Some (File mesh) ∧
        fs w' !! (vd // "model1.mtl") = Some (File mtl_content) ∧
        fs w' !! (vd // "last_prompt.txt")
          = Some (File (Datetime.isoformat (wall_clock H (S (ticks w)))
                        +:+ Json.nl +:+ prompt)) ∧
        ∀ p, ¬ temp_file (fs w') td "temp_" p.
Proof.
  destruct generate_random_prompt_world as [n E0].
  set (stamp := Datetime.isoformat (wall_clock H (S (ticks w))) +:+ Json.nl +:+ prompt).
  set (f4 := <[vd // "model1.obj" := File mesh]> f3).
  set (f5 := <[vd // "model1.mtl" := File mtl_content]> f4).
  set (f6 := <[vd // "last_prompt.txt" := File stamp]> f5).
  assert (Hex : exists_ f6 td = true).
  { do 3 apply exists_insert. pose proof (Hwf _ _ Hobj) as Hp.
    unfold obj_path in Hp. by rewrite removelast_joinpath in Hp. }
  assert (Hrun : ∃ w', generate_object H w = (Ok true, w') ∧ fs w' = sweep f6 td).
  { unfold generate_object.
    by_step Hprompt. subst w0.
    step_refl. step_item Htd. step_refl.
    step_config_only Hpy (config_only_get_python_cmd H).
    step_config_only Hpath (config_only_subprocess_path H).
    step_item Hpd. step_refl. tidy.
    change (path_of H tds // ("temp_" +:+ Datetime.strftime_compact (wall_clock H (ticks w))
                              +:+ ".npz")) with temp_pc.
    rewrite Hgen. step_refl. cbn [Z.eqb negb].
    step_item Hpd.
    step_disk_only Hmesh (disk_only_run_command H (mesh_cmd H temp_pc) (Some pd)).
    rewrite Hr2. cbn [Z.eqb negb].
    match goal with
    | |- context [bind (with_suffix temp_pc ".ply") ?c ?w1] =>
        rewrite (bind_ok _ c w1 w1 mesh_ply)
          by (apply with_suffix_ok; by apply (temp_name_with_suffix td timestamp "npz"))
    end.
    cbn beta iota.
    match goal with
    | |- context [bind (convert_ply_to_obj H mesh_ply) ?c ?w1] =>
        rewrite (bind_ok _ c w1 _ _ (convert_ply_to_obj_ok w1 eq_refl eq_refl))
    end.
    cbn beta iota.
    step_item Hvd. step_refl. fold vd.
    match goal with
    | |- context [bind (fs_op (FS.copy2 obj_path ?dst)) ?c ?w1] =>
        assert (Ecopy : fs_op (FS.copy2 obj_path dst) w1 = (Ok tt, on_disk f4 w1))
    end.
    { unfold fs_op. tidy. rewrite (copy2_ok obj_path _ mesh); try done.
      - intros E. apply joinpath_inj in E. revert E. unfold timestamp.
        generalize (Datetime.strftime_compact (wall_clock H (ticks w))).
        intros ts E. by rewrite append_cons in E.
      - by rewrite removelast_joinpath. }
    by_step Ecopy.
    match goal with
    | |- context [bind (with_suffix ?p ".mtl") ?c ?w1] =>
        rewrite (bind_ok _ c w1 w1 (vd // "model1.mtl"))
          by (apply with_suffix_ok; unfold Path.with_suffix;
              by rewrite name_joinpath, removelast_joinpath)
    end.
    cbn beta iota.
    match goal with
    | |- context [bind (create_mtl ?p) ?c ?w1] =>
        assert (Emtl : create_mtl p w1
                       = (Ok tt, (log_write p (on_disk f5 w1)).2))
    end.
    { unfold create_mtl, write_file, bind, fs_op. tidy.
      rewrite write_text_ok; [done| |].
      - unfold f4. rewrite is_dir_insert_file; [done|].
        intros E. by apply joinpath_inj in E.
      - rewrite removelast_joinpath. unfold f4.
        rewrite is_dir_insert_file; [done|]. apply joinpath_ne_dir. }
    by_step Emtl.
    step_item Hvd. step_refl. step_refl. fold vd. tidy. fold stamp.
    match goal with
    | |- context [bind (write_file ?p stamp) ?c ?w1] =>
        assert (Eprompt : write_file p stamp w1
                          = (Ok tt, (log_write p (on_disk f6 w1)).2))
    end.
    { unfold write_file, bind, fs_op. tidy.
      rewrite write_text_ok; [done| |].
      - unfold f5, f4. rewrite !is_dir_insert_file; [done|..];
          intros E; by apply joinpath_inj in E.
      - rewrite removelast_joinpath. unfold f5, f4.
        rewrite !is_dir_insert_file; [done|..]; apply joinpath_ne_dir. }
    by_step Eprompt.
    match goal with
    | |- context [bind (cleanup_temp H) ?c ?w1] =>
        rewrite (bind_ok _ c w1 _ _ (cleanup_temp_effect H w1 tds Htd))
    end.
    cbn beta iota. eexists. split; [reflexivity|]. done. }
  destruct Hrun as (w' & Erun & Efs). exists w'. split; [done|]. rewrite Efs.
  split_and!.
  - apply sweep_keeps; [|intros _; by rewrite name_joinpath].
    unfold f6, f5, f4.
    do 2 rewrite lookup_insert_ne by (intros E; by apply joinpath_inj in E).
    by rewrite lookup_insert_eq.
  - apply sweep_keeps; [|intros _; by rewrite name_joinpath].
    unfold f6, f5.
    rewrite lookup_insert_ne by (intros E; by apply joinpath_inj in E).
    by rewrite lookup_insert_eq.
  - apply sweep_keeps; [|intros _; by rewrite name_joinpath].
    unfold f6. by rewrite lookup_insert_eq.
  - intros p. by apply sweep_no_temp_file_in.
Qed.

End Publishing.

(** ** The sample host at work *)

Lemma well_formed_decide (f : gmap (list string) node) :
  bool_decide (map_Forall (λ p _, exists_ f (removelast p) = true) f) = true →
  well_formed f.
Proof. intros Hd. apply bool_decide_eq_true in Hd. exact Hd. Qed.

Lemma pair_of_parts {A B} (x : A * B) (a : A) : x.1 = a → x = (a, x.2).
Proof. intros <-. by destruct x. Qed.

Lemma run_command_parts (H : platform) (cmd : string) (cwd : option json)
    (f : gmap (list string) node) (w : world) (r : result completed) :
  (run_command H cmd cwd (on_disk f w)).1 = r →
  run_command H cmd cwd (on_disk f w)
  = (r, on_disk (fs (run_command H cmd cwd (on_disk f w)).2) w).
Proof.
  intros <-.
  exact (disk_only_run_command H cmd cwd (on_disk f w) (on_disk f w) eq_refl eq_refl).
Qed.

Lemma generate_object_publishes_witness :
  let H := Demo.host Demo.settings 0 true in
  let w := Demo.controller Demo.settings Demo.disk in
  let models := ["/"; "srv"; "exhibit"; "local3dviewer"; "models"] in
  ∃ w', generate_object H w = (Ok true, w') ∧
        fs w' !! (models // "model1.obj") = Some (File EmptyString) ∧
        fs w' !! (models // "model1.mtl") = Some (File mtl_content) ∧
        fs w' !! (models // "last_prompt.txt")
          = Some (File (Datetime.isoformat (wall_clock H 1)
                        +:+ Json.nl +:+ "a swirling ceramic vase")) ∧
        ∀ p, ¬ temp_file (fs w') ["/"; "tmp"; "exhibition"] "temp_" p.
Proof.
  intros H w models.
  pose (td := ["/"; "tmp"; "exhibition"]).
  pose (pd := JStr "/srv/point-e").
  pose (py := "/usr/bin/python3").
  pose (temp_pc := td // "temp_20240517_093000.npz").
  pose (ply := td // "temp_20240517_093000.ply").
  pose (obj := td // "temp_20240517_093000.obj").
  pose (script := td // "convert.py").
  pose (w0 := (generate_random_prompt H w).2).
  pose (f1 := (popen_stream H (inference_cmd H py "a swirling ceramic vase" temp_pc)
                 pd EmptyString (fs w)).2).
  pose (f2 := fs (run_command H (mesh_cmd H temp_pc) (Some pd) (on_disk f1 w)).2).
  pose (f2' := <[script := File (convert_script_content H ply obj)]> f2).
  pose (f3 := fs (run_command H (py +:+ " " +:+ path_str H script)
                    (Some (JStr "/tmp/exhibition")) (on_disk f2' w)).2).
  apply (λ h1 h2 h3 h4 h5,
           generate_object_publishes H w "/tmp/exhibition"
           "/srv/exhibit/local3dviewer/models" pd py EmptyString
           "a swirling ceramic vase" w0 h1 h2 h3 h4 h5
           f1 f2 f2' f3 (Demo.done_with 0) (Demo.done_with 0) EmptyString).
  - reflexivity.
  - reflexivity.
  - apply pair_of_parts. vm_compute. reflexivity.
  - apply pair_of_parts. vm_compute. reflexivity.
  - apply pair_of_parts. vm_compute. reflexivity.
  - apply pair_of_parts. vm_compute. reflexivity.
  - apply run_command_parts. vm_compute. reflexivity.
  - reflexivity.
  - reflexivity.
  - apply write_text_ok; vm_compute; reflexivity.
  - apply run_command_parts. vm_compute. reflexivity.
  - reflexivity.
  - vm_compute. reflexivity.
  - apply well_formed_decide. vm_compute. reflexivity.
  - vm_compute. reflexivity.
  - vm_compute. reflexivity.
  - vm_compute. reflexivity.
  - vm_compute. reflexivity.
Defined.

(** C2 as stated fails: on this host the generation tool, the mesh
    converter and the format converter all exit zero, but the format
    converter has written no [.obj] file; the call ends in the
    [FileNotFoundError] of [shutil.copy2], the model of the earlier run is
    still the published one, neither [model1.mtl] nor [last_prompt.txt]
    exists, and the point-cloud file is still in the temp directory. *)
Lemma generate_object_zero_exits_without_model :
  let H := Demo.host Demo.settings 0 false in
  let w := Demo.controller Demo.settings Demo.disk in
  let td := ["/"; "tmp"; "exhibition"] in
  let models := ["/"; "srv"; "exhibit"; "local3dviewer"; "models"] in
  let pd := JStr "/srv/point-e" in
  let py := "/usr/bin/python3" in
  let temp_pc := td // "temp_20240517_093000.npz" in
  let ply := td // "temp_20240517_093000.ply" in
  let obj := td // "temp_20240517_093000.obj" in
  let script := td // "convert.py" in
  let generation :=
    popen_stream H (inference_cmd H py "a swirling ceramic vase" temp_pc)
      pd EmptyString (fs w) in
  let meshing :=
    run_command H (mesh_cmd H temp_pc) (Some pd) (on_disk generation.2 w) in
  let conversion :=
    run_command H (py +:+ " " +:+ path_str H script) (Some (JStr "/tmp/exhibition"))
      (on_disk (<[script := File (convert_script_content H ply obj)]> (fs meshing.2)) w) in
  generation.1 = Exited 0 ∧
  meshing.1 = Ok (Demo.done_with 0) ∧
  conversion.1 = Ok (Demo.done_with 0) ∧
  (generate_object H w).1 = Raise FileNotFoundError ∧
  fs (generate_object H w).2 !! (models // "model1.obj") = Some (File "# earlier model") ∧
  fs (generate_object H w).2 !! (models // "model1.mtl") = None ∧
  fs (generate_object H w).2 !! (models // "last_prompt.txt") = None ∧
  fs (generate_object H w).2 !! temp_pc = Some (File EmptyString).
Proof. vm_compute. repeat split. Qed.

(** C1, at the failing input: on this host the mesh converter exits with
    code 1.  [generate_object] returns [False] and the published
    [model1.obj] is the one of the earlier run, as the claim says; but the
    point-cloud file of this cycle, whose name starts with [temp_], is
    still in the temp directory when the call returns: the return in the
    failure branch comes before [cleanup_temp], which only the success
    path reaches. *)
Theorem generate_object_mesh_failure_leaves_temp_file :
  let H := Demo.host Demo.settings 1 true in
  let w := Demo.controller Demo.settings Demo.disk in
  let td := ["/"; "tmp"; "exhibition"] in
  let models := ["/"; "srv"; "exhibit"; "local3dviewer"; "models"] in
  let temp_pc := td // "temp_20240517_093000.npz" in
  let w' := (generate_object H w).2 in
  (generate_object H w).1 = Ok false ∧
  fs w' !! (models // "model1.obj") = fs w !! (models // "model1.obj") ∧
  fs w !! (models // "model1.obj") = Some (File "# earlier model") ∧
  temp_file (fs w') td "temp_" temp_pc.
Proof.
  intros H w td models temp_pc w'.
  split; [vm_compute; reflexivity|]. split; [vm_compute; reflexivity|].
  split; [vm_compute; reflexivity|].
  split; [reflexivity|]. split; [discriminate|]. split; [reflexivity|].
  exists EmptyString. vm_compute. reflexivity.
Qed.

Lemma cleanup_idempotent_witness :
  let H := Demo.host Demo.settings 1 true in
  let w := (generate_object H (Demo.controller Demo.settings Demo.disk)).2 in
  let tds := "/tmp/exhibition" in
  Dict.lookup "temp_dir" (config w) = Some (JStr tds) ∧
  well_formed (fs w) ∧
  let td := path_of H tds in
  let r1 := (cleanup H w).1 in
  let w1 := (cleanup H w).2 in
  (∀ p, ¬ temp_file (fs w1) td "temp_" p) ∧
  cleanup H w1 = (r1, w1) ∧
  (∀ p, ¬ temp_file (fs (cleanup H w1).2) td "temp_" p) ∧
  (∀ e, r1 = Raise e → ∃ argv, run_argv H argv = Raise e).
Proof.
  intros H w tds.
  assert (H1 : Dict.lookup "temp_dir" (config w) = Some (JStr tds))
    by (vm_compute; reflexivity).
  assert (H2 : well_formed (fs w))
    by (apply well_formed_decide; vm_compute; reflexivity).
  exact (conj H1 (conj H2 (cleanup_idempotent H w tds H1 H2))).
Defined.

(** ** JSON texts read back *)

Section JsonRoundTrip.

Import Json.




(** *** White space *)




(** *** String literals *)




(** *** Numbers *)








(** *** Values *)



















End JsonRoundTrip.

(** * Further properties of the controller *)



(** ** The prompt file *)

Section PromptFile.

Lemma startswith_head (c p : ascii) (s ps : string) :
  Str.startswith (String c s) (String p ps) = true → c = p.
Proof. simpl. destruct (ascii_dec p c) as [->|]; [done|]. by rewrite ?andb_false_l. Qed.

(** No header counts for two columns. *)
Lemma header_is_exclusive (h : string) :
  (header_is "description" h = true → header_is "material" h = false ∧
                                       header_is "object" h = false) ∧
  (header_is "material" h = true → header_is "object" h = false).
Proof.
  unfold header_is. destruct (Str.lower (Str.strip h)) as [|c s]; [done|].
  split.
  - intros Hd. apply startswith_head in Hd as ->. done.
  - intros Hm. apply startswith_head in Hm as ->. done.
Qed.

Lemma scan_headers_first (headers : list string) :
  ∀ i d m o,
    scan_headers i headers (d, m, o)
    = (or_first d (header_is "description") i headers,
       or_first m (header_is "material") i headers,
       or_first o (header_is "object") i headers).
Proof.
  induction headers as [|h hs IH]; intros i d m o.
  - by destruct d, m, o.
  - cbn [scan_headers]. fold (header_is "description" h).
    fold (header_is "material" h). fold (header_is "object" h).
    destruct (header_is_exclusive h) as [Hd Hm].
    destruct (header_is "description" h) eqn:Ed.
    + destruct (Hd eq_refl) as [Em Eo]. rewrite Em, Eo.
      destruct d, m, o; cbn [is_none andb]; rewrite IH;
        cbn [or_first first_index]; by rewrite ?Ed, ?Em, ?Eo.
    + destruct (header_is "material" h) eqn:Em.
      * pose proof (Hm eq_refl) as Eo. rewrite Eo.
        destruct d, m, o; cbn [is_none andb]; rewrite IH;
          cbn [or_first first_index]; by rewrite ?Ed, ?Em, ?Eo.
      * destruct (header_is "object" h) eqn:Eo;
          destruct d, m, o; cbn [is_none andb]; rewrite IH;
          cbn [or_first first_index]; by rewrite ?Ed, ?Em, ?Eo.
Qed.

Lemma nonempty_spec (s : string) : nonempty s = true ↔ s ≠ EmptyString.
Proof. by destruct s. Qed.

Lemma read_rows_usable di mi oi (rows : list (list string)) :
  ∀ t,
    read_rows di mi oi (Row <$> rows) t
    = {| Descriptions := Descriptions t ++ (cell di <$> filter (usable_row di mi oi) rows);
         Materials := Materials t ++ (cell mi <$> filter (usable_row di mi oi) rows);
         Objects := Objects t ++ (cell oi <$> filter (usable_row di mi oi) rows) |}.
Proof.
  induction rows as [|row rows IH]; intros t.
  - simpl. rewrite !app_nil_r. by destruct t.
  - rewrite fmap_cons. cbn [read_rows]. rewrite IH. rewrite filter_cons.
    fold (cell di row). fold (cell mi row). fold (cell oi row).
    destruct (decide (usable_row di mi oi row)) as [(Hlen & Hd & Hm & Ho)|Hno].
    + apply Nat.ltb_lt in Hlen. rewrite Hlen.
      apply nonempty_spec in Hd, Hm, Ho. rewrite Hd, Hm, Ho. cbn [andb].
      cbn [Descriptions Materials Objects]. rewrite !fmap_cons, <- !app_assoc. done.
    + destruct (_ <? _) eqn:Hlen; [|done].
      destruct (nonempty (cell di row)) eqn:Hd; [|done].
      destruct (nonempty (cell mi row)) eqn:Hm; [|done].
      destruct (nonempty (cell oi row)) eqn:Ho; [|done].
      destruct Hno. apply Nat.ltb_lt in Hlen.
      split_and!; [done|by apply nonempty_spec..].
Qed.

Lemma read_rows_fault di mi oi (rows : list (list string)) (rest : list csv_event) :
  ∀ t, read_rows di mi oi ((Row <$> rows) ++ Fault :: rest) t
       = read_rows di mi oi (Row <$> rows) t.
Proof.
  induction rows as [|row rows IH]; intros t; [done|].
  rewrite fmap_cons. cbn [app read_rows]. apply IH.
Qed.

End PromptFile.

(** X2.  [load_prompts] takes as the description column the first header
    that, stripped and in lower case, starts with [description], and
    likewise for [material] and [object]: each column is found
    independently of the two others, whatever the order of the headers
    and whatever other columns there are. *)
Theorem scan_headers_first_match (headers : list string) :
  scan_headers 0 headers (None, None, None)
  = (first_index (header_is "description") 0 headers,
     first_index (header_is "material") 0 headers,
     first_index (header_is "object") 0 headers).
Proof. apply scan_headers_first. Qed.

(** X3.  From a prompt file whose header row names the three columns at
    [di], [mi] and [oi], [load_prompts] keeps exactly the rows that reach
    all three columns with no blank cell among them, in the order of the
    file: the three sequences are the stripped cells of those rows, so
    that the i-th description, material and object come from the same
    row. *)
Theorem load_prompts_keeps_usable_rows
    (H : platform) (prompts_path : string) (w : world)
    (headers : list string) (rows : list (list string)) (di mi oi : nat) :
  csv_reader H prompts_path (fs w) = Some (Row headers :: (Row <$> rows)) →
  first_index (header_is "description") 0 headers = Some di →
  first_index (header_is "material") 0 headers = Some mi →
  first_index (header_is "object") 0 headers = Some oi →
  ∃ w', load_prompts H prompts_path w = (Ok tt, w') ∧
        prompts w'
        = {| Descriptions := cell di <$> filter (usable_row di mi oi) rows;
             Materials := cell mi <$> filter (usable_row di mi oi) rows;
             Objects := cell oi <$> filter (usable_row di mi oi) rows |}.
Proof.
  intros Hsrc Hd Hm Ho. eexists. split; [reflexivity|].
  cbn [snd set_prompts prompts]. unfold get_world. cbn [prompts].
  rewrite Hsrc. unfold load_table.
  destruct headers as [|h hs] eqn:Eh; [done|]. rewrite <- Eh in *.
  rewrite scan_headers_first. cbn [or_first]. rewrite Hd, Hm, Ho.
  by rewrite read_rows_usable.
Qed.

Lemma load_prompts_keeps_usable_rows_witness :
  let H := Demo.with_prompt_file
             (Some [ Row ["id"; " Material "; "OBJECT type"; "Descriptions"];
                     Row ["1"; "ceramic"; " vase"; "a swirling "; "extra"];
                     Row ["2"; "glass"; "bowl"];
                     Row ["3"; "  "; "cup"; "a tall"];
                     Row ["4"; "bronze"; "bell"; "a heavy"] ])
             (Demo.host Demo.settings 0 true) in
  let w := Demo.controller Demo.settings Demo.disk in
  ∃ w', load_prompts H "prompts.csv" w = (Ok tt, w') ∧
        prompts w' = {| Descriptions := ["a swirling"; "a heavy"];
                        Materials := ["ceramic"; "bronze"];
                        Objects := ["vase"; "bell"] |}.
Proof.
  intros H w.
  exact (load_prompts_keeps_usable_rows H "prompts.csv" w
           ["id"; " Material "; "OBJECT type"; "Descriptions"]
           [ ["1"; "ceramic"; " vase"; "a swirling "; "extra"];
             ["2"; "glass"; "bowl"];
             ["3"; "  "; "cup"; "a tall"];
             ["4"; "bronze"; "bell"; "a heavy"] ]
           3 1 2 eq_refl eq_refl eq_refl eq_refl).
Defined.

(** X4.  When the reader fails in the middle of the file (a decoding
    error, a malformed line), [load_prompts] keeps the rows it has read
    before the failure and reads none after it: the table is the one of
    the file cut at the failure. *)
Theorem load_prompts_keeps_rows_before_fault
    (headers : list string) (rows : list (list string)) (rest : list csv_event) :
  load_table (Some (Row headers :: (Row <$> rows) ++ Fault :: rest))
  = load_table (Some (Row headers :: (Row <$> rows))).
Proof.
  unfold load_table. destruct headers as [|h hs]; [done|].
  destruct (scan_headers 0 (h :: hs) (None, None, None)) as [[[d|] [m|]] [o|]]; try done.
  apply read_rows_fault.
Qed.

(** X5.  Whatever the prompt file holds, [load_prompts] returns normally
    and leaves three sequences of the same length whose elements are all
    stripped and non-empty; in particular either all three are empty or
    none is. *)
Theorem load_prompts_sequences_aligned
    (H : platform) (prompts_path : string) (w : world) :
  ∃ w', load_prompts H prompts_path w = (Ok tt, w') ∧
        length (Descriptions (prompts w')) = length (Materials (prompts w')) ∧
        length (Materials (prompts w')) = length (Objects (prompts w')) ∧
        clean_table (prompts w') ∧
        config w' = config w ∧ fs w' = fs w.
Proof.
  eexists. split; [reflexivity|]. cbn [snd set_prompts prompts config fs].
  unfold get_world. cbn [prompts config fs].
  split_and!; try done; try apply load_table_clean.
  - unfold load_table.
    destruct (csv_reader H prompts_path (fs w)) as [[|[headers|] rows]|]; try done.
    destruct headers as [|h hs]; [done|].
    destruct (scan_headers _ _ _) as [[[d|] [m|]] [o|]]; try done.
    by apply read_rows_parallel.
  - unfold load_table.
    destruct (csv_reader H prompts_path (fs w)) as [[|[headers|] rows]|]; try done.
    destruct headers as [|h hs]; [done|].
    destruct (scan_headers _ _ _) as [[[d|] [m|]] [o|]]; try done.
    by apply read_rows_parallel.
Qed.

(** ** The command runner without an environment, and with a conda one *)

Section Runner.

Context (H : platform).

Lemma env_configured_system (w : world) :
  Dict.lookup "env_type" (config w) = Some (JStr "system") →
  env_configured w = (Ok false, w).
Proof.
  intros Ht. destruct (truthy (Dict.get "pointe_env" (config w))) eqn:Hv.
  - by rewrite (env_configured_yes w (JStr "system") Hv Ht).
  - by apply env_configured_no.
Qed.


Lemma get_python_cmd_conda (w : world) (env : string) :
  Dict.lookup "pointe_env" (config w) = Some (JStr env) →
  env ≠ EmptyString →
  Dict.lookup "env_type" (config w) = Some (JStr "conda") →
  get_python_cmd H w
  = (Ok (if bool_decide (system H = "Windows")
         then path_str H (path_of H env // "python.exe")
         else path_str H (path_of H env // "bin" // "python")), w).
Proof.
  intros He Hne Ht.
  assert (Hv : truthy (Dict.get "pointe_env" (config w)) = true)
    by (rewrite (get_lookup _ _ _ He); by apply nonempty_truthy).
  unfold get_python_cmd.
  by_step (env_configured_yes w _ Hv Ht).
  change (negb (eq_str (JStr "conda") "system")) with true. cbn beta iota.
  by_step (config_item_ok _ _ _ He).
  unfold Path_ at 1, ret at 1. unfold bind at 1. cbn beta iota.
  destruct (bool_decide (system H = "Windows")); [|done].
  by_step (config_item_ok _ _ _ Ht). done.
Qed.

End Runner.

(** X6.  With no environment configured ([pointe_env] absent, null or
    empty) or with the kind ["system"], [run_command] hands the command to
    the shell exactly as given, a leading [python] included, and
    [get_python_cmd] is the interpreter that runs the controller. *)
Theorem run_command_without_environment
    (H : platform) (w : world) (cmd : string) (cwd : option json) :
  truthy (Dict.get "pointe_env" (config w)) = false ∨
  Dict.lookup "env_type" (config w) = Some (JStr "system") →
  run_command H cmd cwd w = subprocess_run H cmd cwd w ∧
  get_python_cmd H w = (Ok (sys_executable H), w).
Proof.
  intros Hno.
  assert (E : env_configured w = (Ok false, w)).
  { destruct Hno as [Hv|Ht]; [by apply env_configured_no|by apply env_configured_system]. }
  split.
  - unfold run_command. by_step E. done.
  - unfold get_python_cmd. by_step E. done.
Qed.

Lemma run_command_without_environment_witness :
  let H := Demo.host Demo.settings 0 true in
  let w := Demo.controller Demo.settings Demo.disk in
  let cmd := "python scripts/pointclouds_to_mesh.py --input cloud.npz" in
  run_command H cmd None w = subprocess_run H cmd None w ∧
  get_python_cmd H w = (Ok "/usr/bin/python3", w).
Proof.
  intros H w cmd.
  exact (run_command_without_environment H w cmd None (or_introl eq_refl)).
Defined.

(** X7.  For a conda environment [run_command] does not touch the command:
    it puts [conda run -n <name of the environment directory>] in front of
    it, also when the command starts with [python].  On Windows the conda
    program is [Scripts\conda.exe] two levels above the environment
    directory when that file exists, and [condabin\conda.bat] there
    otherwise.  The interpreter of [get_python_cmd] is [python.exe]
    directly in the environment directory on Windows and [bin/python]
    elsewhere. *)
Theorem run_command_conda_prefix
    (H : platform) (w : world) (env cmd : string) (cwd : option json) :
  Dict.lookup "pointe_env" (config w) = Some (JStr env) →
  env ≠ EmptyString →
  Dict.lookup "env_type" (config w) = Some (JStr "conda") →
  let env_path := path_of H env in
  let conda_base := parent H (parent H env_path) in
  let conda :=
    if bool_decide (system H = "Windows") then
      if exists_ (fs w) (conda_base // "Scripts" // "conda.exe")
      then path_str H (conda_base // "Scripts" // "conda.exe")
      else path_str H (conda_base // "condabin" // "conda.bat")
    else "conda" in
  run_command H cmd cwd w
  = subprocess_run H (conda +:+ " run -n " +:+ Path.name env_path +:+ " " +:+ cmd) cwd w ∧
  get_python_cmd H w
  = (Ok (if bool_decide (system H = "Windows")
         then path_str H (env_path // "python.exe")
         else path_str H (env_path // "bin" // "python")), w).
Proof.
  intros He Hne Ht env_path conda_base conda.
  split; [|by apply get_python_cmd_conda].
  assert (Hv : truthy (Dict.get "pointe_env" (config w)) = true)
    by (rewrite (get_lookup _ _ _ He); by apply nonempty_truthy).
  unfold run_command.
  by_step (env_configured_yes w _ Hv Ht).
  change (negb (eq_str (JStr "conda") "system")) with true. cbn beta iota.
  by_step (config_item_ok _ _ _ He).
  unfold Path_ at 1, ret at 1. unfold bind at 1. cbn beta iota.
  by_step (config_item_ok _ _ _ Ht).
  change (eq_str (JStr "conda") "conda") with true. cbn beta iota.
  subst conda. fold env_path.
  destruct (bool_decide (system H = "Windows")); [|done].
  by_step (eq_refl : get_fs w = (Ok (fs w), w)). fold conda_base.
  by destruct (exists_ (fs w) (conda_base // "Scripts" // "conda.exe")).
Qed.

Lemma run_command_conda_prefix_witness :
  let H := Demo.host Demo.settings 0 true in
  let w := Demo.controller
             (Dict.set "env_type" (JStr "conda")
                (Dict.set "pointe_env" (JStr "/opt/conda/envs/point-e") Demo.settings))
             Demo.disk in
  let cmd := "python scripts/pointclouds_to_mesh.py --input cloud.npz" in
  run_command H cmd None w
  = subprocess_run H ("conda run -n point-e " +:+ cmd) None w ∧
  get_python_cmd H w = (Ok "/opt/conda/envs/point-e/bin/python", w).
Proof.
  intros H w cmd.
  assert (Hne : "/opt/conda/envs/point-e" ≠ EmptyString) by discriminate.
  exact (run_command_conda_prefix H w "/opt/conda/envs/point-e" cmd None
           eq_refl Hne eq_refl).
Defined.



(** ** Shutdown and the temp directory *)

Section Sweeping.

Context (H : platform).

Lemma unlink_quietly_file (f : gmap (list string) node) (x p : list string) (t : string) :
  unlink_quietly f x !! p = Some (File t) → f !! p = Some (File t).
Proof.
  rewrite unlink_quietly_lookup.
  destruct (f !! x) as [[text|]|]; try done. by destruct (decide (x = p)).
Qed.

(** The loop leaves alone whatever it does not visit as a regular file. *)
Lemma sweep_loop_other (l : list (list string)) (p : list string) :
  ∀ f, (p ∈ l → ∀ t, f !! p ≠ Some (File t)) →
       foldl unlink_quietly f l !! p = f !! p.
Proof.
  induction l as [|x l IH]; intros f Hp; [done|]. simpl.
  rewrite IH.
  - rewrite unlink_quietly_lookup.
    destruct (f !! x) as [[text|]|] eqn:Ex; try done.
    destruct (decide (x = p)) as [->|]; [|done].
    destruct (Hp ltac:(left) text Ex).
  - intros Hin t Ht. apply unlink_quietly_file in Ht.
    apply (Hp ltac:(by right) t Ht).
Qed.

Lemma sweep_other (f : gmap (list string) node) (td p : list string) :
  ¬ temp_file f td "temp_" p → sweep f td !! p = f !! p.
Proof.
  intros Hno. unfold sweep. destruct (exists_ f td); [|done].
  apply sweep_loop_other. intros Hin t Ht.
  apply elem_of_glob_prefix in Hin as (_ & Hd & Hne & Hpre).
  apply Hno. by split_and!; [..|exists t].
Qed.

Lemma sweep_removes (f : gmap (list string) node) (td p : list string) :
  exists_ f td = true → temp_file f td "temp_" p → sweep f td !! p = None.
Proof.
  intros Hex (Hd & Hne & Hpre & text & Hp). unfold sweep. rewrite Hex.
  apply (sweep_loop_removes _ f p text); [|done].
  apply elem_of_glob_prefix. by split_and!; [exists (File text)|..].
Qed.

Lemma stop_process_alive (p : process) :
  alive (stop_process p)
  = alive p && kill_raises p && (terminate_raises p || ignores_terminate p).
Proof. destruct p as [n [] [] [] []]; reflexivity. Qed.

Lemma stop_process_pid (p : process) : pid (stop_process p) = pid p.
Proof. destruct p as [n [] [] [] []]; reflexivity. Qed.

Lemma cleanup_temp_keeps (w : world) :
  running (cleanup_temp H w).2 = running w ∧
  processes (cleanup_temp H w).2 = processes w.
Proof.
  unfold cleanup_temp, config_item, Path_, get_world, set_fs, ret, raise, bind.
  destruct (Dict.lookup "temp_dir" (config w)) as [v|]; [|done].
  by destruct v.
Qed.

Lemma close_browser_world (w : world) : (close_browser H w).2 = w.
Proof.
  destruct (close_browser_outcome H w) as (r & Hr & _). by rewrite (Hr w eq_refl).
Qed.

Lemma cleanup_processes (w : world) :
  running (cleanup H w).2 = false ∧
  processes (cleanup H w).2 = map stop_process (processes w).
Proof.
  unfold cleanup.
  by_step (eq_refl : set_running false w = (Ok tt, (set_running false w).2)).
  set (wa := (set_running false w).2).
  by_step (eq_refl : stop_processes wa
                     = (Ok tt, (set_processes (map stop_process (processes wa)) wa).2)).
  set (wb := (set_processes (map stop_process (processes wa)) wa).2).
  pose proof (cleanup_temp_keeps wb) as [Hr Hp].
  destruct (cleanup_temp H wb) as [[[]|e] wc] eqn:E; by_step E; simpl in Hr, Hp.
  - by rewrite close_browser_world.
  - done.
Qed.

End Sweeping.

(** X9.  [cleanup_temp] deletes exactly the regular files that lie
    directly in the temp directory and whose name starts with [temp_]:
    every such file is gone afterwards, and every other entry of the disk
    (sub-directories, files in sub-directories, the conversion script
    [convert.py], the published model) is as it was.  The configuration
    and the write log do not change. *)
Theorem cleanup_temp_removes_exactly (H : platform) (w : world) (tds : string) :
  Dict.lookup "temp_dir" (config w) = Some (JStr tds) →
  let td := path_of H tds in
  ∃ w', cleanup_temp H w = (Ok tt, w') ∧
        config w' = config w ∧ writes w' = writes w ∧
        (∀ p, ¬ temp_file (fs w) td "temp_" p → fs w' !! p = fs w !! p) ∧
        (exists_ (fs w) td = true →
         ∀ p, temp_file (fs w) td "temp_" p → fs w' !! p = None) ∧
        fs w' !! (td // "convert.py") = fs w !! (td // "convert.py").
Proof.
  intros Htd td. eexists. split; [by apply cleanup_temp_effect|].
  cbn [snd set_fs config writes fs]. fold td. split_and!; try done.
  - intros p Hp. by apply sweep_other.
  - intros Hex p Hp. by apply sweep_removes.
  - apply sweep_other. intros (_ & _ & Hpre & _).
    rewrite name_joinpath in Hpre. done.
Qed.

Lemma cleanup_temp_removes_exactly_witness :
  let H := Demo.host Demo.settings 0 true in
  let w := Demo.controller Demo.settings Demo.disk in
  let td := path_of H "/tmp/exhibition" in
  ∃ w', cleanup_temp H w = (Ok tt, w') ∧
        config w' = config w ∧ writes w' = writes w ∧
        (∀ p, ¬ temp_file (fs w) td "temp_" p → fs w' !! p = fs w !! p) ∧
        (exists_ (fs w) td = true →
         ∀ p, temp_file (fs w) td "temp_" p → fs w' !! p = None) ∧
        fs w' !! (td // "convert.py") = fs w !! (td // "convert.py").
Proof.
  intros H w.
  exact (cleanup_temp_removes_exactly H w "/tmp/exhibition" eq_refl).
Defined.

(** X10.  However [cleanup] ends, it has cleared the running flag and has
    gone through every tracked process: the handles stay in the list, in
    their order, and a process is still alive afterwards only if it was
    alive, [terminate] failed or was ignored for the five seconds of the
    wait, and [kill] failed as well. *)
Theorem cleanup_stops_processes (H : platform) (w : world) :
  let w1 := (cleanup H w).2 in
  running w1 = false ∧
  map pid (processes w1) = map pid (processes w) ∧
  ∀ p, p ∈ processes w1 → alive p = true →
       kill_raises p = true ∧
       (terminate_raises p = true ∨ ignores_terminate p = true).
Proof.
  intros w1. destruct (cleanup_processes H w) as [Hr Hp]. fold w1 in Hr, Hp.
  split; [done|]. rewrite Hp. split.
  - rewrite map_map. apply map_ext. intros p. apply stop_process_pid.
  - intros p Hin Halive. apply list_elem_of_In, in_map_iff in Hin as (q & <- & _).
    rewrite stop_process_alive in Halive.
    destruct q as [n [] [] [] []]; simpl in *; try done; auto.
Qed.

(** ** Startup directories *)

Section Directories.

Context (H : platform).

(** After [mkdirs], every component walked is a directory. *)
Lemma mkdirs_dirs (rest : list string) :
  ∀ base f f' k,
    FS.mkdirs base rest f = Ok f' → 0 < k ≤ length rest →
    f' !! (base ++ take k rest) = Some Dir.
Proof.
  induction rest as [|c rest IH]; intros base f f' k Hm Hk; [simpl in Hk; lia|].
  destruct k as [|k]; [lia|]. simpl in Hm, Hk.
  assert (Hsplit : base ++ take (S k) (c :: rest) = (base ++ [c]) ++ take k rest)
    by (simpl; by rewrite <- app_assoc).
  rewrite Hsplit.
  destruct (f !! (base ++ [c])) as [[text|]|] eqn:E; [done| |].
  - destruct k as [|k].
    + rewrite take_0, app_nil_r. by apply (mkdirs_keeps rest (base ++ [c]) f f').
    + apply (IH (base ++ [c]) f f'); [done|lia].
  - destruct k as [|k].
    + rewrite take_0, app_nil_r.
      apply (mkdirs_keeps rest (base ++ [c]) _ f' _ _ Hm). apply lookup_insert_eq.
    + eapply (IH (base ++ [c])); [exact Hm|lia].
Qed.

(** [mkdirs] over directories that are all there changes nothing. *)
Lemma mkdirs_again (rest : list string) :
  ∀ base f,
    (∀ k, 0 < k ≤ length rest → f !! (base ++ take k rest) = Some Dir) →
    FS.mkdirs base rest f = Ok f.
Proof.
  induction rest as [|c rest IH]; intros base f Hd; [done|]. simpl.
  pose proof (Hd 1 ltac:(simpl; lia)) as H1. simpl in H1. rewrite take_0 in H1.
  rewrite H1. apply IH. intros k Hk.
  specialize (Hd (S k) ltac:(simpl; lia)). simpl in Hd.
  by rewrite <- app_assoc.
Qed.

Lemma mkdir_parents_is_dir (p : list string) (f f' : gmap (list string) node) :
  FS.mkdir_parents p f = Ok f' → is_dir f' p = true.
Proof.
  intros Hm. destruct (decide (p = [])) as [->|Hne]; [done|].
  assert (Hlen : 0 < length p) by (destruct p; [done|simpl; lia]).
  pose proof (mkdirs_dirs p [] f f' (length p) Hm ltac:(lia)) as Hd.
  rewrite firstn_all in Hd. simpl in Hd. unfold is_dir. rewrite Hd. by destruct p.
Qed.

Lemma make_directory_ok (k : string) (w w' : world) :
  (do v <- config_item k; do p <- Path_ H v; fs_op (FS.mkdir_parents p)) w = (Ok tt, w') →
  ∃ s f, Dict.lookup k (config w) = Some (JStr s) ∧
         FS.mkdir_parents (path_of H s) (fs w) = Ok f ∧ w' = on_disk f w.
Proof.
  unfold bind, config_item, Path_, ret, raise, fs_op.
  destruct (Dict.lookup k (config w)) as [v|]; [|done].
  destruct v; try done.
  destruct (FS.mkdir_parents (path_of H s) (fs w)) as [f|e] eqn:E; [|done].
  intros [= <-]. by exists s, f.
Qed.

Lemma make_directory_again (k s : string) (w : world) :
  Dict.lookup k (config w) = Some (JStr s) →
  FS.mkdir_parents (path_of H s) (fs w) = Ok (fs w) →
  (do v <- config_item k; do p <- Path_ H v; fs_op (FS.mkdir_parents p)) w = (Ok tt, w).
Proof.
  intros Hk Hm. unfold bind, config_item, Path_, ret, fs_op. rewrite Hk, Hm.
  by destruct w.
Qed.

(** What a completed [setup_directories] has done. *)
Lemma setup_directories_outcome (w : world) :
  (setup_directories H w).1 = Ok tt →
  let w' := (setup_directories H w).2 in
  ∃ tds vds,
    Dict.lookup "temp_dir" (config w) = Some (JStr tds) ∧
    Dict.lookup "viewer_models_dir" (config w) = Some (JStr vds) ∧
    is_dir (fs w') (path_of H tds) = true ∧
    is_dir (fs w') (path_of H vds) = true ∧
    config w' = config w ∧
    (∀ q n, fs w !! q = Some n → fs w' !! q = Some n) ∧
    setup_directories H w' = (Ok tt, w').
Proof.
  intros Hok w'. subst w'. unfold setup_directories in *.
  destruct ((do v <- config_item "temp_dir"; do p <- Path_ H v;
             fs_op (FS.mkdir_parents p)) w) as [[[]|e] w1] eqn:E1;
    rewrite ?(bind_ok _ _ _ _ _ E1), ?(bind_raise _ _ _ _ _ E1) in *; [|done].
  destruct ((do v <- config_item "viewer_models_dir"; do p <- Path_ H v;
             fs_op (FS.mkdir_parents p)) w1) as [[[]|e] w2] eqn:E2; [|done].
  clear Hok. cbn [snd].
  apply make_directory_ok in E1 as (tds & f1 & Htd & Hm1 & ->).
  apply make_directory_ok in E2 as (vds & f2 & Hvd & Hm2 & ->).
  cbn [on_disk set_fs snd config fs] in *.
  pose proof (mkdir_parents_is_dir _ _ _ Hm1) as Hd1.
  pose proof (mkdir_parents_is_dir _ _ _ Hm2) as Hd2.
  assert (Hkeep2 : ∀ q n, f1 !! q = Some n → f2 !! q = Some n)
    by (intros q n; apply (mkdirs_keeps (path_of H vds) [] f1 f2 q n Hm2)).
  assert (Hkeep1 : ∀ q n, fs w !! q = Some n → f1 !! q = Some n)
    by (intros q n; apply (mkdirs_keeps (path_of H tds) [] (fs w) f1 q n Hm1)).
  assert (Hagain1 : FS.mkdir_parents (path_of H tds) f2 = Ok f2).
  { apply mkdirs_again. intros k Hk. apply Hkeep2.
    by apply (mkdirs_dirs (path_of H tds) [] (fs w) f1 k Hm1). }
  assert (Hagain2 : FS.mkdir_parents (path_of H vds) f2 = Ok f2).
  { apply mkdirs_again. intros k Hk.
    by apply (mkdirs_dirs (path_of H vds) [] f1 f2 k Hm2). }
  exists tds, vds. split_and!; try done.
  - unfold is_dir in *. destruct (path_of H tds) as [|c p]; [done|].
    destruct (f1 !! (c :: p)) as [[t|]|] eqn:E; try done. by rewrite (Hkeep2 _ _ E).
  - intros q n Hq. by apply Hkeep2, Hkeep1.
  - set (w2 := {| config := config w; prompts := prompts w; processes := processes w;
                  running := running w; fs := f2; stdin := stdin w; draws := draws w;
                  ticks := ticks w; hooks := hooks w; writes := writes w |}).
    rewrite (bind_ok _ _ w2 w2 tt); [|by apply (make_directory_again _ tds)].
    by apply (make_directory_again _ vds).
Qed.

End Directories.

(** X11.  When [setup_directories] completes, the configuration names
    the temp directory and the models directory by strings, both are
    directories on the disk, nothing that was on the disk has been removed
    or changed, and running [setup_directories] again changes nothing
    ([exist_ok]). *)
Theorem setup_directories_creates (H : platform) (w : world) :
  (setup_directories H w).1 = Ok tt →
  let w' := (setup_directories H w).2 in
  ∃ tds vds,
    Dict.lookup "temp_dir" (config w) = Some (JStr tds) ∧
    Dict.lookup "viewer_models_dir" (config w) = Some (JStr vds) ∧
    is_dir (fs w') (path_of H tds) = true ∧
    is_dir (fs w') (path_of H vds) = true ∧
    config w' = config w ∧
    (∀ q n, fs w !! q = Some n → fs w' !! q = Some n) ∧
    setup_directories H w' = (Ok tt, w').
Proof. apply setup_directories_outcome. Qed.

Lemma setup_directories_creates_witness :
  let H := Demo.host Demo.settings 0 true in
  let w := Demo.controller
             (Dict.set "temp_dir" (JStr "/var/exhibition/work") Demo.settings)
             Demo.disk in
  (setup_directories H w).1 = Ok tt ∧
  let w' := (setup_directories H w).2 in
  ∃ tds vds,
    Dict.lookup "temp_dir" (config w) = Some (JStr tds) ∧
    Dict.lookup "viewer_models_dir" (config w) = Some (JStr vds) ∧
    is_dir (fs w') (path_of H tds) = true ∧
    is_dir (fs w') (path_of H vds) = true ∧
    config w' = config w ∧
    (∀ q n, fs w !! q = Some n → fs w' !! q = Some n) ∧
    setup_directories H w' = (Ok tt, w').
Proof.
  intros H w.
  assert (Hok : (setup_directories H w).1 = Ok tt) by (vm_compute; reflexivity).
  exact (conj Hok (setup_directories_creates H w Hok)).
Defined.

(** ** What auto-detection finds *)

(** A key is not among the keys listed. *)
Ltac not_among :=
  let Hin := fresh "Hin" in
  intros Hin;
  repeat (apply elem_of_cons in Hin as [Hin|Hin]; [congruence|]);
  by apply elem_of_nil in Hin.

Section Detection.

Context (H : platform).

Lemma elem_of_rglob (f : gmap (list string) node) (d : list string) (nm : string)
    (p : list string) :
  p ∈ rglob f d nm ↔
  is_Some (f !! p) ∧ d `prefix_of` removelast p ∧ p ≠ [] ∧ Path.name p = nm.
Proof.
  unfold rglob. rewrite list_elem_of_filter, list_elem_of_fmap, bool_decide_spec.
  split.
  - intros ((Hd & Hne & Hnm) & [[q n] [-> Hq]]).
    apply elem_of_map_to_list in Hq. simpl in *. by split_and!; [exists n|..].
  - intros ([n Hn] & Hd & Hne & Hnm). split; [done|].
    exists (p, n). split; [done|]. by apply elem_of_map_to_list.
Qed.

(** The outcome of a block of [auto_detect_paths] that has nothing but
    the configuration and the disk to go by. *)
Lemma find_viewer_directory_disk (w w1 : world) :
  fs w1 = fs w →
  find_viewer_directory H w1 = ((find_viewer_directory H w).1, w1).
Proof.
  intros Hf. unfold find_viewer_directory, bind, get_world, ret. by rewrite Hf.
Qed.

Lemma find_pointe_directory_disk (w w1 : world) :
  fs w1 = fs w →
  find_pointe_directory H w1 = ((find_pointe_directory H w).1, w1).
Proof.
  intros Hf. unfold find_pointe_directory, bind, get_world, ret. by rewrite Hf.
Qed.

Lemma detect_env_type_kinds (e : list string) (w : world) :
  ∃ kind, detect_env_type e w = (Ok kind, w) ∧ kind ∈ ["conda"; "venv"; "unknown"].
Proof.
  unfold detect_env_type, bind, get_world, ret.
  repeat case_match; eexists; (split; [reflexivity|]).
  - apply elem_of_cons. by left.
  - apply elem_of_cons. right. apply elem_of_cons. by left.
  - do 2 (apply elem_of_cons; right). apply elem_of_cons. by left.
Qed.

Lemma same_entry_trans (k : string) (w1 w2 w3 : world) :
  same_entry k w1 w2 → same_entry k w2 w3 → same_entry k w1 w3.
Proof. unfold same_entry. congruence. Qed.

Lemma frame_same_entry (K : list string) (m k : string) (w w' : world) :
  frame K m w w' → k ∉ K → same_entry k w w'.
Proof. intros (_ & _ & _ & Hother) Hk. by apply Hother. Qed.

Lemma after_python_env (k : string) (w : world) :
  k ≠ "temp_dir" →
  same_entry k w ((detect_temp_dir H ;; save_config H) w).2.
Proof.
  intros Hk. revert w. apply seq_closed.
  - apply same_entry_trans.
  - intros w. eapply frame_same_entry; [apply detect_temp_dir_frame|not_among].
  - intros _ w. unfold same_entry. by rewrite save_config_config.
Qed.

Lemma after_viewer_dir (k : string) (w : world) :
  k ≠ "pointe_env" → k ≠ "env_type" → k ≠ "temp_dir" →
  same_entry k w ((detect_python_env H ;; detect_temp_dir H ;; save_config H) w).2.
Proof.
  intros Hk1 Hk2 Hk3. revert w. apply seq_closed.
  - apply same_entry_trans.
  - intros w. eapply frame_same_entry; [apply detect_python_env_frame|not_among].
  - intros _ w. by apply after_python_env.
Qed.

Lemma after_pointe_dir (k : string) (w : world) :
  k ≠ "viewer_dir" → k ≠ "viewer_models_dir" →
  k ≠ "pointe_env" → k ≠ "env_type" → k ≠ "temp_dir" →
  same_entry k w
    ((detect_viewer_dir H ;; detect_python_env H ;; detect_temp_dir H ;; save_config H) w).2.
Proof.
  intros Hk1 Hk2 Hk3 Hk4 Hk5. revert w. apply seq_closed.
  - apply same_entry_trans.
  - intros w. eapply frame_same_entry; [apply detect_viewer_dir_frame|not_among].
  - intros _ w. by apply after_viewer_dir.
Qed.

Lemma specified_same_entry (k : string) (w w' : world) :
  same_entry k w w' →
  specified (Dict.get k (config w')) = specified (Dict.get k (config w)).
Proof. intros Hk. unfold Dict.get. by rewrite Hk. Qed.

Lemma get_python_cmd_returns (w : world) (v t : json) :
  Dict.lookup "pointe_env" (config w) = Some v →
  (∃ env, v = JStr env) ∨ v = JNull →
  Dict.lookup "env_type" (config w) = Some t →
  ∃ py, get_python_cmd H w = (Ok py, w).
Proof.
  intros He Hv Ht. unfold get_python_cmd.
  destruct (truthy (Dict.get "pointe_env" (config w))) eqn:Htr.
  - by_step (env_configured_yes w t Htr Ht).
    destruct (negb (eq_str t "system")); [|by eexists].
    by_step (config_item_ok _ _ _ He).
    destruct Hv as [[env ->]| ->];
      [|by rewrite (get_lookup _ _ _ He) in Htr].
    unfold Path_ at 1, ret at 1. unfold bind at 1. cbn beta iota.
    destruct (bool_decide (system H = "Windows")); [|by eexists].
    by_step (config_item_ok _ _ _ Ht). destruct (eq_str t "conda"); by eexists.
  - by_step (env_configured_no w Htr). by eexists.
Qed.

End Detection.

(** X12.  [find_pointe_directory] answers with a directory only if
    somewhere below one of its seven places, which exists, there is a
    directory called [finetune] whose parent, the answer, also holds an
    entry called [config]; and it answers [None] only if no directory
    called [finetune] below any of those places has such a sibling. *)
Theorem find_pointe_directory_sound (H : platform) (w : world) :
  match (find_pointe_directory H w).1 with
  | Ok (Some d) =>
      ∃ location item,
        location ∈ pointe_locations H ∧ exists_ (fs w) location = true ∧
        finetune_below (fs w) location item ∧ is_dir (fs w) item = true ∧
        d = parent H item ∧ exists_ (fs w) (d // "config") = true
  | Ok None =>
      ∀ location item,
        location ∈ pointe_locations H → exists_ (fs w) location = true →
        finetune_below (fs w) location item → is_dir (fs w) item = true →
        exists_ (fs w) (parent H item // "config") = false
  | Raise _ => True
  end.
Proof.
  unfold find_pointe_directory, bind, get_world, ret. cbn [fst].
  change [ cwd H; parent H (cwd H); home H // "Desktop"; home H // "Documents";
           home H // "Downloads"; home H // "point-e-finetuning"; home H // "point-e" ]
    with (pointe_locations H).
  set (g := λ location : list string,
              if exists_ (fs w) location
              then map (parent H)
                     (filter (λ item, is_dir (fs w) item
                                      && exists_ (fs w) (parent H item // "config") = true)
                             (rglob (fs w) location "finetune"))
              else []).
  destruct (head (concat (map g (pointe_locations H)))) as [d|] eqn:Eh.
  - apply head_Some_elem_of, list_elem_of_In, in_concat in Eh as (l & Hl & Hd).
    apply in_map_iff in Hl as (location & <- & Hloc).
    unfold g in Hd. destruct (exists_ (fs w) location) eqn:Hex; [|done].
    apply in_map_iff in Hd as (item & <- & Hitem).
    apply list_elem_of_In, list_elem_of_filter in Hitem as [Hok Hitem].
    apply andb_true_iff in Hok as [Hdir Hconf].
    apply elem_of_rglob in Hitem.
    exists location, item. split_and!; try done. by apply list_elem_of_In.
  - apply head_None, concat_nil_Forall in Eh. rewrite Forall_forall in Eh.
    intros location item Hloc Hex Hitem Hdir.
    specialize (Eh (g location)
                  (proj2 (list_elem_of_In _ _)
                     (in_map g _ _ (proj1 (list_elem_of_In _ _) Hloc)))).
    unfold g in Eh. rewrite Hex in Eh. apply map_eq_nil in Eh.
    destruct (exists_ (fs w) (parent H item // "config")) eqn:Hconf; [|done].
    assert (Hin : item ∈ filter (λ item, is_dir (fs w) item
                                  && exists_ (fs w) (parent H item // "config") = true)
                         (rglob (fs w) location "finetune")).
    { apply list_elem_of_filter. split; [by rewrite Hdir, Hconf|by apply elem_of_rglob]. }
    rewrite Eh in Hin. by apply elem_of_nil in Hin.
Qed.

(** X13.  When [viewer_dir] is left to auto-detection and the search
    finds the viewer at [d], an auto-detection that completes has set
    [viewer_dir] to [d] and [viewer_models_dir] to [d/models]; both are on
    the disk, [d] being the first of the four places that exist with a
    [models] entry inside. *)
Theorem auto_detect_paths_viewer_found (H : platform) (w : world) (d : list string) :
  specified (Dict.get "viewer_dir" (config w)) = false →
  (find_viewer_directory H w).1 = Ok (Some d) →
  (auto_detect_paths H w).1 = Ok tt →
  let w' := (auto_detect_paths H w).2 in
  Dict.lookup "viewer_dir" (config w') = Some (JStr (path_str H d)) ∧
  Dict.lookup "viewer_models_dir" (config w')
    = Some (JStr (path_str H (d // "models"))) ∧
  exists_ (fs w) d = true ∧ exists_ (fs w) (d // "models") = true.
Proof.
  intros Hs Hfind. unfold auto_detect_paths.
  pose proof (detect_pointe_dir_frame H w) as F1.
  destruct (detect_pointe_dir H w) as [[[]|e] w1] eqn:E1; by_step E1; [|done].
  cbn [snd] in F1. intros _. cbv zeta.
  assert (Hf1 : fs w1 = fs w) by apply F1.
  assert (Hs1 : specified (Dict.get "viewer_dir" (config w1)) = false).
  { rewrite (specified_same_entry "viewer_dir" w w1); [done|].
    eapply frame_same_entry; [exact F1|by not_among]. }
  set (w2 := (set_config (Dict.set "viewer_models_dir" (JStr (path_str H (d // "models"))))
               (set_config (Dict.set "viewer_dir" (JStr (path_str H d))) w1).2).2).
  assert (E2 : detect_viewer_dir H w1 = (Ok tt, w2)).
  { unfold detect_viewer_dir. by_step (unset_or_auto_ok "viewer_dir" w1).
    rewrite Hs1. cbn [negb].
    pose proof (find_viewer_directory_disk H w w1 Hf1) as Efind.
    rewrite Hfind in Efind. by_step Efind. reflexivity. }
  by_step E2.
  pose proof (after_viewer_dir H "viewer_dir" w2
                ltac:(done) ltac:(done) ltac:(done)) as K1.
  pose proof (after_viewer_dir H "viewer_models_dir" w2
                ltac:(done) ltac:(done) ltac:(done)) as K2.
  unfold same_entry in K1, K2. rewrite K1, K2.
  split_and!.
  - unfold w2. cbn [set_config snd config]. rewrite lookup_set_ne by done.
    apply lookup_set_eq.
  - unfold w2. cbn [set_config snd config]. apply lookup_set_eq.
  - revert Hfind. unfold find_viewer_directory, bind, get_world, ret. cbn [fst].
    intros [= Hh]. apply head_Some_elem_of, list_elem_of_filter in Hh as [Hok _].
    by apply andb_true_iff in Hok as [? _].
  - revert Hfind. unfold find_viewer_directory, bind, get_world, ret. cbn [fst].
    intros [= Hh]. apply head_Some_elem_of, list_elem_of_filter in Hh as [Hok _].
    by apply andb_true_iff in Hok as [_ ?].
Qed.

Lemma auto_detect_paths_viewer_found_witness :
  let H := Demo.host Demo.settings 0 true in
  let w := Demo.controller
             [ ("pointe_dir", JStr "/srv/point-e"); ("viewer_dir", JStr "auto") ]
             Demo.disk in
  let d := ["/"; "srv"; "exhibit"; "local3dviewer"] in
  let w' := (auto_detect_paths H w).2 in
  Dict.lookup "viewer_dir" (config w') = Some (JStr "/srv/exhibit/local3dviewer") ∧
  Dict.lookup "viewer_models_dir" (config w')
    = Some (JStr "/srv/exhibit/local3dviewer/models") ∧
  exists_ (fs w) d = true ∧ exists_ (fs w) (d // "models") = true.
Proof.
  intros H w d.
  assert (H1 : specified (Dict.get "viewer_dir" (config w)) = false) by reflexivity.
  assert (H2 : (find_viewer_directory H w).1 = Ok (Some d)) by (vm_compute; reflexivity).
  assert (H3 : (auto_detect_paths H w).1 = Ok tt) by (vm_compute; reflexivity).
  exact (auto_detect_paths_viewer_found H w d H1 H2 H3).
Defined.

(** X14.  When the Point-E directory is left to auto-detection and the
    search finds nothing, the operator is asked.  With no input left
    ([input] raises [EOFError]) auto-detection ends there: the
    configuration is as it was and no detected-config file is written.
    With an answer, the answer goes into [pointe_dir] stripped of
    surrounding white space and otherwise as typed, whatever it is. *)
Theorem auto_detect_paths_asks_operator (H : platform) (w : world) :
  specified (Dict.get "pointe_dir" (config w)) = false →
  (find_pointe_directory H w).1 = Ok None →
  match stdin w with
  | [] => auto_detect_paths H w = (Raise EOFError, w)
  | line :: rest =>
      Dict.lookup "pointe_dir" (config (auto_detect_paths H w).2)
      = Some (JStr (Str.strip line))
  end.
Proof.
  intros Hs Hfind. unfold auto_detect_paths.
  assert (Hstart : detect_pointe_dir H w = request_path "pointe_dir" w).
  { unfold detect_pointe_dir. by_step (unset_or_auto_ok "pointe_dir" w).
    rewrite Hs. cbn [negb].
    pose proof (find_pointe_directory_disk H w w eq_refl) as Efind.
    rewrite Hfind in Efind. by by_step Efind. }
  destruct (stdin w) as [|line rest] eqn:Ein.
  - assert (E1 : detect_pointe_dir H w = (Raise EOFError, w)).
    { rewrite Hstart. unfold request_path, input, bind, get_world. by rewrite Ein. }
    by by_step E1.
  - set (w1 := (set_config (Dict.set "pointe_dir" (JStr (Str.strip line)))
                  (set_stdin rest w).2).2).
    assert (E1 : detect_pointe_dir H w = (Ok tt, w1)).
    { rewrite Hstart. unfold request_path, input, bind, get_world. by rewrite Ein. }
    by_step E1.
    pose proof (after_pointe_dir H "pointe_dir" w1
                  ltac:(done) ltac:(done) ltac:(done) ltac:(done) ltac:(done)) as K.
    unfold same_entry in K. rewrite K.
    unfold w1. cbn [set_config snd config]. apply lookup_set_eq.
Qed.

Lemma auto_detect_paths_asks_operator_witness :
  let H := Demo.host Demo.settings 0 true in
  let w := Demo.controller [ ("pointe_dir", JStr "auto") ] Demo.disk in
  auto_detect_paths H w = (Raise EOFError, w).
Proof.
  intros H w.
  assert (H1 : specified (Dict.get "pointe_dir" (config w)) = false) by reflexivity.
  assert (H2 : (find_pointe_directory H w).1 = Ok None) by (vm_compute; reflexivity).
  exact (auto_detect_paths_asks_operator H w H1 H2).
Defined.

(** X15.  When [pointe_env] is left to auto-detection, an auto-detection
    that completes always leaves an [env_type]: ['conda'], ['venv'] or
    ['unknown'] together with the directory of the environment found, or
    ['system'] together with [pointe_env] set to null when none was
    found.  [get_python_cmd] then returns an interpreter without
    raising. *)
Theorem auto_detect_paths_sets_env_type (H : platform) (w : world) :
  specified (Dict.get "pointe_env" (config w)) = false →
  (auto_detect_paths H w).1 = Ok tt →
  let w' := (auto_detect_paths H w).2 in
  (∃ kind, Dict.lookup "env_type" (config w') = Some (JStr kind) ∧
           kind ∈ env_kinds ∧
           ((∃ env, Dict.lookup "pointe_env" (config w') = Some (JStr env) ∧
                    kind ≠ "system") ∨
            (Dict.lookup "pointe_env" (config w') = Some JNull ∧ kind = "system"))) ∧
  ∃ py, get_python_cmd H w' = (Ok py, w').
Proof.
  intros Hs. unfold auto_detect_paths.
  pose proof (detect_pointe_dir_frame H w) as F1.
  destruct (detect_pointe_dir H w) as [[[]|e] w1] eqn:E1; by_step E1; [|done].
  pose proof (detect_viewer_dir_frame H w1) as F2.
  destruct (detect_viewer_dir H w1) as [[[]|e] w2] eqn:E2; by_step E2; [|done].
  cbn [snd] in F1, F2.
  assert (Hs2 : specified (Dict.get "pointe_env" (config w2)) = false).
  { rewrite (specified_same_entry "pointe_env" w1 w2);
      [|eapply frame_same_entry; [exact F2|by not_among]].
    rewrite (specified_same_entry "pointe_env" w w1);
      [done|eapply frame_same_entry; [exact F1|by not_among]]. }
  assert (Hblock : ∃ w3 kind v,
    (detect_python_env H w2 = (Ok tt, w3) ∨ ∃ e, detect_python_env H w2 = (Raise e, w3)) ∧
    (detect_python_env H w2).2 = w3 ∧
    ((detect_python_env H w2).1 = Ok tt →
     Dict.lookup "env_type" (config w3) = Some (JStr kind) ∧
     Dict.lookup "pointe_env" (config w3) = Some v ∧ kind ∈ env_kinds ∧
     ((∃ env, v = JStr env ∧ kind ≠ "system") ∨ (v = JNull ∧ kind = "system")))).
  { unfold detect_python_env. by_step (unset_or_auto_ok "pointe_env" w2).
    rewrite Hs2. cbn [negb].
    destruct (find_python_env_pure H w2) as [r E]. destruct r as [[e|]|e]; by_step E.
    - by_step (set_config_ok (Dict.set "pointe_env" (JStr (path_str H e))) w2).
      destruct (detect_env_type_kinds e
        (set_config (Dict.set "pointe_env" (JStr (path_str H e))) w2).2) as (kind & Ek & Hk).
      by_step Ek. eexists _, kind, (JStr (path_str H e)).
      split; [by left|]. split; [done|]. intros _.
      cbn [set_config snd config].
      split_and!.
      + apply lookup_set_eq.
      + rewrite lookup_set_ne by done. apply lookup_set_eq.
      + unfold env_kinds. rewrite !elem_of_cons in Hk |- *.
        rewrite elem_of_nil in Hk. tauto.
      + left. exists (path_str H e). split; [done|].
        rewrite !elem_of_cons, elem_of_nil in Hk. intros ->.
        by destruct Hk as [?|[?|[?|?]]].
    - eexists _, "system", JNull. split; [by left|]. split; [done|]. intros _.
      cbn [set_config snd config]. split_and!.
      + apply lookup_set_eq.
      + rewrite lookup_set_ne by done. apply lookup_set_eq.
      + unfold env_kinds. do 3 (apply elem_of_cons; right). apply elem_of_cons. by left.
      + by right.
    - eexists w2, "system", JNull. split; [right; by exists e|]. split; [done|]. done. }
  destruct Hblock as (w3 & kind & v & Hcase & _ & Hpost).
  destruct Hcase as [E3|[e E3]]; by_step E3; [|done].
  rewrite E3 in Hpost. destruct (Hpost eq_refl) as (Ht & He & Hk & Hv).
  intros _. cbv zeta.
  pose proof (after_python_env H "env_type" w3 ltac:(done)) as K1.
  pose proof (after_python_env H "pointe_env" w3 ltac:(done)) as K2.
  unfold same_entry in K1, K2. rewrite Ht in K1. rewrite He in K2.
  split.
  - exists kind. rewrite K1, K2. split_and!; [done|done|].
    destruct Hv as [[env [-> Hne]]|[-> ->]]; [left; by exists env|by right].
  - apply (get_python_cmd_returns H _ v (JStr kind)); [done| |done].
    destruct Hv as [[env [-> _]]|[-> _]]; [left; by exists env|by right].
Qed.

Lemma auto_detect_paths_sets_env_type_witness :
  let H := Demo.host Demo.settings 0 true in
  let w := Demo.controller
             [ ("pointe_dir", JStr "/srv/point-e");
               ("viewer_dir", JStr "/srv/exhibit/local3dviewer");
               ("viewer_models_dir", JStr "/srv/exhibit/local3dviewer/models") ]
             Demo.disk in
  let w' := (auto_detect_paths H w).2 in
  (∃ kind, Dict.lookup "env_type" (config w') = Some (JStr kind) ∧
           kind ∈ env_kinds ∧
           ((∃ env, Dict.lookup "pointe_env" (config w') = Some (JStr env) ∧
                    kind ≠ "system") ∨
            (Dict.lookup "pointe_env" (config w') = Some JNull ∧ kind = "system"))) ∧
  ∃ py, get_python_cmd H w' = (Ok py, w').
Proof.
  intros H w.
  assert (H1 : specified (Dict.get "pointe_env" (config w)) = false) by reflexivity.
  assert (H2 : (auto_detect_paths H w).1 = Ok tt) by (vm_compute; reflexivity).
  exact (auto_detect_paths_sets_env_type H w H1 H2).
Defined.

(** ** A generation cycle that fails at its first step *)

Section FirstStep.

Context (H : platform) (w : world).
Context (tds : string) (pd : json) (python_cmd PATH prompt : string) (w0 : world).

Let temp_pc :=
  path_of H tds // ("temp_" +:+ Datetime.strftime_compact (wall_clock H (ticks w))
                    +:+ ".npz").

Hypothesis Htd : Dict.lookup "temp_dir" (config w) = Some (JStr tds).
Hypothesis Hpd : Dict.lookup "pointe_dir" (config w) = Some pd.
Hypothesis Hpy : get_python_cmd H w = (Ok python_cmd, w).
Hypothesis Hpath : subprocess_path H w = (Ok PATH, w).
Hypothesis Hprompt : generate_random_prompt H w = (Ok prompt, w0).

Context (ended : stream_end) (f1 : gmap (list string) node).

Hypothesis Hgen :
  popen_stream H (inference_cmd H python_cmd prompt temp_pc) pd PATH (fs w)
  = (ended, f1).

Lemma prompt_drawn : ∃ n, w0 = (set_draws n w).2.
Proof.
  clear Htd Hpd Hpy Hpath Hgen.
  revert Hprompt. unfold generate_random_prompt.
  by_step (eq_refl : get_world w = (Ok w, w)).
  destruct (negb _).
  - intros [= _ <-]. exists (draws w). by destruct w.
  - unfold random_choice, bind, get_world, set_draws, ret, raise.
    repeat case_match; intros; simplify_eq; by eexists.
Qed.

(** The call up to the moment the generation tool has ended. *)
Lemma generate_object_first_step :
  ∃ w1, config w1 = config w ∧ fs w1 = f1 ∧ writes w1 = writes w ∧
        processes w1 = processes w ∧
        generate_object H w
        = match ended with
          | SpawnFailed e => (Raise e, w1)
          | StreamFailed _ => (Ok false, w1)
          | Exited code =>
              if negb (code =? 0)%Z then (Ok false, w1)
              else
                (do cwd <- config_item "pointe_dir";
                 do result <- run_command H (mesh_cmd H temp_pc) (Some cwd);
                 if negb (returncode result =? 0)%Z then ret false
                 else
                   do mesh_ply <- with_suffix temp_pc ".ply";
                   do obj_path <- convert_ply_to_obj H mesh_ply;
                   match obj_path with
                   | None => ret false
                   | Some obj_path =>
                       do v <- config_item "viewer_models_dir";
                       do models <- Path_ H v;
                       let target_path := models // "model1.obj" in
                       fs_op (FS.copy2 obj_path target_path) ;;
                       do mtl_path <- with_suffix target_path ".mtl";
                       create_mtl mtl_path ;;
                       do v <- config_item "viewer_models_dir";
                       do models <- Path_ H v;
                       let prompt_file := models // "last_prompt.txt" in
                       do now <- datetime_now H;
                       write_file prompt_file
                         (Datetime.isoformat now +:+ Json.nl +:+ prompt) ;;
                       cleanup_temp H ;;
                       ret true
                   end) w1
          end.
Proof.
  destruct prompt_drawn as [n E0].
  unfold generate_object.
  by_step Hprompt. subst w0.
  set (wa := (set_draws n w).2).
  by_step (eq_refl : datetime_now H wa
                     = (Ok (wall_clock H (ticks w)), (set_ticks (S (ticks w)) wa).2)).
  set (wb := (set_ticks (S (ticks w)) wa).2).
  assert (Hc : config wb = config w) by done.
  by_step (config_item_ok "temp_dir" (JStr tds) wb Htd).
  by_step (eq_refl : Path_ H (JStr tds) wb = (Ok (path_of H tds), wb)).
  by_step (at_config_only w _ _ wb (config_only_get_python_cmd H) Hpy Hc).
  by_step (at_config_only w _ _ wb (config_only_subprocess_path H) Hpath Hc).
  by_step (config_item_ok "pointe_dir" pd wb Hpd).
  by_step (eq_refl : get_world wb = (Ok wb, wb)).
  fold temp_pc. change (fs wb) with (fs w). rewrite Hgen.
  by_step (eq_refl : set_fs f1 wb = (Ok tt, (set_fs f1 wb).2)).
  exists (set_fs f1 wb).2. split_and!; try done.
  destruct ended as [e|e|code]; try done.
  by destruct (negb (code =? 0)%Z).
Qed.

(** X16.  When the generation tool cannot be started ([Popen] raises, as
    it does for a Point-E directory that does not exist),
    [generate_object] ends in that exception.  When reading its output
    fails or it exits with a code other than zero, [generate_object]
    returns [False] at once: no other command is run, nothing is written
    or deleted by the controller, and the disk is as the tool left it,
    with whatever the tool has put in the temp directory. *)
Theorem generate_object_point_cloud_failure :
  match ended with
  | SpawnFailed e => ∃ w', generate_object H w = (Raise e, w')
  | StreamFailed _ =>
      ∃ w', generate_object H w = (Ok false, w') ∧
            fs w' = f1 ∧ writes w' = writes w ∧ config w' = config w
  | Exited code =>
      code ≠ 0%Z →
      ∃ w', generate_object H w = (Ok false, w') ∧
            fs w' = f1 ∧ writes w' = writes w ∧ config w' = config w
  end.
Proof.
  destruct generate_object_first_step as (w1 & Hc & Hf & Hw & _ & E).
  destruct ended as [e|e|code].
  - by exists w1.
  - by exists w1.
  - intros Hcode. apply Z.eqb_neq in Hcode. rewrite Hcode in E. by exists w1.
Qed.

End FirstStep.

Lemma generate_object_point_cloud_failure_witness :
  let H := Demo.with_generation_tool (Demo.failing_tool 1)
             (Demo.host Demo.settings 0 true) in
  let w := Demo.controller Demo.settings Demo.disk in
  let temp_pc := ["/"; "tmp"; "exhibition"; "temp_20240517_093000.npz"] in
  ∃ w', generate_object H w = (Ok false, w') ∧
        fs w' = <[temp_pc := File "partial"]> (fs w) ∧
        writes w' = writes w ∧ config w' = config w.
Proof.
  intros H w temp_pc.
  pose (pd := JStr "/srv/point-e").
  pose (py := "/usr/bin/python3").
  pose (w0 := (generate_random_prompt H w).2).
  refine (generate_object_point_cloud_failure H w "/tmp/exhibition" pd py EmptyString
            "a swirling ceramic vase" w0 _ _ _ _ _
            (Exited 1) (<[temp_pc := File "partial"]> (fs w)) _ _).
  - reflexivity.
  - reflexivity.
  - apply pair_of_parts. vm_compute. reflexivity.
  - apply pair_of_parts. vm_compute. reflexivity.
  - apply pair_of_parts. vm_compute. reflexivity.
  - reflexivity.
  - discriminate.
Defined.

(** ** The controller after startup *)

Section AfterStartup.

Context (H : platform).

Lemma same_controller_trans (w1 w2 w3 : world) :
  same_controller w1 w2 → same_controller w2 w3 → same_controller w1 w3.
Proof. unfold same_controller. intros (? & ? & ? & ?) (? & ? & ? & ?). split_and!; congruence. Qed.

Lemma request_path_controller (key : string) (w : world) :
  same_controller w (request_path key w).2.
Proof.
  unfold request_path, input, bind, get_world, raise, ret, set_stdin, set_config.
  by destruct (stdin w).
Qed.

Lemma detect_pointe_dir_controller (w : world) :
  same_controller w (detect_pointe_dir H w).2.
Proof.
  unfold detect_pointe_dir. by_step (unset_or_auto_ok "pointe_dir" w).
  destruct (negb _); [|done].
  destruct (find_pointe_directory_pure H w) as [r E]. by_step E.
  destruct r; [done|apply request_path_controller].
Qed.

Lemma detect_viewer_dir_controller (w : world) :
  same_controller w (detect_viewer_dir H w).2.
Proof.
  unfold detect_viewer_dir. by_step (unset_or_auto_ok "viewer_dir" w).
  destruct (negb _); [|done].
  destruct (find_viewer_directory_pure H w) as [r E]. by_step E.
  destruct r; [done|apply request_path_controller].
Qed.

Lemma detect_python_env_controller (w : world) :
  same_controller w (detect_python_env H w).2.
Proof.
  unfold detect_python_env. by_step (unset_or_auto_ok "pointe_env" w).
  destruct (negb _); [|done].
  destruct (find_python_env_pure H w) as [r E].
  destruct r as [[e|]|e]; by_step E; [|done|done].
  by_step (set_config_ok (Dict.set "pointe_env" (JStr (path_str H e))) w).
  destruct (detect_env_type_pure e
    (set_config (Dict.set "pointe_env" (JStr (path_str H e))) w).2) as [kind Ek].
  by_step Ek. done.
Qed.

Lemma detect_temp_dir_controller (w : world) :
  same_controller w (detect_temp_dir H w).2.
Proof.
  unfold detect_temp_dir. by_step (unset_or_auto_ok "temp_dir" w).
  destruct (negb _); [|done]. by destruct (bool_decide _).
Qed.

Lemma save_config_controller (w : world) :
  same_controller w (save_config H w).2.
Proof.
  unfold save_config. by_step (eq_refl : get_world w = (Ok w, w)).
  pose proof (write_file_effect (path_of H detected_config_file)
                (Json.dumps (JObj (config w))) w) as Hw.
  unfold write_file, bind, fs_op in *.
  by destruct (FS.write_text _ _ _).
Qed.

Lemma auto_detect_paths_controller (w : world) :
  same_controller w (auto_detect_paths H w).2.
Proof.
  revert w. unfold auto_detect_paths.
  apply seq_closed; [apply same_controller_trans|apply detect_pointe_dir_controller|].
  intros _.
  apply seq_closed; [apply same_controller_trans|apply detect_viewer_dir_controller|].
  intros _.
  apply seq_closed; [apply same_controller_trans|apply detect_python_env_controller|].
  intros _.
  apply seq_closed; [apply same_controller_trans|apply detect_temp_dir_controller|].
  intros _. apply save_config_controller.
Qed.

Lemma make_directory_controller (k : string) (w : world) :
  same_controller w ((do v <- config_item k; do p <- Path_ H v;
                      fs_op (FS.mkdir_parents p)) w).2.
Proof.
  unfold bind, config_item, Path_, ret, raise, fs_op.
  destruct (Dict.lookup k (config w)) as [v|]; [|done].
  destruct v; try done. by destruct (FS.mkdir_parents _ _).
Qed.

Lemma setup_directories_controller (w : world) :
  same_controller w (setup_directories H w).2.
Proof.
  revert w. unfold setup_directories.
  apply seq_closed; [apply same_controller_trans|apply make_directory_controller|].
  intros _. apply make_directory_controller.
Qed.

End AfterStartup.

(** X17.  A startup ([__init__]) that completes leaves a controller that
    is running, tracks no process yet, has registered [cleanup] to run at
    exit and the handler for SIGINT and SIGTERM, holds the prompt table
    of the prompt file, and whose configuration names a temp directory
    and a models directory that both exist as directories; so
    [cleanup_temp] can no longer fail on a missing entry. *)
Theorem init_postcondition
    (H : platform) (config_path prompts_path : string) (w0 : world) :
  (init H config_path prompts_path w0).1 = Ok tt →
  let w' := (init H config_path prompts_path w0).2 in
  running w' = true ∧ processes w' = [] ∧
  hooks w' = hooks w0 ++ [AtExit; OnSignal "SIGINT"; OnSignal "SIGTERM"] ∧
  prompts w' = load_table (csv_reader H prompts_path (fs w0)) ∧
  ∃ tds vds,
    Dict.lookup "temp_dir" (config w') = Some (JStr tds) ∧
    Dict.lookup "viewer_models_dir" (config w') = Some (JStr vds) ∧
    is_dir (fs w') (path_of H tds) = true ∧
    is_dir (fs w') (path_of H vds) = true ∧
    (cleanup_temp H w').1 = Ok tt.
Proof.
  unfold init.
  by_step (eq_refl : set_processes [] w0 = (Ok tt, (set_processes [] w0).2)).
  set (w1 := (set_processes [] w0).2).
  by_step (eq_refl : set_running true w1 = (Ok tt, (set_running true w1).2)).
  set (w2 := (set_running true w1).2).
  destruct (load_config_effect H config_path w2) as [[d E]|[e E]]; by_step E; [|done].
  set (w3 := (set_config (λ _, d) w2).2).
  by_step (load_prompts_effect H prompts_path w3).
  set (w4 := (set_prompts (load_table (csv_reader H prompts_path (fs w3))) w3).2).
  pose proof (auto_detect_paths_controller H w4) as (P5 & R5 & U5 & K5).
  destruct (auto_detect_paths H w4) as [[[]|e] w5] eqn:E5; by_step E5; [|done].
  pose proof (setup_directories_controller H w5) as (P6 & R6 & U6 & K6).
  pose proof (setup_directories_outcome H w5) as Hdirs.
  destruct (setup_directories H w5) as [[[]|e] w6] eqn:E6; by_step E6; [|done].
  cbn [fst snd] in *. intros _.
  destruct (Hdirs eq_refl) as (tds & vds & Htd & Hvd & Hd1 & Hd2 & Hc & _ & _).
  cbn [setup_cleanup]. unfold setup_cleanup, bind, add_hook.
  cbn [fst snd running processes hooks prompts config fs].
  split_and!.
  - by rewrite U6, U5.
  - by rewrite R6, R5.
  - rewrite K6, K5. cbn. by rewrite <- !app_assoc.
  - by rewrite P6, P5.
  - exists tds, vds. rewrite Hc. split_and!; try done.
    match goal with
    | |- (cleanup_temp H ?w).1 = _ =>
        rewrite (cleanup_temp_effect H w tds); [done|]
    end.
    cbn [config]. exact Htd.
Qed.

Lemma init_postcondition_witness :
  let H := Demo.host Demo.settings 0 true in
  let w0 := Demo.controller [] Demo.disk in
  (init H "exhibition_config.json" "prompts.csv" w0).1 = Ok tt ∧
  let w' := (init H "exhibition_config.json" "prompts.csv" w0).2 in
  running w' = true ∧ processes w' = [] ∧
  hooks w' = hooks w0 ++ [AtExit; OnSignal "SIGINT"; OnSignal "SIGTERM"] ∧
  prompts w' = load_table (csv_reader H "prompts.csv" (fs w0)) ∧
  ∃ tds vds,
    Dict.lookup "temp_dir" (config w') = Some (JStr tds) ∧
    Dict.lookup "viewer_models_dir" (config w') = Some (JStr vds) ∧
    is_dir (fs w') (path_of H tds) = true ∧
    is_dir (fs w') (path_of H vds) = true ∧
    (cleanup_temp H w').1 = Ok tt.
Proof.
  intros H w0.
  assert (Hok : (init H "exhibition_config.json" "prompts.csv" w0).1 = Ok tt)
    by (vm_compute; reflexivity).
  exact (conj Hok (init_postcondition H "exhibition_config.json" "prompts.csv" w0 Hok)).
Defined.

(** ** The viewer server and shutdown *)

(** X18.  [start_viewer_server] starts [<sys.executable> -m http.server
    8000] in the viewer directory and puts its handle at the end of the
    tracked processes, so that [cleanup] reaches it: after [cleanup] the
    server is still alive only if it could be neither terminated nor
    killed.  Without a [viewer_dir] entry it raises [KeyError] and
    starts nothing; when the server cannot be started the error is
    raised and no process is tracked. *)
Theorem start_viewer_server_tracked
    (H : platform) (popen : list string → json → result process) (w : world) :
  match Dict.lookup "viewer_dir" (config w) with
  | None => start_viewer_server H popen w = (Raise (KeyError "viewer_dir"), w)
  | Some viewer_dir =>
      match popen [sys_executable H; "-m"; "http.server"; "8000"] viewer_dir with
      | Raise e => start_viewer_server H popen w = (Raise e, w)
      | Ok server =>
          ∃ w1, start_viewer_server H popen w = (Ok server, w1) ∧
                processes w1 = processes w ++ [server] ∧
                config w1 = config w ∧ fs w1 = fs w ∧
                processes (cleanup H w1).2
                = map stop_process (processes w) ++ [stop_process server] ∧
                (alive (stop_process server) = true →
                 kill_raises server = true ∧
                 (terminate_raises server = true ∨ ignores_terminate server = true))
      end
  end.
Proof.
  unfold start_viewer_server.
  destruct (Dict.lookup "viewer_dir" (config w)) as [viewer_dir|] eqn:Ev.
  - by_step (config_item_ok _ _ _ Ev).
    destruct (popen _ viewer_dir) as [server|e] eqn:Ep.
    + unfold lift at 1, bind at 1. cbn beta iota.
      by_step (eq_refl : get_world w = (Ok w, w)).
      eexists. split; [reflexivity|]. cbn [snd set_processes processes config fs].
      split_and!; try done.
      * match goal with
        | |- processes (cleanup H ?w1).2 = _ =>
            destruct (cleanup_processes H w1) as [_ Hp]; rewrite Hp
        end.
        cbn [processes]. by rewrite map_app.
      * rewrite stop_process_alive.
        destruct server as [n [] [] [] []]; simpl; try done; auto.
    + reflexivity.
  - by by_step (config_item_missing _ _ Ev).
Qed.

(** ** The search for an environment *)

Section EnvironmentSearch.

Context (H : platform).

Lemma elem_of_iterdir (f : gmap (list string) node) (d p : list string) :
  p ∈ iterdir f d ↔ is_Some (f !! p) ∧ removelast p = d ∧ p ≠ [].
Proof.
  unfold iterdir, is_child.
  rewrite list_elem_of_filter, list_elem_of_fmap, bool_decide_eq_true.
  split.
  - intros ([Hd Hne] & [[q n] [-> Hq]]).
    apply elem_of_map_to_list in Hq. simpl in *. by split_and!; [exists n|..].
  - intros ([n Hn] & Hd & Hne). split; [done|].
    exists (p, n). split; [done|]. by apply elem_of_map_to_list.
Qed.

Lemma search_conda_sound (f : gmap (list string) node) (e : list string) :
  ∀ conda_paths,
    search_conda conda_paths f = Ok (Some e) →
    ∃ conda_dir, conda_dir ∈ conda_paths ∧ is_dir f conda_dir = true ∧
                 removelast e = conda_dir ∧ e ≠ [] ∧ is_dir f e = true ∧
                 Str.contains (Str.lower (Path.name e)) "point" = true.
Proof.
  induction conda_paths as [|d rest IH]; [done|]. cbn [search_conda].
  destruct (exists_ f d) eqn:Hex.
  - destruct (is_dir f d) eqn:Hdir; [|done].
    destruct (filter _ (iterdir f d)) as [|env l] eqn:Ef.
    + intros Hs. destruct (IH Hs) as (c & Hc & Hrest). exists c. split; [by right|done].
    + intros [= <-].
      assert (Hin : env ∈ env :: l) by left. rewrite <- Ef in Hin.
      apply list_elem_of_filter in Hin as [Hok Hin].
      apply andb_true_iff in Hok as [He Hname].
      apply elem_of_iterdir in Hin as (_ & Hd & Hne).
      exists d. split_and!; try done. by left.
  - intros Hs. destruct (IH Hs) as (c & Hc & Hrest). exists c. split; [by right|done].
Qed.

End EnvironmentSearch.

(** X19.  With no environment active in the process ([CONDA_DEFAULT_ENV]
    with [CONDA_PREFIX], or [VIRTUAL_ENV]), an environment that
    [find_python_env] returns is either a directory directly inside one of
    the four conda directories of the platform whose name contains
    [point], upper or lower case, or else the entry [venv] of the
    configured Point-E directory, or its entry [env] when there is no
    [venv]. *)
Theorem find_python_env_sound (H : platform) (w : world) (e : list string) :
  env_truthy H "CONDA_DEFAULT_ENV" && env_truthy H "CONDA_PREFIX" = false →
  env_truthy H "VIRTUAL_ENV" = false →
  (find_python_env H w).1 = Ok (Some e) →
  (∃ conda_dir,
     conda_dir ∈ conda_locations H ∧ is_dir (fs w) conda_dir = true ∧
     removelast e = conda_dir ∧ e ≠ [] ∧ is_dir (fs w) e = true ∧
     Str.contains (Str.lower (Path.name e)) "point" = true) ∨
  (∃ pd,
     Dict.get "pointe_dir" (config w) = JStr pd ∧ pd ≠ EmptyString ∧
     exists_ (fs w) e = true ∧
     (e = path_of H pd // "venv" ∨
      (e = path_of H pd // "env" ∧ exists_ (fs w) (path_of H pd // "venv") = false))).
Proof.
  intros Hconda Hvenv. unfold find_python_env. rewrite Hconda, Hvenv.
  by_step (eq_refl : get_world w = (Ok w, w)).
  change (if bool_decide (system H = "Windows")
          then [ home H // "miniconda3" // "envs"; home H // "anaconda3" // "envs";
                 path_of H "C:\ProgramData\miniconda3\envs";
                 path_of H "C:\ProgramData\anaconda3\envs" ]
          else [ home H // "miniconda3" // "envs"; home H // "anaconda3" // "envs";
                 path_of H "/opt/conda/envs"; path_of H "/usr/local/conda/envs" ])
    with (conda_locations H).
  destruct (search_conda (conda_locations H) (fs w)) as [[env|]|err] eqn:Es;
    unfold lift at 1, bind at 1; cbn beta iota; [| |done].
  - intros [= <-]. left. by apply search_conda_sound.
  - by_step (config_get_ok "pointe_dir" w).
    destruct (truthy (Dict.get "pointe_dir" (config w))) eqn:Ht; [|done].
    destruct (Dict.get "pointe_dir" (config w)) as [| | |pd| |] eqn:Ep; try done.
    unfold Path_ at 1, ret at 1. unfold bind at 1. cbn beta iota.
    assert (Hpd : pd ≠ EmptyString) by (intros ->; done).
    destruct (exists_ (fs w) (path_of H pd // "venv")) eqn:Hv.
    + intros [= <-]. right. exists pd. split_and!; try done. by left.
    + destruct (exists_ (fs w) (path_of H pd // "env")) eqn:He; [|done].
      intros [= <-]. right. exists pd. split_and!; try done. by right.
Qed.

Lemma find_python_env_sound_witness :
  let H := Demo.host Demo.settings 0 true in
  let w := Demo.controller Demo.settings
             (Demo.dirs [ ["/"; "opt"]; ["/"; "opt"; "conda"];
                          ["/"; "opt"; "conda"; "envs"];
                          ["/"; "opt"; "conda"; "envs"; "base"];
                          ["/"; "opt"; "conda"; "envs"; "Point-E"] ] Demo.disk) in
  let e := ["/"; "opt"; "conda"; "envs"; "Point-E"] in
  (find_python_env H w).1 = Ok (Some e) ∧
  ((∃ conda_dir,
      conda_dir ∈ conda_locations H ∧ is_dir (fs w) conda_dir = true ∧
      removelast e = conda_dir ∧ e ≠ [] ∧ is_dir (fs w) e = true ∧
      Str.contains (Str.lower (Path.name e)) "point" = true) ∨
   (∃ pd,
      Dict.get "pointe_dir" (config w) = JStr pd ∧ pd ≠ EmptyString ∧
      exists_ (fs w) e = true ∧
      (e = path_of H pd // "venv" ∨
       (e = path_of H pd // "env" ∧ exists_ (fs w) (path_of H pd // "venv") = false)))).
Proof.
  intros H w e.
  assert (Hfound : (find_python_env H w).1 = Ok (Some e)) by (vm_compute; reflexivity).
  exact (conj Hfound (find_python_env_sound H w e eq_refl eq_refl Hfound)).
Defined.

(** ** The format conversion *)

Section Conversion.

Context (H : platform) (w : world).
Context (tds python_cmd stem : string) (d : list string).

Let script := path_of H tds // "convert.py".
Let ply_path := d // (stem +:+ ".ply").
Let obj_path := d // (stem +:+ ".obj").

Hypothesis Htd : Dict.lookup "temp_dir" (config w) = Some (JStr tds).
Hypothesis Hpy : get_python_cmd H w = (Ok python_cmd, w).
Hypothesis Hstem : stem ≠ EmptyString.

Context (f1 f2 : gmap (list string) node) (r : completed).

Hypothesis Hscript :
  FS.write_text script (convert_script_content H ply_path obj_path) (fs w) = Ok f1.
Hypothesis Hrun :
  run_command H (python_cmd +:+ " " +:+ path_str H script) (Some (JStr tds))
    (on_disk f1 w)
  = (Ok r, on_disk f2 w).

(** X20.  [convert_ply_to_obj] writes the script [convert.py] into the
    temp directory, naming in it the [.ply] file and the [.obj] file of
    the same stem beside it, and runs [<python_cmd> <script>] in the temp
    directory.  It returns the [.obj] path when that command exits with
    code zero, whether or not the file has been produced, and [None]
    otherwise; in both cases the script is the only file the controller
    itself writes, and it is left where it is. *)
Theorem convert_ply_to_obj_outcome :
  ∃ w', convert_ply_to_obj H ply_path w
        = (Ok (if (returncode r =? 0)%Z then Some obj_path else None), w') ∧
        fs w' = f2 ∧ writes w' = writes w ++ [script] ∧ config w' = config w ∧
        f1 !! script = Some (File (convert_script_content H ply_path obj_path)).
Proof.
  unfold convert_ply_to_obj.
  assert (Esuffix : with_suffix ply_path ".obj" w = (Ok obj_path, w)).
  { apply with_suffix_ok. by apply (with_suffix_extension d stem "ply"). }
  by_step Esuffix.
  by_step (config_item_ok _ _ _ Htd).
  by_step (eq_refl : Path_ H (JStr tds) w = (Ok (path_of H tds), w)).
  fold script.
  set (wa := (log_write script (on_disk f1 w)).2).
  assert (Ewrite : write_file script (convert_script_content H ply_path obj_path) w
                   = (Ok tt, wa)).
  { unfold write_file, bind, fs_op. by rewrite Hscript. }
  by_step Ewrite.
  assert (Hc : config wa = config w) by done.
  by_step (at_config_only w _ _ wa (config_only_get_python_cmd H) Hpy Hc).
  by_step (config_item_ok "temp_dir" (JStr tds) wa Htd).
  assert (Erun : run_command H (python_cmd +:+ " " +:+ path_str H script)
                   (Some (JStr tds)) wa = (Ok r, on_disk f2 wa)).
  { apply (at_disk_only w _ _ f1 f2 wa); [apply disk_only_run_command|done..]. }
  by_step Erun.
  apply write_text_lookup in Hscript.
  destruct (returncode r =? 0)%Z; eexists; (split; [reflexivity|]);
    (split_and!; [done..|]); rewrite Hscript; apply lookup_insert_eq.
Qed.

End Conversion.

Lemma convert_ply_to_obj_outcome_witness :
  let H := Demo.host Demo.settings 0 false in
  let w := Demo.controller Demo.settings Demo.disk in
  let td := ["/"; "tmp"; "exhibition"] in
  let script := td // "convert.py" in
  let ply := td // "temp_20240517_093000.ply" in
  let obj := td // "temp_20240517_093000.obj" in
  ∃ w', convert_ply_to_obj H ply w = (Ok (Some obj), w') ∧
        fs w' !! obj = None ∧ writes w' = writes w ++ [script] ∧
        fs w' !! script = Some (File (convert_script_content H ply obj)).
Proof.
  intros H w td script ply obj.
  pose (f1 := <[script := File (convert_script_content H ply obj)]> (fs w)).
  pose (f2 := fs (run_command H ("/usr/bin/python3" +:+ " " +:+ path_str H script)
                    (Some (JStr "/tmp/exhibition")) (on_disk f1 w)).2).
  assert (Hne : "temp_20240517_093000" ≠ EmptyString) by discriminate.
  destruct (convert_ply_to_obj_outcome H w "/tmp/exhibition" "/usr/bin/python3"
              "temp_20240517_093000" td eq_refl
              ltac:(apply pair_of_parts; vm_compute; reflexivity) Hne
              f1 f2 (Demo.done_with 0)
              ltac:(apply write_text_ok; vm_compute; reflexivity)
              ltac:(apply run_command_parts; vm_compute; reflexivity))
    as (w' & E & Hf & Hw & _ & _).
  exists w'. split; [exact E|]. rewrite Hf. split; [vm_compute; reflexivity|].
  split; [exact Hw|]. vm_compute. reflexivity.
Defined.

(** ** An operator who names the viewer *)



(** ** Commands that already name the interpreter *)

Section InterpreterPath.

Lemma startswith_long (s p rest : string) :
  String.length p ≤ String.length s →
  Str.startswith (s +:+ rest) p = Str.startswith s p.
Proof.
  revert s. induction p as [|a p IH]; intros s Hlen; [done|].
  destruct s as [|b s]; [simpl in Hlen; lia|].
  rewrite append_cons. simpl. destruct (ascii_dec a b); [|done].
  apply IH. simpl in Hlen. lia.
Qed.

Lemma startswith_split (s p : string) :
  Str.startswith s p = true → s = p +:+ Str.drop (String.length p) s.
Proof.
  revert s. induction p as [|a p IH]; intros s; [done|].
  destruct s as [|b s]; [done|]. simpl.
  destruct (ascii_dec a b) as [->|]; [|done].
  intros Hs. rewrite append_cons. f_equal. by apply IH.
Qed.

End InterpreterPath.

(** X22.  [convert_ply_to_obj] and [check_dependencies] hand [run_command]
    commands that begin with the interpreter of [get_python_cmd].  In an
    environment of the path-substitution kind such a command reaches the
    shell unchanged, unless the interpreter path itself begins with the
    letters [python] (an environment directory given as a relative path
    like [python-env]): then [run_command] takes this beginning for the
    bare interpreter name and replaces it, so that the shell is given the
    interpreter path followed by the rest of that same path. *)
Theorem run_command_repeats_interpreter_path
    (H : platform) (w : world) (env rest : string) (t : json) (cwd : option json) :
  Dict.lookup "pointe_env" (config w) = Some (JStr env) →
  env ≠ EmptyString →
  Dict.lookup "env_type" (config w) = Some t →
  eq_str t "conda" = false →
  eq_str t "system" = false →
  let python_cmd := venv_python H env in
  6 ≤ String.length python_cmd →
  get_python_cmd H w = (Ok python_cmd, w) ∧
  run_command H (python_cmd +:+ rest) cwd w
  = subprocess_run H
      (if Str.startswith python_cmd "python"
       then python_cmd +:+ Str.drop 6 python_cmd +:+ rest
       else python_cmd +:+ rest) cwd w.
Proof.
  intros He Hne Ht Hc Hs python_cmd Hlen.
  split; [by apply (get_python_cmd_substitution H w env t)|].
  rewrite (run_command_substitution H w env t) by done.
  unfold substituted. fold python_cmd.
  rewrite (startswith_long python_cmd "python" rest) by done.
  destruct (Str.startswith python_cmd "python") eqn:Hstart; [|done].
  pose proof (startswith_split _ _ Hstart) as Hsplit.
  change (String.length "python") with 6 in Hsplit.
  assert (E : python_cmd +:+ rest = "python" +:+ Str.drop 6 python_cmd +:+ rest).
  { rewrite Hsplit at 1. apply append_assoc. }
  by rewrite E, replace_first_prefix.
Qed.

Lemma run_command_repeats_interpreter_path_witness :
  let H := Demo.host Demo.settings 0 true in
  let w := Demo.controller
             (Dict.set "env_type" (JStr "venv")
                (Dict.set "pointe_env" (JStr "python-env") Demo.settings))
             Demo.disk in
  get_python_cmd H w = (Ok "python-env/bin/python", w) ∧
  run_command H ("python-env/bin/python" +:+ " /tmp/exhibition/convert.py") None w
  = subprocess_run H
      "python-env/bin/python-env/bin/python /tmp/exhibition/convert.py" None w.
Proof.
  intros H w.
  assert (Hne : "python-env" ≠ EmptyString) by discriminate.
  assert (Hlen : 6 ≤ String.length (venv_python H "python-env"))
    by (vm_compute; lia).
  exact (run_command_repeats_interpreter_path H w "python-env"
           " /tmp/exhibition/convert.py" (JStr "venv") None
           eq_refl Hne eq_refl eq_refl eq_refl Hlen).
Defined.
